(** * Food tracker: the store, the expiry sweep, statistics and the account routes

    A shallow embedding of [main.py].  The relational store is three lists of
    rows; every route and helper is a computation in a small state-and-exception
    monad over the store, the wall clock and the console.  The definitions keep
    the names of the Python functions they embed. *)

From Stdlib Require Import ZArith List String Ascii Bool Lia Floats Sorted Permutation.
Import ListNotations.
Local Open Scope string_scope.
Local Open Scope Z_scope.
Local Open Scope list_scope.

(** ** Dates

    A naive [datetime] is the number of microseconds since the start of the
    proleptic calendar, a [timedelta] a signed number of microseconds. *)

Definition datetime := Z.
Definition timedelta := Z.

Definition us_per_day : Z := 86400000000.

(** [timedelta(days=n)] *)
Definition timedelta_of_days (n : Z) : timedelta := n * us_per_day.

(** [td.days]: the day component of a normalised timedelta (floor division). *)
Definition timedelta_days (td : timedelta) : Z := td / us_per_day.

(** [dt.replace(hour=0, minute=0, second=0, microsecond=0)] *)
Definition at_midnight (dt : datetime) : datetime := us_per_day * (dt / us_per_day).

(** [dt.date()], as a day number. *)
Definition date_of (dt : datetime) : Z := dt / us_per_day.

(** ** Numbers

    Prices are binary64 floats (the [Float] column); counts are integers.
    [sum], [round] and [/] mix the two as Python does. *)

Inductive number :=
| PyInt (z : Z)
| PyFloat (f : float).

(** The double nearest to [n / d] (ties to even), signed by [neg]. *)
Definition ratio_to_float (neg : bool) (n d : positive) : float :=
  let '(mz, ez, lz) := SFdiv_core_binary prec emax (Zpos n) 0 (Zpos d) 0 in
  SF2Prim (binary_round_aux prec emax neg mz ez lz).

(** [float(z)] for an integer [z]. *)
Definition float_of_int (z : Z) : float :=
  SF2Prim (binary_normalize prec emax z 0 false).

(** [a / b] on integers with [b > 0]: true division, correctly rounded. *)
Definition int_truediv (a : Z) (b : positive) : float :=
  match a with
  | Z0 => zero
  | Zpos n => ratio_to_float false n b
  | Zneg n => ratio_to_float true n b
  end.

Definition to_float (x : number) : float :=
  match x with
  | PyInt z => float_of_int z
  | PyFloat f => f
  end.

Definition py_add (x y : number) : number :=
  match x, y with
  | PyInt a, PyInt b => PyInt (a + b)
  | _, _ => PyFloat (to_float x + to_float y)
  end.

Definition py_mul (x y : number) : number :=
  match x, y with
  | PyInt a, PyInt b => PyInt (a * b)
  | _, _ => PyFloat (to_float x * to_float y)
  end.

(** [sum(xs)]: accumulation from the integer [0], left to right, every
    partial sum rounded to a double. *)
Definition py_sum (xs : list number) : number := fold_left py_add xs (PyInt 0).

(** A float is falsy exactly when it compares equal to zero. *)
Definition float_truthy (f : float) : bool := negb (PrimFloat.eqb f zero).

(** [p or d] for an optional float [p]: [None] and falsy floats give [d]. *)
Definition float_or (p : option float) (d : float) : float :=
  match p with
  | Some f => if float_truthy f then f else d
  | None => d
  end.

(** The integer nearest to [n / d], ties to even. *)
Definition round_half_even (n : Z) (d : positive) : Z :=
  let q := n / Zpos d in
  match 2 * (n mod Zpos d) ?= Zpos d with
  | Lt => q
  | Gt => q + 1
  | Eq => if Z.even q then q else q + 1
  end.

(** [round(x, ndigits)] on a float, [ndigits >= 0]: the exact binary value is
    rounded to [ndigits] decimals (ties to even) and the decimal result is
    read back as the nearest double. *)
Definition float_round (x : float) (ndigits : N) : float :=
  match Prim2SF x with
  | S754_finite s m e =>
      let p := 10 ^ Z.of_N ndigits in
      let r :=
        match e with
        | Zneg k => round_half_even (Zpos m * p) (Pos.pow 2 k)
        | _ => Zpos m * 2 ^ e * p
        end in
      match r, p with
      | Zpos rp, Zpos pp => ratio_to_float s rp pp
      | _, _ => if s then neg_zero else zero
      end
  | _ => x
  end.

(** [round(x, ndigits)]: an integer is returned as it is. *)
Definition py_round (x : number) (ndigits : N) : number :=
  match x with
  | PyInt z => PyInt z
  | PyFloat f => PyFloat (float_round f ndigits)
  end.

(** ** Models *)

Module User.
Record t := mk {
  id : Z;
  username : string;
  email : string;
  password : string;
  phone : option string;
  is_admin : bool;
  is_approved : bool;
  created_at : datetime
}.

Definition with_is_approved (b : bool) (u : t) : t :=
  mk (id u) (username u) (email u) (password u) (phone u) (is_admin u) b (created_at u).
End User.

Module FoodItem.
Record t := mk {
  id : Z;
  user_id : Z;
  name : string;
  barcode : option string;
  category : option string;
  purchase_date : datetime;
  expiry_date : datetime;
  quantity : Z;
  price : option float;
  image_path : option string;
  is_expired : bool;
  is_used : bool
}.

Definition with_is_expired (b : bool) (i : t) : t :=
  mk (id i) (user_id i) (name i) (barcode i) (category i) (purchase_date i)
     (expiry_date i) (quantity i) (price i) (image_path i) b (is_used i).

Definition with_is_used (b : bool) (i : t) : t :=
  mk (id i) (user_id i) (name i) (barcode i) (category i) (purchase_date i)
     (expiry_date i) (quantity i) (price i) (image_path i) (is_expired i) b.
End FoodItem.

Module Notification.
Record t := mk {
  id : Z;
  user_id : Z;
  food_item_id : Z;
  notification_type : string;
  sent_at : datetime;
  message : string
}.
End Notification.

(** ** The store: one list of rows per table, in rowid order. *)

Record Store := mkStore {
  users : list User.t;
  food_items : list FoodItem.t;
  notifications : list Notification.t
}.

(** The rowid a fresh row receives: one more than the largest in the table. *)
Definition next_id (ids : list Z) : Z := fold_right Z.max 0 ids + 1.

(** The primary key of [food_items]. *)
Definition item_ids_unique (s : Store) : Prop :=
  NoDup (map FoodItem.id (food_items s)).

(** ** The world a request runs in *)

Record Clock := mkClock {
  clock_now : nat -> datetime;     (* k-th reading of the clock, local time *)
  clock_utcnow : nat -> datetime   (* the same reading in UTC *)
}.

Record World := mkWorld {
  db : Store;
  tick : nat;              (* number of clock readings taken so far *)
  stdout : list string     (* lines printed so far *)
}.

Record HTTPException := mkHTTPException {
  status_code : Z;
  detail : string
}.

Inductive result (A : Type) :=
| Ok (a : A)
| Raise (e : HTTPException).
Arguments Ok {A} a.
Arguments Raise {A} e.

Definition M (A : Type) : Type := World -> result A * World.

Definition ret {A} (a : A) : M A := fun w => (Ok a, w).

Definition bind {A B} (m : M A) (k : A -> M B) : M B :=
  fun w =>
    match m w with
    | (Ok a, w') => k a w'
    | (Raise e, w') => (Raise e, w')
    end.

Definition raise {A} (e : HTTPException) : M A := fun w => (Raise e, w).

Declare Scope monad_scope.
Delimit Scope monad_scope with monad.
Notation "x <- m ;; k" := (bind m (fun x => k))
  (at level 100, m at next level, right associativity) : monad_scope.
Notation "m ;; k" := (bind m (fun _ => k))
  (at level 100, right associativity) : monad_scope.
Local Open Scope monad_scope.

(** The world a computation leaves behind. *)
Definition exec {A} (m : M A) (w : World) : World := snd (m w).

Definition get_store : M Store := fun w => (Ok (db w), w).

Definition set_store (s : Store) : M unit :=
  fun w => (Ok tt, mkWorld s (tick w) (stdout w)).

Definition print (line : string) : M unit :=
  fun w => (Ok tt, mkWorld (db w) (tick w) (stdout w ++ [line])).

(** [for x in xs: body(x)] *)
Fixpoint for_each {A} (xs : list A) (body : A -> M unit) : M unit :=
  match xs with
  | [] => ret tt
  | x :: rest => body x ;; for_each rest body
  end.

(** [for x in xs: acc = body(x, acc)] *)
Fixpoint for_fold {A S} (xs : list A) (acc : S) (body : A -> S -> M S) : M S :=
  match xs with
  | [] => ret acc
  | x :: rest => acc' <- body x acc ;; for_fold rest acc' body
  end.

(** ** Requests and responses *)

(** What a handler sees of the request: the [user_id] entry of its session. *)
Record Request := mkRequest {
  session_user_id : option Z
}.

(** The dictionary returned by [calculate_user_stats]. *)
Record Stats := mkStats {
  total_items : Z;
  expired_items : Z;
  used_items : Z;
  active_items : Z;
  money_saved : number;
  money_wasted : number;
  waste_percentage : number
}.

(** The three lists the dashboard renders; each item carries its
    [days_remaining] attribute. *)
Record Buckets := mkBuckets {
  expired : list (FoodItem.t * Z);
  expiring_soon : list (FoodItem.t * Z);
  fresh : list (FoodItem.t * Z)
}.

Inductive Context :=
| ErrorContext (error : string)
| DashboardContext (user : User.t) (buckets : Buckets) (stats : Stats).

Inductive Response :=
| RedirectResponse (url : string) (status : Z)
| TemplateResponse (name : string) (context : Context)
| NullResponse.

(** [len(xs)] *)
Definition len {A} (xs : list A) : Z := Z.of_nat (List.length xs).

(** [ORDER BY expiry_date]: ascending, rows with equal dates in rowid order. *)
Fixpoint insert_by_expiry (x : FoodItem.t) (l : list FoodItem.t) : list FoodItem.t :=
  match l with
  | [] => [x]
  | y :: rest =>
      if FoodItem.expiry_date x <=? FoodItem.expiry_date y then x :: l
      else y :: insert_by_expiry x rest
  end.

Definition order_by_expiry_date (l : list FoodItem.t) : list FoodItem.t :=
  fold_right insert_by_expiry [] l.

(** ** The environment of the application

    [clk] is the wall clock, read anew at every call of [datetime.now()] and
    [datetime.utcnow()]; [sha256_hexdigest] is [hashlib]'s digest. *)

Section App.

Variable clk : Clock.
Variable sha256_hexdigest : string -> string.

(** [datetime.now()] *)
Definition datetime_now : M datetime :=
  fun w => (Ok (clock_now clk (tick w)), mkWorld (db w) (S (tick w)) (stdout w)).

(** [datetime.utcnow()] *)
Definition datetime_utcnow : M datetime :=
  fun w => (Ok (clock_utcnow clk (tick w)), mkWorld (db w) (S (tick w)) (stdout w)).

(** *** Queries and statements *)

(** [db.query(FoodItem).filter(p).all()] *)
Definition query_food_items (p : FoodItem.t -> bool) : M (list FoodItem.t) :=
  s <- get_store ;; ret (filter p (food_items s)).

(** [db.query(Notification).filter(p).all()] *)
Definition query_notifications (p : Notification.t -> bool) : M (list Notification.t) :=
  s <- get_store ;; ret (filter p (notifications s)).

(** [db.get(User, user_id)] *)
Definition get_user (user_id : Z) : M (option User.t) :=
  s <- get_store ;; ret (find (fun u => User.id u =? user_id) (users s)).

(** [item.is_expired = True] once committed: the row with the item's key. *)
Definition mark_expired (item_id : Z) (items : list FoodItem.t) : list FoodItem.t :=
  map (fun i => if FoodItem.id i =? item_id then FoodItem.with_is_expired true i else i) items.

Definition update_is_expired (item_id : Z) : M unit :=
  s <- get_store ;;
  set_store (mkStore (users s) (mark_expired item_id (food_items s)) (notifications s)).

(** [db.add(Notification(...)); db.commit()]: the row gets the next rowid and
    [sent_at] defaults to [datetime.utcnow()]. *)
Definition insert_notification (user_id food_item_id : Z) (notif_type message : string)
  : M unit :=
  sent_at <- datetime_utcnow ;;
  s <- get_store ;;
  let n := Notification.mk (next_id (map Notification.id (notifications s)))
             user_id food_item_id notif_type sent_at message in
  set_store (mkStore (users s) (food_items s) (notifications s ++ [n])).

(** *** Food tracking utilities *)

Definition calculate_days_until_expiry (expiry_date : datetime) : M Z :=
  now <- datetime_now ;;
  let today := at_midnight now in
  let expiry := at_midnight expiry_date in
  ret (timedelta_days (expiry - today)).

Definition send_sms_notification (phone message : string) : M unit :=
  print ("SMS to " ++ phone ++ ": " ++ message).

Definition send_notification (item : FoodItem.t) (notif_type message : string) : M unit :=
  insert_notification (FoodItem.user_id item) (FoodItem.id item) notif_type message ;;
  print ("NOTIFICATION [" ++ notif_type ++ "]: " ++ message) ;;
  user <- get_user (FoodItem.user_id item) ;;
  match user with
  | Some u =>
      match User.phone u with
      | Some (String c p) => send_sms_notification (String c p) message
      | _ => ret tt
      end
  | None => ret tt
  end.

Definition get_recipe_suggestions (user_id : Z) : M string :=
  now <- datetime_now ;;
  let thirty_days := now + timedelta_of_days 30 in
  expiring_items <- query_food_items (fun i =>
    (FoodItem.user_id i =? user_id)
    && (FoodItem.expiry_date i <=? thirty_days)
    && negb (FoodItem.is_expired i)) ;;
  let ingredients := map FoodItem.name expiring_items in
  match ingredients with
  | [] => ret "No recipes available"
  | _ :: _ =>
      ret ("You have: " ++ String.concat ", " (firstn 3 ingredients)
           ++ ". Try making a stir-fry, soup, or salad!")%string
  end.

(** [t in types] *)
Definition type_in (t : string) (types : list string) : bool :=
  existsb (String.eqb t) types.

(** The body of the loop of [check_and_send_notifications]. *)
Definition check_item (item : FoodItem.t) : M unit :=
  days_left <- calculate_days_until_expiry (FoodItem.expiry_date item) ;;
  if days_left <? 0 then
    update_is_expired (FoodItem.id item) ;;
    send_notification item "expired" (FoodItem.name item ++ " has expired!")
  else
    existing_notifications <- query_notifications (fun n =>
      Notification.food_item_id n =? FoodItem.id item) ;;
    let notification_types_sent :=
      map Notification.notification_type existing_notifications in
    (if (days_left <=? 30) && negb (type_in "month" notification_types_sent) then
       recipes <- get_recipe_suggestions (FoodItem.user_id item) ;;
       send_notification item "month"
         (FoodItem.name item ++ " expires in a month! Recipe ideas: " ++ recipes)
     else ret tt) ;;
    (if (days_left <=? 7) && negb (type_in "week" notification_types_sent) then
       send_notification item "week"
         (FoodItem.name item ++ " expires in a week! Use it soon.")
     else ret tt) ;;
    (if (days_left <=? 1) && negb (type_in "day" notification_types_sent) then
       send_notification item "day"
         (FoodItem.name item ++ " expires tomorrow! Use it today.")
     else ret tt).

Definition check_and_send_notifications : M unit :=
  items <- query_food_items (fun i => negb (FoodItem.is_expired i)) ;;
  for_each items check_item.

(** [i.price or 5.0] *)
Definition price_or_fallback (i : FoodItem.t) : number :=
  PyFloat (float_or (FoodItem.price i) 5).

Definition calculate_user_stats (user_id : Z) : M Stats :=
  all_items <- query_food_items (fun i => FoodItem.user_id i =? user_id) ;;
  let total := len all_items in
  let n_expired := len (filter FoodItem.is_expired all_items) in
  let n_used := len (filter FoodItem.is_used all_items) in
  let n_active :=
    len (filter (fun i => negb (FoodItem.is_expired i) && negb (FoodItem.is_used i))
           all_items) in
  let saved := py_sum (map price_or_fallback (filter FoodItem.is_used all_items)) in
  let wasted := py_sum (map price_or_fallback (filter FoodItem.is_expired all_items)) in
  let percentage :=
    match total with
    | Zpos n => py_mul (PyFloat (int_truediv n_expired n)) (PyInt 100)
    | _ => PyInt 0
    end in
  ret (mkStats total n_expired n_used n_active
         (py_round saved 2) (py_round wasted 2) (py_round percentage 1)).

(** *** Security utilities *)

Definition hash_password (password : string) : string := sha256_hexdigest password.

Definition require_login (request : Request) : M Z :=
  match session_user_id request with
  | Some user_id =>
      if user_id =? 0 then raise (mkHTTPException 401 "Not authenticated")
      else ret user_id
  | None => raise (mkHTTPException 401 "Not authenticated")
  end.

Definition require_admin (request : Request) : M User.t :=
  user_id <- require_login request ;;
  user <- get_user user_id ;;
  match user with
  | Some u =>
      if User.is_admin u then ret u
      else raise (mkHTTPException 403 "Admin access required")
  | None => raise (mkHTTPException 403 "Admin access required")
  end.

Definition get_current_user (request : Request) : M User.t :=
  user_id <- require_login request ;;
  user <- get_user user_id ;;
  match user with
  | Some u => ret u
  | None => raise (mkHTTPException 404 "User not found")
  end.

(** *** Routes that write to the store *)

(** [phone if phone else None], and the like. *)
Definition nonempty (s : string) : option string :=
  match s with
  | EmptyString => None
  | String _ _ => Some s
  end.

Definition signup (request : Request) (username email password phone : string)
  : M Response :=
  s <- get_store ;;
  let existing_user :=
    find (fun u => (User.username u =? username)%string
                   || (User.email u =? email)%string) (users s) in
  match existing_user with
  | Some _ =>
      ret (TemplateResponse "signup.html"
             (ErrorContext "Username or email already exists"))
  | None =>
      let is_first_user := len (users s) =? 0 in
      created_at <- datetime_utcnow ;;
      let user := User.mk (next_id (map User.id (users s))) username email
                    (hash_password password) (nonempty phone)
                    is_first_user is_first_user created_at in
      set_store (mkStore (users s ++ [user]) (food_items s) (notifications s)) ;;
      ret (RedirectResponse "/login" 302)
  end.

(** The body of the loop of [dashboard]. *)
Definition dashboard_item (item : FoodItem.t) (acc : Buckets) : M Buckets :=
  days <- calculate_days_until_expiry (FoodItem.expiry_date item) ;;
  let days_remaining := Z.max 0 days in
  item <- (if (days <? 0) && negb (FoodItem.is_expired item) then
             update_is_expired (FoodItem.id item) ;;
             ret (FoodItem.with_is_expired true item)
           else ret item) ;;
  if FoodItem.is_expired item || (days <? 0) then
    ret (mkBuckets (expired acc ++ [(item, days_remaining)]) (expiring_soon acc) (fresh acc))
  else if days <=? 7 then
    ret (mkBuckets (expired acc) (expiring_soon acc ++ [(item, days_remaining)]) (fresh acc))
  else
    ret (mkBuckets (expired acc) (expiring_soon acc) (fresh acc ++ [(item, days_remaining)])).

Definition dashboard (request : Request) : M Response :=
  user <- get_current_user request ;;
  check_and_send_notifications ;;
  items <- query_food_items (fun i =>
    (FoodItem.user_id i =? User.id user) && negb (FoodItem.is_used i)) ;;
  buckets <- for_fold (order_by_expiry_date items) (mkBuckets [] [] []) dashboard_item ;;
  stats <- calculate_user_stats (User.id user) ;;
  ret (TemplateResponse "dashboard.html" (DashboardContext user buckets stats)).

(** SQLite holds an integer in 64 bits, signed.  A Python [int] outside that
    range cannot be bound as a parameter of a statement: the driver raises
    [OverflowError], which the framework answers with status 500. *)
Definition int64 (n : Z) : bool := (- 2 ^ 63 <=? n) && (n <? 2 ^ 63).

Definition internal_server_error : HTTPException :=
  mkHTTPException 500 "Internal Server Error".

(** What a [Float] column keeps of the value written to it: SQLite stores NaN
    as NULL and a zero of either sign as the integer 0, read back as 0.0. *)
Definition stored_price (price : option float) : option float :=
  match price with
  | Some x =>
      if PrimFloat.is_nan x then None
      else if (x =? 0)%float then Some 0%float
      else Some x
  | None => None
  end.

(** The form of [add_item] after the framework has read it: [expiry] is the
    result of [strptime(expiry_date, "%Y-%m-%d")] ([None] when it raises, which
    the framework answers with status 500) and [image] the path under which
    the file layer saved an uploaded image.  The INSERT takes the default of
    [purchase_date] and then binds its parameters; a [quantity] outside 64
    bits fails there and no row is written. *)
Definition add_item (request : Request) (name barcode category : string)
  (expiry : option datetime) (quantity : Z) (price : option float)
  (image : option string) : M Response :=
  user <- get_current_user request ;;
  match expiry with
  | None => raise internal_server_error
  | Some expiry =>
      purchase_date <- datetime_utcnow ;;
      if int64 quantity then
        s <- get_store ;;
        let item := FoodItem.mk (next_id (map FoodItem.id (food_items s))) (User.id user)
                      name (nonempty barcode) (nonempty category) purchase_date expiry
                      quantity (stored_price price) image false false in
        set_store (mkStore (users s) (food_items s ++ [item]) (notifications s)) ;;
        ret (RedirectResponse "/dashboard" 302)
      else raise internal_server_error
  end.

(** The query of [delete_item] and [mark_item_used] binds [item_id].  An id
    outside 64 bits is the key of no row of a table and cannot be bound: the
    query raises and the route answers 500 before anything is written. *)
Definition delete_item (item_id : Z) (request : Request) : M Response :=
  user <- get_current_user request ;;
  s <- get_store ;;
  let item := find (fun i => (FoodItem.id i =? item_id)
                             && (FoodItem.user_id i =? User.id user)) (food_items s) in
  match item with
  | Some i =>
      set_store (mkStore (users s)
                   (filter (fun j => negb (FoodItem.id j =? FoodItem.id i)) (food_items s))
                   (notifications s)) ;;
      ret (RedirectResponse "/dashboard" 302)
  | None =>
      if int64 item_id then ret (RedirectResponse "/dashboard" 302)
      else raise internal_server_error
  end.

Definition mark_item_used (item_id : Z) (request : Request) : M Response :=
  user <- get_current_user request ;;
  s <- get_store ;;
  let item := find (fun i => (FoodItem.id i =? item_id)
                             && (FoodItem.user_id i =? User.id user)) (food_items s) in
  match item with
  | Some i =>
      set_store (mkStore (users s)
                   (map (fun j => if FoodItem.id j =? FoodItem.id i
                                  then FoodItem.with_is_used true j else j) (food_items s))
                   (notifications s)) ;;
      ret (RedirectResponse "/dashboard" 302)
  | None =>
      if int64 item_id then ret (RedirectResponse "/dashboard" 302)
      else raise internal_server_error
  end.

(** [db.get(User, user_id)] in [approve_user] and [delete_user] binds the id
    of the path in the same way; the id in the session is one the application
    put there. *)
Definition approve_user (user_id : Z) (request : Request) : M Response :=
  _ <- require_admin request ;;
  user <- get_user user_id ;;
  match user with
  | Some u =>
      s <- get_store ;;
      set_store (mkStore
                   (map (fun v => if User.id v =? User.id u
                                  then User.with_is_approved true v else v) (users s))
                   (food_items s) (notifications s)) ;;
      ret (RedirectResponse "/admin/dashboard" 302)
  | None =>
      if int64 user_id then ret (RedirectResponse "/admin/dashboard" 302)
      else raise internal_server_error
  end.

(** [db.delete(user); db.commit()]: the [food_items] relationship cascades, so
    the rows loaded through it are deleted by key, then the user's row.
    Notifications carry no cascade and stay. *)
Definition delete_user_row (u : User.t) (s : Store) : Store :=
  let owned := filter (fun i => FoodItem.user_id i =? User.id u) (food_items s) in
  let owned_ids := map FoodItem.id owned in
  mkStore (filter (fun v => negb (User.id v =? User.id u)) (users s))
          (filter (fun i => negb (existsb (Z.eqb (FoodItem.id i)) owned_ids)) (food_items s))
          (notifications s).

Definition delete_user (user_id : Z) (request : Request) : M Response :=
  admin <- require_admin request ;;
  if user_id =? User.id admin then
    ret (RedirectResponse "/admin/dashboard" 302)
  else
    user <- get_user user_id ;;
    match user with
    | Some u =>
        s <- get_store ;;
        set_store (delete_user_row u s) ;;
        ret (RedirectResponse "/admin/dashboard" 302)
    | None =>
        if int64 user_id then ret (RedirectResponse "/admin/dashboard" 302)
        else raise internal_server_error
    end.

Definition check_notifications_endpoint : M Response :=
  check_and_send_notifications ;;
  ret NullResponse.

(** *** Dispatch

    The routes that write to the store, with the parameters the framework
    hands to their handlers.  The remaining routes only query it. *)

Inductive Route :=
| PostSignup (username email password phone : string)
| GetDashboard
| PostAddItem (name barcode category : string) (expiry : option datetime)
    (quantity : Z) (price : option float) (image : option string)
| PostItemDelete (item_id : Z)
| PostItemMarkUsed (item_id : Z)
| PostAdminApprove (user_id : Z)
| PostAdminDeleteUser (user_id : Z)
| GetCheckNotifications.

Definition handle (route : Route) (request : Request) : M Response :=
  match route with
  | PostSignup username email password phone =>
      signup request username email password phone
  | GetDashboard => dashboard request
  | PostAddItem name barcode category expiry quantity price image =>
      add_item request name barcode category expiry quantity price image
  | PostItemDelete item_id => delete_item item_id request
  | PostItemMarkUsed item_id => mark_item_used item_id request
  | PostAdminApprove user_id => approve_user user_id request
  | PostAdminDeleteUser user_id => delete_user user_id request
  | GetCheckNotifications => check_notifications_endpoint
  end.

End App.

(** ** Sessions and the pages that only read

    [login] and [logout] change the session of the request, not the store;
    they return the response together with the request as its session is
    afterwards.  The remaining pages render what they query. *)

(** What the read-only templates are given. *)
Inductive PageContext :=
| UserPage (user : User.t)
| StatisticsPage (user : User.t) (stats : Stats) (all_items : list FoodItem.t)
| NotificationsPage (user : User.t) (shown : list Notification.t)
| RecipesPage (user : User.t) (ingredients : list FoodItem.t)
| AdminDashboardPage (admin : User.t) (pending_users all_users : list User.t)
    (n_items n_expired : Z).

Inductive Page :=
| TemplatePage (name : string) (context : PageContext).

(** [ORDER BY sent_at DESC]: newest first, rows with equal times in rowid order. *)
Fixpoint insert_by_sent_at (x : Notification.t) (l : list Notification.t)
  : list Notification.t :=
  match l with
  | [] => [x]
  | y :: rest =>
      if Notification.sent_at y <=? Notification.sent_at x then x :: l
      else y :: insert_by_sent_at x rest
  end.

Definition order_by_sent_at_desc (l : list Notification.t) : list Notification.t :=
  fold_right insert_by_sent_at [] l.

Section Pages.

Variable clk : Clock.
Variable sha256_hexdigest : string -> string.

Definition verify_password (password hashed : string) : bool :=
  (sha256_hexdigest password =? hashed)%string.

Definition login (request : Request) (username password : string)
  : M (Response * Request) :=
  s <- get_store ;;
  let user := find (fun u => (User.username u =? username)%string) (users s) in
  match user with
  | None =>
      ret (TemplateResponse "login.html" (ErrorContext "Invalid username or password"),
           request)
  | Some u =>
      if negb (verify_password password (User.password u)) then
        ret (TemplateResponse "login.html" (ErrorContext "Invalid username or password"),
             request)
      else if negb (User.is_approved u) then
        ret (TemplateResponse "login.html"
               (ErrorContext "Your account is pending admin approval"),
             request)
      else if User.is_admin u then
        ret (RedirectResponse "/admin/dashboard" 302, mkRequest (Some (User.id u)))
      else
        ret (RedirectResponse "/dashboard" 302, mkRequest (Some (User.id u)))
  end.

Definition logout (request : Request) : M (Response * Request) :=
  ret (RedirectResponse "/login" 302, mkRequest None).

Definition add_item_page (request : Request) : M Page :=
  user <- get_current_user request ;;
  ret (TemplatePage "add_item.html" (UserPage user)).

Definition scanner_page (request : Request) : M Page :=
  user <- get_current_user request ;;
  ret (TemplatePage "scanner.html" (UserPage user)).

Definition statistics_page (request : Request) : M Page :=
  user <- get_current_user request ;;
  stats <- calculate_user_stats (User.id user) ;;
  all_items <- query_food_items (fun i => FoodItem.user_id i =? User.id user) ;;
  ret (TemplatePage "statistics.html" (StatisticsPage user stats all_items)).

Definition notifications_page (request : Request) : M Page :=
  user <- get_current_user request ;;
  mine <- query_notifications (fun n => Notification.user_id n =? User.id user) ;;
  ret (TemplatePage "notifications.html"
         (NotificationsPage user (firstn 50 (order_by_sent_at_desc mine)))).

Definition recipes_page (request : Request) : M Page :=
  user <- get_current_user request ;;
  now <- datetime_now clk ;;
  let thirty_days := now + timedelta_of_days 30 in
  expiring_items <- query_food_items (fun i =>
    (FoodItem.user_id i =? User.id user)
    && (FoodItem.expiry_date i <=? thirty_days)
    && negb (FoodItem.is_expired i)
    && negb (FoodItem.is_used i)) ;;
  ret (TemplatePage "recipes.html" (RecipesPage user expiring_items)).

Definition admin_dashboard (request : Request) : M Page :=
  admin <- require_admin request ;;
  s <- get_store ;;
  let pending_users := filter (fun u => negb (User.is_approved u)) (users s) in
  let all_users := users s in
  let n_items := len (food_items s) in
  let n_expired := len (filter FoodItem.is_expired (food_items s)) in
  ret (TemplatePage "admin_dashboard.html"
         (AdminDashboardPage admin pending_users all_users n_items n_expired)).

End Pages.

(** * Properties *)

(** ** Dates *)

(** The difference of two midnights, in days, is the difference of the dates. *)
Lemma days_between_midnights (expiry now : datetime) :
  timedelta_days (at_midnight expiry - at_midnight now) = date_of expiry - date_of now.
Proof.
  unfold timedelta_days, at_midnight, date_of.
  rewrite <- Z.mul_sub_distr_l, Z.mul_comm.
  apply Z.div_mul. discriminate.
Qed.

(** ** Counting notifications by key *)

Definition has_key (fid : Z) (ty : string) (n : Notification.t) : bool :=
  (Notification.food_item_id n =? fid) && (Notification.notification_type n =? ty)%string.

(** The number of notifications of type [ty] recorded against item [fid]. *)
Definition count_sent (fid : Z) (ty : string) (ns : list Notification.t) : nat :=
  List.length (filter (has_key fid ty) ns).

(** The types already sent for item [fid], as the sweep reads them. *)
Definition types_sent (fid : Z) (ns : list Notification.t) : list string :=
  map Notification.notification_type
      (filter (fun n => Notification.food_item_id n =? fid) ns).

(** The thresholds an item with [days_left] days to go has reached. *)
Definition due_types (days_left : Z) : list string :=
  (if days_left <=? 30 then ["month"] else [])
  ++ (if days_left <=? 7 then ["week"] else [])
  ++ (if days_left <=? 1 then ["day"] else []).

Lemma count_sent_app fid ty ns ms :
  count_sent fid ty (ns ++ ms) = (count_sent fid ty ns + count_sent fid ty ms)%nat.
Proof. unfold count_sent. now rewrite filter_app, length_app. Qed.

Lemma type_in_spec ty types : type_in ty types = true <-> In ty types.
Proof.
  unfold type_in. rewrite existsb_exists. split.
  - intros [x [Hx Heq]]. apply String.eqb_eq in Heq. now subst.
  - intros H. exists ty. split; [assumption | apply String.eqb_refl].
Qed.

Lemma types_sent_count fid ty ns :
  type_in ty (types_sent fid ns) = negb (Nat.eqb (count_sent fid ty ns) 0).
Proof.
  unfold types_sent, count_sent, type_in.
  induction ns as [|n ns IH]; simpl; [reflexivity|].
  unfold has_key at 1.
  destruct (Notification.food_item_id n =? fid); simpl; [|exact IH].
  rewrite String.eqb_sym.
  destruct (Notification.notification_type n =? ty)%string; simpl; [reflexivity | exact IH].
Qed.

Lemma count_sent_other fid ty ns :
  Forall (fun n => Notification.food_item_id n <> fid) ns -> count_sent fid ty ns = 0%nat.
Proof.
  unfold count_sent. induction 1 as [|n ns Hn _ IH]; simpl; [reflexivity|].
  unfold has_key at 1. apply Z.eqb_neq in Hn. now rewrite Hn.
Qed.

(** ** One notification, one item *)

Section Sweep.

Variable clk : Clock.

(** The row [send_notification] inserts when the clock has been read [t] times. *)
Definition notification_row (s : Store) (t : nat) (item : FoodItem.t)
  (notif_type message : string) : Notification.t :=
  Notification.mk (next_id (map Notification.id (notifications s)))
    (FoodItem.user_id item) (FoodItem.id item) notif_type (clock_utcnow clk t) message.

Definition add_row (s : Store) (n : Notification.t) : Store :=
  mkStore (users s) (food_items s) (notifications s ++ [n]).

(** [send_notification] never raises; it appends one row and reads the clock once. *)
Lemma send_notification_run item notif_type message w :
  exists out,
    send_notification clk item notif_type message w
    = (Ok tt, mkWorld (add_row (db w) (notification_row (db w) (tick w) item notif_type message))
                (S (tick w)) out).
Proof.
  unfold send_notification, insert_notification, datetime_utcnow, get_user,
    send_sms_notification, print, get_store, set_store, bind, ret; simpl.
  destruct (find _ (users (db w))) as [u|]; simpl; [|eexists; reflexivity].
  destruct (User.phone u) as [[|c p]|]; simpl; eexists; reflexivity.
Qed.

Lemma get_recipe_suggestions_run user_id w :
  exists recipes,
    get_recipe_suggestions clk user_id w
    = (Ok recipes, mkWorld (db w) (S (tick w)) (stdout w)).
Proof.
  unfold get_recipe_suggestions, datetime_now, query_food_items, get_store, bind, ret; simpl.
  destruct (map FoodItem.name _); eexists; reflexivity.
Qed.

(** The days left the sweep computes for [item] when the clock has been read
    [t] times. *)
Definition days_left_at (t : nat) (item : FoodItem.t) : Z :=
  date_of (FoodItem.expiry_date item) - date_of (clock_now clk t).

(** What one pass of the loop body does to the store. *)
Definition item_step (item : FoodItem.t) (d : Z) (s s' : Store) : Prop :=
  users s' = users s /\
  if d <? 0 then
    food_items s' = mark_expired (FoodItem.id item) (food_items s) /\
    exists n, notifications s' = notifications s ++ [n]
              /\ Notification.food_item_id n = FoodItem.id item
              /\ Notification.notification_type n = "expired"
  else
    food_items s' = food_items s /\
    exists new, notifications s' = notifications s ++ new
                /\ Forall (fun n => Notification.food_item_id n = FoodItem.id item) new
                /\ map Notification.notification_type new
                   = filter (fun ty => negb (type_in ty (types_sent (FoodItem.id item)
                                                           (notifications s))))
                            (due_types d).

Ltac send_step H :=
  match goal with
  | |- context [send_notification clk ?i ?ty ?msg ?w] =>
      destruct (send_notification_run i ty msg w) as [? H]; rewrite H; clear H; simpl
  end.

Lemma check_item_run item w :
  exists w',
    check_item clk item w = (Ok tt, w')
    /\ item_step item (days_left_at (tick w) item) (db w) (db w')
    /\ (tick w < tick w')%nat.
Proof.
  unfold check_item, calculate_days_until_expiry, datetime_now, bind at 1 2, ret at 1; simpl.
  rewrite days_between_midnights. fold (days_left_at (tick w) item).
  unfold item_step.
  destruct (days_left_at (tick w) item <? 0) eqn:Hneg.
  - unfold update_is_expired, get_store, set_store, bind; simpl.
    send_step H. eexists; split; [reflexivity|]. simpl.
    split; [split; [reflexivity|split; [reflexivity|]] | lia].
    eexists; split; [reflexivity|split; reflexivity].
  - unfold query_notifications, get_store, bind at 1 2, ret at 1; simpl.
    fold (types_sent (FoodItem.id item) (notifications (db w))).
    set (sent := types_sent (FoodItem.id item) (notifications (db w))).
    unfold due_types.
    destruct (days_left_at (tick w) item <=? 30);
      destruct (days_left_at (tick w) item <=? 7);
      destruct (days_left_at (tick w) item <=? 1);
      cbn [filter app andb];
      destruct (type_in "month" sent); destruct (type_in "week" sent);
      destruct (type_in "day" sent);
      unfold bind, ret; simpl;
      try (destruct (get_recipe_suggestions_run (FoodItem.user_id item)
             (mkWorld (db w) (S (tick w)) (stdout w))) as [r Hr];
           simpl in Hr; rewrite Hr; clear Hr; simpl);
      repeat send_step H;
      (eexists; split; [reflexivity|]; simpl;
       split; [split; [reflexivity|split; [reflexivity|]] | lia];
       eexists; split;
       [ first [ symmetry; apply app_nil_r
               | repeat rewrite <- app_assoc; simpl; reflexivity ]
       | split; [ repeat constructor | reflexivity ] ]).
Qed.

End Sweep.

(** ** The effect of one loop pass on the counts *)

Definition occurrences (ty : string) (types : list string) : nat :=
  List.length (filter (fun t => (t =? ty)%string) types).

Lemma count_sent_occurrences fid ty ns :
  Forall (fun n => Notification.food_item_id n = fid) ns ->
  count_sent fid ty ns = occurrences ty (map Notification.notification_type ns).
Proof.
  unfold count_sent, occurrences.
  induction 1 as [|n ns Hn _ IH]; simpl; [reflexivity|].
  unfold has_key at 1. rewrite Hn, Z.eqb_refl. simpl.
  destruct (Notification.notification_type n =? ty)%string; simpl; congruence.
Qed.

Lemma occurrences_filter ty (p : string -> bool) types :
  occurrences ty (filter p types) = if p ty then occurrences ty types else 0%nat.
Proof.
  unfold occurrences. induction types as [|t types IH]; simpl.
  - now destruct (p ty).
  - destruct (String.eqb_spec t ty) as [->|Hne].
    + destruct (p ty) eqn:Hp; simpl.
      * rewrite String.eqb_refl. simpl. now rewrite IH.
      * exact IH.
    + destruct (p t); simpl; [|exact IH].
      apply String.eqb_neq in Hne. now rewrite Hne.
Qed.

Lemma occurrences_due ty d :
  occurrences ty (due_types d) = if type_in ty (due_types d) then 1%nat else 0%nat.
Proof.
  unfold occurrences, due_types, type_in.
  destruct (d <=? 30) eqn:H30; destruct (d <=? 7) eqn:H7; destruct (d <=? 1) eqn:H1;
    try (apply Z.leb_le in H1); try (apply Z.leb_le in H7);
    try (apply Z.leb_gt in H30); try (apply Z.leb_gt in H7); try lia;
    cbn [app filter existsb];
    rewrite ?(String.eqb_sym "month" ty), ?(String.eqb_sym "week" ty),
      ?(String.eqb_sym "day" ty);
    (destruct (String.eqb_spec ty "month") as [Hm|Hm]; [subst ty; reflexivity|]);
    (destruct (String.eqb_spec ty "week") as [Hw|Hw]; [subst ty; reflexivity|]);
    (destruct (String.eqb_spec ty "day") as [Hd|Hd]; [subst ty; reflexivity|]);
    reflexivity.
Qed.

Lemma item_step_count_other item d s s' fid ty :
  item_step item d s s' -> fid <> FoodItem.id item ->
  count_sent fid ty (notifications s') = count_sent fid ty (notifications s).
Proof.
  intros [_ H] Hne. destruct (d <? 0).
  - destruct H as [_ [n [-> [Hfid _]]]]. rewrite count_sent_app.
    rewrite (count_sent_other fid ty [n]); [lia|].
    constructor; [congruence | constructor].
  - destruct H as [_ [new [-> [Hall _]]]]. rewrite count_sent_app.
    rewrite (count_sent_other fid ty new); [lia|].
    eapply Forall_impl; [|exact Hall]. simpl. intros; congruence.
Qed.

Lemma item_step_count_expired item d s s' ty :
  item_step item d s s' -> d < 0 ->
  count_sent (FoodItem.id item) ty (notifications s')
  = (count_sent (FoodItem.id item) ty (notifications s)
     + if (ty =? "expired")%string then 1 else 0)%nat.
Proof.
  intros [_ H] Hd. apply Z.ltb_lt in Hd. rewrite Hd in H.
  destruct H as [_ [n [-> [Hfid Hty]]]]. rewrite count_sent_app. f_equal.
  unfold count_sent; cbn [filter]. unfold has_key.
  rewrite Hfid, Hty, Z.eqb_refl. cbn [andb].
  rewrite String.eqb_sym. now destruct (ty =? "expired")%string.
Qed.

Lemma item_step_count_due item d s s' ty :
  item_step item d s s' -> 0 <= d ->
  count_sent (FoodItem.id item) ty (notifications s')
  = if type_in ty (due_types d)
       && Nat.eqb (count_sent (FoodItem.id item) ty (notifications s)) 0
    then 1%nat
    else count_sent (FoodItem.id item) ty (notifications s).
Proof.
  intros [_ H] Hd. apply Z.ltb_ge in Hd. rewrite Hd in H.
  destruct H as [_ [new [-> [Hall Htypes]]]]. rewrite count_sent_app.
  rewrite (count_sent_occurrences _ _ new Hall), Htypes, occurrences_filter.
  rewrite types_sent_count, negb_involutive, occurrences_due.
  destruct (Nat.eqb_spec (count_sent (FoodItem.id item) ty (notifications s)) 0) as [->|Hne];
    destruct (type_in ty (due_types d)); simpl; lia.
Qed.

(** Counts never go down. *)
Lemma item_step_count_mono item d s s' fid ty :
  item_step item d s s' ->
  (count_sent fid ty (notifications s) <= count_sent fid ty (notifications s'))%nat.
Proof.
  intros H. destruct H as [_ H]. destruct (d <? 0).
  - destruct H as [_ [n [-> _]]]. rewrite count_sent_app. lia.
  - destruct H as [_ [new [-> _]]]. rewrite count_sent_app. lia.
Qed.

(** For every type but ["expired"], a pass adds a notification only where there
    was none. *)
Lemma item_step_dedup item d s s' fid ty :
  item_step item d s s' -> ty <> "expired" ->
  (count_sent fid ty (notifications s) <= 1)%nat ->
  (count_sent fid ty (notifications s') <= 1)%nat.
Proof.
  intros H Hty Hle.
  destruct (Z.eq_dec fid (FoodItem.id item)) as [->|Hne].
  - destruct (Z.lt_ge_cases d 0) as [Hd|Hd].
    + rewrite (item_step_count_expired _ _ _ _ _ H Hd).
      apply String.eqb_neq in Hty. rewrite Hty. lia.
    + rewrite (item_step_count_due _ _ _ _ _ H Hd).
      destruct (_ && _); lia.
  - now rewrite (item_step_count_other _ _ _ _ _ _ H Hne).
Qed.

(** ** Flags only go up *)

(** [b] is the row [a], possibly with its expired flag raised. *)
Definition raised (a b : FoodItem.t) : Prop :=
  b = a \/ b = FoodItem.with_is_expired true a.

Definition flags_raised (items items' : list FoodItem.t) : Prop :=
  Forall2 raised items items'.

Lemma with_is_expired_same (a : FoodItem.t) :
  FoodItem.is_expired a = true -> FoodItem.with_is_expired true a = a.
Proof. destruct a; simpl; intros ->; reflexivity. Qed.

Lemma raised_id a b : raised a b -> FoodItem.id b = FoodItem.id a.
Proof. intros [->| ->]; reflexivity. Qed.

Lemma raised_flag a b :
  raised a b -> FoodItem.is_expired a = true -> FoodItem.is_expired b = true.
Proof. intros [->| ->]; simpl; auto. Qed.

Lemma raised_unflagged a b :
  raised a b -> FoodItem.is_expired b = false -> b = a.
Proof. intros [->| ->]; simpl; [reflexivity | discriminate]. Qed.

Lemma raised_flagged a b :
  raised a b -> FoodItem.is_expired b = true -> b = FoodItem.with_is_expired true a.
Proof.
  intros [->| ->] H; [|reflexivity]. symmetry. now apply with_is_expired_same.
Qed.

Lemma raised_trans a b c : raised a b -> raised b c -> raised a c.
Proof.
  intros [->| ->] [->| ->]; unfold raised; auto.
Qed.

Lemma flags_raised_refl items : flags_raised items items.
Proof. induction items; constructor; [left; reflexivity | assumption]. Qed.

Lemma flags_raised_trans l1 l2 l3 :
  flags_raised l1 l2 -> flags_raised l2 l3 -> flags_raised l1 l3.
Proof.
  intros H. revert l3. induction H as [|a b l1 l2 Hab _ IH]; intros l3 H23.
  - inversion H23. constructor.
  - inversion H23 as [|b' c l2' l3' Hbc Hrest]; subst.
    constructor; [eapply raised_trans; eassumption | now apply IH].
Qed.

Lemma flags_raised_mark fid items : flags_raised items (mark_expired fid items).
Proof.
  unfold mark_expired. induction items as [|a items IH]; simpl; constructor; try assumption.
  destruct (FoodItem.id a =? fid); [right | left]; reflexivity.
Qed.

Lemma flags_raised_ids items items' :
  flags_raised items items' -> map FoodItem.id items' = map FoodItem.id items.
Proof.
  induction 1 as [|a b l l' Hab _ IH]; simpl; [reflexivity|].
  now rewrite (raised_id _ _ Hab), IH.
Qed.

Lemma flags_raised_In_l items items' a :
  flags_raised items items' -> In a items -> exists b, In b items' /\ raised a b.
Proof.
  induction 1 as [|a0 b0 l l' Hab _ IH]; simpl; [contradiction|].
  intros [->|Hin].
  - exists b0. auto.
  - destruct (IH Hin) as [b [Hb Hr]]. exists b. auto.
Qed.

Lemma flags_raised_In_r items items' b :
  flags_raised items items' -> In b items' -> exists a, In a items /\ raised a b.
Proof.
  induction 1 as [|a0 b0 l l' Hab _ IH]; simpl; [contradiction|].
  intros [->|Hin].
  - exists a0. auto.
  - destruct (IH Hin) as [a [Ha Hr]]. exists a. auto.
Qed.

Lemma mark_expired_flagged fid items row :
  In row (mark_expired fid items) -> FoodItem.id row = fid ->
  FoodItem.is_expired row = true.
Proof.
  unfold mark_expired. rewrite in_map_iff. intros [a [<- _]].
  destruct (FoodItem.id a =? fid) eqn:E; simpl; [reflexivity|].
  apply Z.eqb_neq in E. congruence.
Qed.

Lemma mark_expired_unflagged fid items row :
  In row (mark_expired fid items) -> FoodItem.is_expired row = false ->
  In row items /\ FoodItem.id row <> fid.
Proof.
  unfold mark_expired. rewrite in_map_iff. intros [a [<- Ha]].
  destruct (FoodItem.id a =? fid) eqn:E; simpl; [discriminate|].
  apply Z.eqb_neq in E. auto.
Qed.

Lemma item_step_flags item d s s' :
  item_step item d s s' -> flags_raised (food_items s) (food_items s').
Proof.
  intros [_ H]. destruct (d <? 0).
  - destruct H as [-> _]. apply flags_raised_mark.
  - destruct H as [-> _]. apply flags_raised_refl.
Qed.

Lemma item_step_marks item d s s' row :
  item_step item d s s' -> d < 0 ->
  In row (food_items s') -> FoodItem.id row = FoodItem.id item ->
  FoodItem.is_expired row = true.
Proof.
  intros [_ H] Hd. apply Z.ltb_lt in Hd. rewrite Hd in H. destruct H as [-> _].
  apply mark_expired_flagged.
Qed.

Lemma item_step_notifications item d s s' :
  item_step item d s s' -> exists new, notifications s' = notifications s ++ new.
Proof.
  intros [_ H]. destruct (d <? 0).
  - destruct H as [_ [n [-> _]]]. eauto.
  - destruct H as [_ [new [-> _]]]. eauto.
Qed.

(** ** The whole sweep *)

Section SweepRuns.

Variable clk : Clock.

(** A loop invariant [P rest s], over the items still to visit and the store,
    that every pass of the body maintains holds when the loop ends; the loop
    never raises. *)
Lemma for_each_check_item_inv (P : list FoodItem.t -> Store -> Prop) :
  (forall item rest s0 s1 t,
      P (item :: rest) s0 -> item_step item (days_left_at clk t item) s0 s1 -> P rest s1) ->
  forall items w, P items (db w) ->
  exists w', for_each items (check_item clk) w = (Ok tt, w')
             /\ P [] (db w') /\ (tick w <= tick w')%nat.
Proof.
  intros Hstep. induction items as [|item rest IH]; intros w HP.
  - exists w. simpl. auto.
  - destruct (check_item_run clk item w) as [w1 [Hrun [Hst Ht]]].
    destruct (IH w1 (Hstep _ _ _ _ _ HP Hst)) as [w' [Hrest [HP' Ht']]].
    exists w'. simpl. unfold bind. rewrite Hrun. repeat split; try assumption. lia.
Qed.

(** The items the sweep visits: the rows not flagged expired when it starts. *)
Definition unflagged (s : Store) : list FoodItem.t :=
  filter (fun i => negb (FoodItem.is_expired i)) (food_items s).

Lemma sweep_unfold w :
  check_and_send_notifications clk w = for_each (unflagged (db w)) (check_item clk) w.
Proof. reflexivity. Qed.

Lemma sweep_inv (P : list FoodItem.t -> Store -> Prop) :
  (forall item rest s0 s1 t,
      P (item :: rest) s0 -> item_step item (days_left_at clk t item) s0 s1 -> P rest s1) ->
  forall w, P (unflagged (db w)) (db w) ->
  exists w', check_and_send_notifications clk w = (Ok tt, w') /\ P [] (db w').
Proof.
  intros Hstep w HP. rewrite sweep_unfold.
  destruct (for_each_check_item_inv P Hstep _ w HP) as [w' [H1 [H2 _]]]. eauto.
Qed.

Lemma in_unflagged s item :
  In item (unflagged s) <-> In item (food_items s) /\ FoodItem.is_expired item = false.
Proof.
  unfold unflagged. rewrite filter_In. now rewrite negb_true_iff.
Qed.

(** The sweep never raises. *)
Lemma sweep_total w :
  exists w', check_and_send_notifications clk w = (Ok tt, w').
Proof.
  destruct (sweep_inv (fun _ _ => True) (fun _ _ _ _ _ _ _ => I) w I) as [w' [H _]].
  eauto.
Qed.

(** It leaves the users alone, raises flags only and appends notifications only. *)
Lemma sweep_frame w :
  let s' := db (exec (check_and_send_notifications clk) w) in
  users s' = users (db w)
  /\ flags_raised (food_items (db w)) (food_items s')
  /\ exists new, notifications s' = notifications (db w) ++ new.
Proof.
  destruct (sweep_inv (fun _ s =>
      users s = users (db w)
      /\ flags_raised (food_items (db w)) (food_items s)
      /\ exists new, notifications s = notifications (db w) ++ new)) with (w := w)
    as [w' [Hrun HP]].
  - intros item rest s0 s1 t [Hu [Hf [new Hn]]] Hst. split; [|split].
    + destruct Hst as [-> _]. exact Hu.
    + eapply flags_raised_trans; [exact Hf | eapply item_step_flags; exact Hst].
    + destruct (item_step_notifications _ _ _ _ Hst) as [new' ->]. rewrite Hn.
      exists (new ++ new'). now rewrite app_assoc.
  - split; [reflexivity|split; [apply flags_raised_refl|]]. exists []. now rewrite app_nil_r.
  - unfold exec. rewrite Hrun. exact HP.
Qed.

(** Counts never go down in a sweep. *)
Lemma sweep_count_mono w fid ty :
  (count_sent fid ty (notifications (db w))
   <= count_sent fid ty
        (notifications (db (exec (check_and_send_notifications clk) w))))%nat.
Proof.
  destruct (sweep_frame w) as [_ [_ [new ->]]]. rewrite count_sent_app. lia.
Qed.

(** For a type other than ["expired"], a sweep keeps a pair that had at most
    one notification at one at most. *)
Lemma sweep_dedup w fid ty :
  ty <> "expired" ->
  (count_sent fid ty (notifications (db w)) <= 1)%nat ->
  (count_sent fid ty
     (notifications (db (exec (check_and_send_notifications clk) w))) <= 1)%nat.
Proof.
  intros Hty Hle.
  destruct (sweep_inv (fun _ s => (count_sent fid ty (notifications s) <= 1)%nat))
    with (w := w) as [w' [Hrun HP]].
  - intros item rest s0 s1 t H0 Hst. eapply item_step_dedup; eassumption.
  - exact Hle.
  - unfold exec. rewrite Hrun. exact HP.
Qed.

(** An unflagged item that the sweep finds with days to go ends the sweep with
    a notification of every type that is due. *)
Lemma sweep_due w item ty :
  In item (food_items (db w)) -> FoodItem.is_expired item = false ->
  (forall t, 0 <= days_left_at clk t item
             /\ type_in ty (due_types (days_left_at clk t item)) = true) ->
  (1 <= count_sent (FoodItem.id item) ty
          (notifications (db (exec (check_and_send_notifications clk) w))))%nat.
Proof.
  intros Hin Hflag Hdue.
  destruct (sweep_inv (fun rest s =>
      In item rest \/ (1 <= count_sent (FoodItem.id item) ty (notifications s))%nat))
    with (w := w) as [w' [Hrun HP]].
  - intros it rest s0 s1 t [[<-|Hrest]|Hone] Hst.
    + right. destruct (Hdue t) as [Hd Hty].
      rewrite (item_step_count_due _ _ _ _ _ Hst Hd), Hty. simpl.
      destruct (Nat.eqb_spec (count_sent (FoodItem.id it) ty (notifications s0)) 0); lia.
    + now left.
    + right. pose proof (item_step_count_mono _ _ _ _ (FoodItem.id item) ty Hst). lia.
  - left. now apply in_unflagged.
  - unfold exec. rewrite Hrun. destruct HP as [[]|HP]. exact HP.
Qed.

End SweepRuns.

(** ** Overdue items and threshold notifications *)

Section SweepClaims.

Variable clk : Clock.

Lemma unflagged_ids_unique s :
  item_ids_unique s -> NoDup (map FoodItem.id (unflagged s)).
Proof.
  unfold item_ids_unique, unflagged.
  induction (food_items s) as [|a items IH]; simpl; intros H; [constructor|].
  inversion H as [|x l Hnotin Hnodup]; subst.
  destruct (negb (FoodItem.is_expired a)); simpl; [|now apply IH].
  constructor; [|now apply IH].
  intros Hin. apply Hnotin. rewrite in_map_iff in *.
  destruct Hin as [b [Hb Hin]]. apply filter_In in Hin. exists b. tauto.
Qed.

(** The loop body on an item past its date: the flag, the notification, and
    nothing else. *)
Lemma check_item_overdue item w :
  days_left_at clk (tick w) item < 0 ->
  check_item clk item w
  = (datetime_now clk ;;
     update_is_expired (FoodItem.id item) ;;
     send_notification clk item "expired" (FoodItem.name item ++ " has expired!")) w.
Proof.
  intros Hd. unfold check_item, calculate_days_until_expiry, datetime_now, bind at 1 2 6,
    ret at 1; simpl.
  rewrite days_between_midnights. fold (days_left_at clk (tick w) item).
  apply Z.ltb_lt in Hd. now rewrite Hd.
Qed.

(** C2: in one sweep, an item not yet flagged expired whose days left are
    negative gets its [is_expired] flag set, exactly one notification of type
    "expired", and no notification of any other type: the loop body on it is
    the flag and the "expired" notification alone, with none of the month,
    week and day checks. *)
Theorem sweep_expires_overdue_item (w : World) (item : FoodItem.t) :
  item_ids_unique (db w) ->
  In item (food_items (db w)) ->
  FoodItem.is_expired item = false ->
  (forall t, days_left_at clk t item < 0) ->
  let s' := db (exec (check_and_send_notifications clk) w) in
  In (FoodItem.with_is_expired true item) (food_items s')
  /\ (forall row, In row (food_items s') -> FoodItem.id row = FoodItem.id item ->
                  FoodItem.is_expired row = true)
  /\ count_sent (FoodItem.id item) "expired" (notifications s')
     = S (count_sent (FoodItem.id item) "expired" (notifications (db w)))
  /\ (forall ty, ty <> "expired" ->
        count_sent (FoodItem.id item) ty (notifications s')
        = count_sent (FoodItem.id item) ty (notifications (db w)))
  /\ (forall w0, check_item clk item w0
        = (datetime_now clk ;;
           update_is_expired (FoodItem.id item) ;;
           send_notification clk item "expired" (FoodItem.name item ++ " has expired!"))
            w0).
Proof.
  intros Huniq Hin Hflag Hdays s'.
  set (bump := fun ty : string => if (ty =? "expired")%string then 1%nat else 0%nat).
  destruct (sweep_inv clk (fun rest s =>
      NoDup (map FoodItem.id rest)
      /\ ((In item rest
           /\ forall ty, count_sent (FoodItem.id item) ty (notifications s)
                         = count_sent (FoodItem.id item) ty (notifications (db w)))
          \/ (~ In (FoodItem.id item) (map FoodItem.id rest)
              /\ (forall row, In row (food_items s) -> FoodItem.id row = FoodItem.id item ->
                              FoodItem.is_expired row = true)
              /\ forall ty, count_sent (FoodItem.id item) ty (notifications s)
                            = (count_sent (FoodItem.id item) ty (notifications (db w)) + bump ty)%nat))))
    with (w := w) as [w' [Hrun [_ HP]]].
  - intros it rest s0 s1 t [Hnd Hcase] Hst. simpl in Hnd.
    inversion Hnd as [|x l Hnotin Hnd']; subst. split; [exact Hnd'|].
    destruct Hcase as [[[->|Hrest] Hcount]|[Hnotin' [Hrows Hcount]]].
    + right. split; [exact Hnotin|]. split.
      * intros row Hrow Hid. eapply item_step_marks; eauto.
      * intros ty. rewrite (item_step_count_expired _ _ _ _ ty Hst (Hdays t)).
        now rewrite Hcount.
    + left. split; [exact Hrest|]. intros ty.
      rewrite (item_step_count_other _ _ _ _ (FoodItem.id item) ty Hst); [apply Hcount|].
      intros Heq. apply Hnotin. rewrite <- Heq. now apply in_map.
    + right. split; [|split].
      * intros Hin'. apply Hnotin'. now right.
      * intros row Hrow Hid.
        destruct (flags_raised_In_r _ _ row (item_step_flags _ _ _ _ Hst) Hrow)
          as [a [Ha Hr]].
        eapply raised_flag; [exact Hr|]. apply Hrows; [exact Ha|].
        now rewrite <- (raised_id _ _ Hr).
      * intros ty. rewrite (item_step_count_other _ _ _ _ (FoodItem.id item) ty Hst); [apply Hcount|].
        intros Heq. apply Hnotin'. left. now symmetry.
  - split; [now apply unflagged_ids_unique|]. left. split; [|reflexivity].
    now apply in_unflagged.
  - assert (Hs' : s' = db w') by (unfold s', exec; now rewrite Hrun).
    rewrite Hs'. destruct HP as [[[] _]|[_ [Hrows Hcount]]].
    split; [|split; [exact Hrows|split; [|split]]].
    + destruct (sweep_frame clk w) as [_ [Hfl _]].
      fold s' in Hfl. rewrite Hs' in Hfl.
      destruct (flags_raised_In_l _ _ item Hfl Hin) as [b [Hb Hr]].
      rewrite <- (raised_flagged _ _ Hr); [exact Hb|].
      apply Hrows; [exact Hb | now apply raised_id].
    + rewrite Hcount. unfold bump. simpl. lia.
    + intros ty Hty. rewrite Hcount. unfold bump.
      apply String.eqb_neq in Hty. rewrite Hty. lia.
    + intros w0. apply check_item_overdue. apply Hdays.
Qed.

(** C3: an item the sweep visits, with no notification recorded against it,
    that expires in exactly 30, 7 or 1 days has exactly one notification of the
    corresponding type ("month", "week", "day") after one sweep, and still
    exactly one after a second sweep. *)
Theorem threshold_notification_once (w : World) (item : FoodItem.t) (d : Z) (ty : string) :
  In item (food_items (db w)) ->
  FoodItem.is_expired item = false ->
  Forall (fun n => Notification.food_item_id n <> FoodItem.id item) (notifications (db w)) ->
  (forall t, days_left_at clk t item = d) ->
  (d = 30 /\ ty = "month") \/ (d = 7 /\ ty = "week") \/ (d = 1 /\ ty = "day") ->
  let w1 := exec (check_and_send_notifications clk) w in
  let w2 := exec (check_and_send_notifications clk) w1 in
  count_sent (FoodItem.id item) ty (notifications (db w)) = 0%nat
  /\ count_sent (FoodItem.id item) ty (notifications (db w1)) = 1%nat
  /\ count_sent (FoodItem.id item) ty (notifications (db w2)) = 1%nat.
Proof.
  intros Hin Hflag Hnone Hdays Hcase w1 w2.
  assert (Hty : ty <> "expired")
    by (destruct Hcase as [[_ ->]|[[_ ->]|[_ ->]]]; discriminate).
  assert (Hdue : forall t, 0 <= days_left_at clk t item
                           /\ type_in ty (due_types (days_left_at clk t item)) = true).
  { intros t. rewrite Hdays.
    destruct Hcase as [[-> ->]|[[-> ->]|[-> ->]]]; split; try lia; reflexivity. }
  pose proof (count_sent_other _ ty _ Hnone) as H0.
  pose proof (sweep_due clk w item ty Hin Hflag Hdue) as Hge.
  assert (Hle : (count_sent (FoodItem.id item) ty (notifications (db w1)) <= 1)%nat)
    by (apply sweep_dedup; [exact Hty | lia]).
  pose proof (sweep_count_mono clk w1 (FoodItem.id item) ty) as Hmono.
  pose proof (sweep_dedup clk w1 (FoodItem.id item) ty Hty Hle) as Hle2.
  fold w1 in Hge. fold w2 in Hmono, Hle2. lia.
Qed.

End SweepClaims.

(** ** The dashboard *)

Section Dashboard.

Variable clk : Clock.

(** What one pass of the dashboard's loop does to the store. *)
Definition dashboard_step (item : FoodItem.t) (d : Z) (s : Store) : Store :=
  if (d <? 0) && negb (FoodItem.is_expired item)
  then mkStore (users s) (mark_expired (FoodItem.id item) (food_items s)) (notifications s)
  else s.

Lemma dashboard_item_run item acc w :
  exists acc',
    dashboard_item clk item acc w
    = (Ok acc', mkWorld (dashboard_step item (days_left_at clk (tick w) item) (db w))
                  (S (tick w)) (stdout w)).
Proof.
  unfold dashboard_item, calculate_days_until_expiry, datetime_now, bind at 1 2 3,
    ret at 1; simpl.
  rewrite days_between_midnights. fold (days_left_at clk (tick w) item).
  unfold dashboard_step.
  destruct (days_left_at clk (tick w) item <? 0) eqn:Hd;
    destruct (FoodItem.is_expired item) eqn:Hf; simpl;
    unfold update_is_expired, get_store, set_store, bind, ret; simpl;
    rewrite ?Hf; simpl;
    try (destruct (days_left_at clk (tick w) item <=? 7));
    destruct w as [s t out]; eexists; reflexivity.
Qed.

Lemma for_fold_dashboard_inv (P : list FoodItem.t -> Store -> Prop) :
  (forall item rest s t,
      P (item :: rest) s -> P rest (dashboard_step item (days_left_at clk t item) s)) ->
  forall items acc w, P items (db w) ->
  exists acc' w', for_fold items acc (dashboard_item clk) w = (Ok acc', w')
                  /\ P [] (db w').
Proof.
  intros Hstep. induction items as [|item rest IH]; intros acc w HP.
  - exists acc, w. simpl. auto.
  - destruct (dashboard_item_run item acc w) as [acc1 Hrun].
    specialize (Hstep _ _ _ (tick w) HP).
    destruct (IH acc1 (mkWorld _ (S (tick w)) (stdout w)) Hstep) as [acc' [w' [Hrest HP']]].
    exists acc', w'. simpl. unfold bind. rewrite Hrun. auto.
Qed.

Lemma insert_by_expiry_In x y l : In y (insert_by_expiry x l) -> y = x \/ In y l.
Proof.
  induction l as [|z l IH]; simpl.
  - intros [<-|[]]. now left.
  - destruct (FoodItem.expiry_date x <=? FoodItem.expiry_date z); simpl.
    + intros [<-|[<-|H]]; auto.
    + intros [<-|H]; auto. destruct (IH H); auto.
Qed.

Lemma order_by_expiry_date_In y l : In y (order_by_expiry_date l) -> In y l.
Proof.
  unfold order_by_expiry_date. induction l as [|x l IH]; simpl; [auto|].
  intros H. destruct (insert_by_expiry_In _ _ _ H) as [->|H']; auto.
Qed.

Lemma get_current_user_run request w :
  (exists e, get_current_user request w = (Raise e, w))
  \/ (exists u, get_current_user request w = (Ok u, w)).
Proof.
  unfold get_current_user, require_login, get_user, get_store, bind, ret, raise.
  destruct (session_user_id request) as [uid|]; [|left; eexists; reflexivity].
  destruct (uid =? 0); [left; eexists; reflexivity|].
  destruct (find _ (users (db w))); [right | left]; eexists; reflexivity.
Qed.

(** The rows the dashboard's loop visits in store [s] for user [u]. *)
Definition dashboard_items (u : User.t) (s : Store) : list FoodItem.t :=
  order_by_expiry_date
    (filter (fun i => (FoodItem.user_id i =? User.id u) && negb (FoodItem.is_used i))
            (food_items s)).

Lemma dashboard_items_In u s item :
  In item (dashboard_items u s) -> In item (food_items s).
Proof.
  intros H. apply order_by_expiry_date_In in H. apply filter_In in H. tauto.
Qed.

Lemma calculate_user_stats_run user_id w :
  exists stats, calculate_user_stats user_id w = (Ok stats, w).
Proof. eexists. reflexivity. Qed.

Lemma dashboard_unfold request w u w1 :
  get_current_user request w = (Ok u, w) ->
  check_and_send_notifications clk w = (Ok tt, w1) ->
  dashboard clk request w
  = (buckets <- for_fold (dashboard_items u (db w1)) (mkBuckets [] [] [])
                  (dashboard_item clk) ;;
     stats <- calculate_user_stats (User.id u) ;;
     ret (TemplateResponse "dashboard.html" (DashboardContext u buckets stats))) w1.
Proof.
  intros Hu Hsweep. unfold dashboard, bind at 1. rewrite Hu.
  unfold bind at 1. rewrite Hsweep. reflexivity.
Qed.

(** A dashboard view either is refused before it touches anything, or runs the
    sweep and then its own loop; a loop invariant that every pass maintains
    holds of the store it leaves. *)
Lemma dashboard_inv (P : list FoodItem.t -> Store -> Prop) request w :
  (forall item rest s t,
      P (item :: rest) s -> P rest (dashboard_step item (days_left_at clk t item) s)) ->
  (forall u, P (dashboard_items u (db (exec (check_and_send_notifications clk) w)))
               (db (exec (check_and_send_notifications clk) w))) ->
  (exists e, get_current_user request w = (Raise e, w)
             /\ dashboard clk request w = (Raise e, w))
  \/ (exists u r w', get_current_user request w = (Ok u, w)
                     /\ dashboard clk request w = (Ok r, w') /\ P [] (db w')).
Proof.
  intros Hstep Hinit.
  destruct (get_current_user_run request w) as [[e He]|[u Hu]].
  - left. exists e. split; [exact He|]. unfold dashboard, bind at 1. now rewrite He.
  - right. specialize (Hinit u). unfold exec in Hinit.
    destruct (sweep_total clk w) as [w1 Hsweep]. rewrite Hsweep in Hinit. simpl in Hinit.
    destruct (for_fold_dashboard_inv P Hstep _ (mkBuckets [] [] []) w1 Hinit)
      as [acc' [w' [Hloop HP]]].
    destruct (calculate_user_stats_run (User.id u) w') as [stats Hstats].
    exists u. eexists. exists w'. split; [exact Hu|]. split; [|exact HP].
    rewrite (dashboard_unfold _ _ _ _ Hu Hsweep).
    unfold bind at 1. rewrite Hloop. unfold bind at 1. rewrite Hstats. reflexivity.
Qed.

End Dashboard.

(** ** Repeated views on one day *)

Lemma item_step_unflagged_row item d s s' row :
  item_step item d s s' ->
  In row (food_items s') -> FoodItem.is_expired row = false ->
  In row (food_items s) /\ (d < 0 -> FoodItem.id row <> FoodItem.id item).
Proof.
  intros [_ H] Hin Hflag. destruct (d <? 0) eqn:Hd.
  - destruct H as [Hitems _]. rewrite Hitems in Hin.
    destruct (mark_expired_unflagged _ _ _ Hin Hflag). auto.
  - destruct H as [Hitems _]. rewrite Hitems in Hin. split; [exact Hin|].
    apply Z.ltb_ge in Hd. lia.
Qed.

Lemma flags_raised_keeps_flagged items items' a :
  flags_raised items items' -> In a items -> FoodItem.is_expired a = true -> In a items'.
Proof.
  intros Hfl Hin Hflag. destruct (flags_raised_In_l _ _ a Hfl Hin) as [b [Hb [->| ->]]].
  - exact Hb.
  - now rewrite with_is_expired_same in Hb.
Qed.

Lemma dashboard_step_flags item d s :
  users (dashboard_step item d s) = users s
  /\ notifications (dashboard_step item d s) = notifications s
  /\ flags_raised (food_items s) (food_items (dashboard_step item d s)).
Proof.
  unfold dashboard_step. destruct (_ && _); simpl.
  - repeat split. apply flags_raised_mark.
  - repeat split. apply flags_raised_refl.
Qed.

Section Overdue.

Variable clk : Clock.

(** A sweep flags every row that is past its date at every reading of the
    clock. *)
Lemma sweep_flags_overdue w item :
  In item (food_items (db w)) ->
  (forall t, days_left_at clk t item < 0) ->
  In (FoodItem.with_is_expired true item)
     (food_items (db (exec (check_and_send_notifications clk) w))).
Proof.
  intros Hin Hdays.
  destruct (sweep_frame clk w) as [_ [Hfl _]].
  destruct (FoodItem.is_expired item) eqn:Hflag.
  - rewrite with_is_expired_same by exact Hflag.
    eapply flags_raised_keeps_flagged; eassumption.
  - destruct (sweep_inv clk (fun rest s =>
        In item rest
        \/ forall row, In row (food_items s) -> FoodItem.id row = FoodItem.id item ->
                       FoodItem.is_expired row = true)) with (w := w)
      as [w' [Hrun HP]].
    + intros it rest s0 s1 t [[->|Hrest]|Hrows] Hst.
      * right. intros row Hrow Hid. eapply item_step_marks; eauto.
      * now left.
      * right. intros row Hrow Hid.
        destruct (flags_raised_In_r _ _ row (item_step_flags _ _ _ _ Hst) Hrow)
          as [a [Ha Hr]].
        eapply raised_flag; [exact Hr|]. apply Hrows; [exact Ha|].
        now rewrite <- (raised_id _ _ Hr).
    + left. now apply in_unflagged.
    + unfold exec in *. rewrite Hrun in *. simpl in *.
      destruct HP as [[]|Hrows].
      destruct (flags_raised_In_l _ _ item Hfl Hin) as [b [Hb Hr]].
      rewrite <- (raised_flagged _ _ Hr); [exact Hb|].
      apply Hrows; [exact Hb | now apply raised_id].
Qed.

(** A view that is let in changes the store the sweep leaves by raising flags
    only; a view that is refused changes nothing. *)
Lemma dashboard_frame request w :
  let s1 := db (exec (check_and_send_notifications clk) w) in
  let s' := db (exec (dashboard clk request) w) in
  (exists e, get_current_user request w = (Raise e, w) /\ s' = db w)
  \/ (users s' = users s1 /\ notifications s' = notifications s1
      /\ flags_raised (food_items s1) (food_items s')).
Proof.
  intros s1 s'.
  destruct (dashboard_inv clk (fun _ s =>
      users s = users s1 /\ notifications s = notifications s1
      /\ flags_raised (food_items s1) (food_items s)) request w)
    as [[e [Hu He]]|[u [r [w' [_ [Hrun HP]]]]]].
  - intros item rest s t [Hu [Hn Hf]].
    destruct (dashboard_step_flags item (days_left_at clk t item) s) as [H1 [H2 H3]].
    split; [congruence|]. split; [congruence|].
    eapply flags_raised_trans; eassumption.
  - intros _. split; [reflexivity|]. split; [reflexivity|]. apply flags_raised_refl.
  - left. exists e. split; [exact Hu|]. unfold s', exec. now rewrite He.
  - right. unfold s', exec. now rewrite Hrun.
Qed.

End Overdue.

Section SameDay.

Variable clk : Clock.
Variable today : Z.
Hypothesis same_day : forall t, date_of (clock_now clk t) = today.

Lemma days_left_today t item :
  days_left_at clk t item = date_of (FoodItem.expiry_date item) - today.
Proof. unfold days_left_at. now rewrite same_day. Qed.

(** A row has nothing left for the sweep to do: it is not overdue and every
    threshold it has reached has its notification. *)
Definition settled (s : Store) (row : FoodItem.t) : Prop :=
  let d := date_of (FoodItem.expiry_date row) - today in
  0 <= d /\
  forall ty, In ty (due_types d) ->
             (1 <= count_sent (FoodItem.id row) ty (notifications s))%nat.

Definition saturated (s : Store) : Prop :=
  forall row, In row (food_items s) -> FoodItem.is_expired row = false -> settled s row.

Lemma sweep_saturates w :
  saturated (db (exec (check_and_send_notifications clk) w)).
Proof.
  destruct (sweep_inv clk (fun rest s =>
      forall row, In row (food_items s) -> FoodItem.is_expired row = false ->
                  In row rest \/ settled s row)) with (w := w) as [w' [Hrun HP]].
  - intros item rest s0 s1 t HP Hst row Hin Hflag.
    destruct (item_step_unflagged_row _ _ _ _ _ Hst Hin Hflag) as [Hin0 Hother].
    destruct (HP row Hin0 Hflag) as [[->|Hrest]|[Hd Hset]].
    + right. rewrite days_left_today in Hst, Hother.
      destruct (Z.lt_ge_cases (date_of (FoodItem.expiry_date row) - today) 0) as [Hneg|Hpos].
      * now destruct (Hother Hneg).
      * split; [exact Hpos|]. intros ty Hty.
        rewrite (item_step_count_due _ _ _ _ ty Hst Hpos).
        apply type_in_spec in Hty. rewrite Hty. simpl.
        destruct (Nat.eqb_spec (count_sent (FoodItem.id row) ty (notifications s0)) 0); lia.
    + now left.
    + right. split; [exact Hd|]. intros ty Hty.
      pose proof (item_step_count_mono _ _ _ _ (FoodItem.id row) ty Hst).
      specialize (Hset ty Hty). lia.
  - intros row Hin Hflag. left. now apply in_unflagged.
  - unfold exec. rewrite Hrun. intros row Hin Hflag.
    destruct (HP row Hin Hflag) as [[]|H]. exact H.
Qed.

Lemma saturated_no_new s row :
  settled s row ->
  filter (fun ty => negb (type_in ty (types_sent (FoodItem.id row) (notifications s))))
         (due_types (date_of (FoodItem.expiry_date row) - today)) = [].
Proof.
  intros [_ Hset].
  induction (due_types (date_of (FoodItem.expiry_date row) - today)) as [|ty l IH];
    [reflexivity|].
  cbn [filter]. rewrite types_sent_count.
  destruct (Nat.eqb_spec (count_sent (FoodItem.id row) ty (notifications s)) 0) as [H0|_].
  - specialize (Hset ty (or_introl eq_refl)). lia.
  - cbn [negb]. apply IH. intros ty' Hty'. apply Hset. now right.
Qed.

Lemma item_step_settled item s s' :
  settled s item ->
  item_step item (date_of (FoodItem.expiry_date item) - today) s s' -> s' = s.
Proof.
  intros Hset [Hu H]. pose proof Hset as [Hd _]. apply Z.ltb_ge in Hd. rewrite Hd in H.
  destruct H as [Hi [new [Hn [_ Htypes]]]].
  rewrite (saturated_no_new _ _ Hset) in Htypes.
  apply map_eq_nil in Htypes. subst new. rewrite app_nil_r in Hn.
  destruct s, s'; simpl in *; congruence.
Qed.

(** On a saturated store the sweep changes nothing. *)
Lemma sweep_saturated w :
  saturated (db w) -> db (exec (check_and_send_notifications clk) w) = db w.
Proof.
  intros Hsat.
  destruct (sweep_inv clk (fun rest s =>
      s = db w /\ Forall (fun it => In it (unflagged (db w))) rest))
    with (w := w) as [w' [Hrun [HP _]]].
  - intros item rest s0 s1 t [-> Hall] Hst.
    inversion Hall as [|x l Hitem Hrest]; subst. split; [|exact Hrest].
    apply in_unflagged in Hitem. destruct Hitem as [Hin Hflag].
    rewrite days_left_today in Hst.
    eapply item_step_settled; [|exact Hst]. now apply Hsat.
  - split; [reflexivity|]. apply Forall_forall. auto.
  - unfold exec. now rewrite Hrun.
Qed.

Lemma dashboard_step_saturated s item t :
  saturated s -> In item (food_items s) ->
  dashboard_step item (days_left_at clk t item) s = s.
Proof.
  intros Hsat Hin. unfold dashboard_step. rewrite days_left_today.
  destruct (FoodItem.is_expired item) eqn:Hflag; [now rewrite andb_false_r|].
  destruct (Hsat item Hin Hflag) as [Hd _]. apply Z.ltb_ge in Hd. now rewrite Hd.
Qed.

Lemma saturated_flags s s' :
  users s' = users s -> notifications s' = notifications s ->
  flags_raised (food_items s) (food_items s') ->
  saturated s -> saturated s'.
Proof.
  intros _ Hn Hfl Hsat row Hin Hflag.
  destruct (flags_raised_In_r _ _ row Hfl Hin) as [a [Ha Hr]].
  pose proof (raised_unflagged _ _ Hr Hflag) as Heq. subst row.
  unfold settled. rewrite Hn. now apply Hsat.
Qed.

(** Every view leaves a saturated store behind, once the sweep has run. *)
Lemma dashboard_saturates request w u :
  get_current_user request w = (Ok u, w) ->
  saturated (db (exec (dashboard clk request) w)).
Proof.
  intros Hu.
  destruct (dashboard_inv clk (fun _ s => saturated s) request w)
    as [[e [He _]]|[u' [r [w' [_ [Hrun HP]]]]]].
  - intros item rest s t Hsat.
    destruct (dashboard_step_flags item (days_left_at clk t item) s) as [H1 [H2 H3]].
    eapply saturated_flags; eassumption.
  - intros _. apply sweep_saturates.
  - rewrite Hu in He. discriminate.
  - unfold exec. now rewrite Hrun.
Qed.

(** On a saturated store a view changes nothing, whoever asks for it. *)
Lemma dashboard_saturated request w :
  saturated (db w) -> db (exec (dashboard clk request) w) = db w.
Proof.
  intros Hsat.
  destruct (dashboard_inv clk (fun rest s =>
      s = db w /\ Forall (fun it => In it (food_items (db w))) rest) request w)
    as [[e [_ He]]|[u' [r [w' [_ [Hrun [HP _]]]]]]].
  - intros item rest s t [-> Hall].
    inversion Hall as [|x l Hitem Hrest]; subst. split; [|exact Hrest].
    now apply dashboard_step_saturated.
  - intros u. rewrite (sweep_saturated w Hsat). split; [reflexivity|].
    apply Forall_forall. intros it Hit. eapply dashboard_items_In; exact Hit.
  - unfold exec. now rewrite He.
  - unfold exec. now rewrite Hrun.
Qed.

Definition run_views (requests : list Request) (w : World) : World :=
  fold_left (fun w0 r => exec (dashboard clk r) w0) requests w.

(** C4: when a user views the dashboard, every item whose expiry date is
    before today has its [is_expired] flag set by that view; any number of
    further views on the same day, by whichever session, leave the whole store
    (flags and notifications included) as the first view left it. *)
Theorem dashboard_view_idempotent (request : Request) (u : User.t) (w : World)
  (item : FoodItem.t) (later : list Request) :
  get_current_user request w = (Ok u, w) ->
  In item (food_items (db w)) ->
  date_of (FoodItem.expiry_date item) < today ->
  let w1 := exec (dashboard clk request) w in
  In (FoodItem.with_is_expired true item) (food_items (db w1))
  /\ db (run_views later w1) = db w1.
Proof.
  intros Hu Hin Hpast w1. split.
  - assert (Hswept : In (FoodItem.with_is_expired true item)
                        (food_items (db (exec (check_and_send_notifications clk) w)))).
    { apply sweep_flags_overdue; [exact Hin|]. intros t. rewrite days_left_today. lia. }
    destruct (dashboard_frame clk request w) as [[e [He _]]|[_ [_ Hfl]]].
    + rewrite Hu in He. discriminate.
    + eapply flags_raised_keeps_flagged; [exact Hfl | exact Hswept | reflexivity].
  - pose proof (dashboard_saturates request w u Hu) as Hsat. fold w1 in Hsat.
    clear Hu Hin Hpast. revert Hsat. generalize w1. clear w1.
    induction later as [|r later IH]; intros w1 Hsat; [reflexivity|].
    simpl. fold (run_views later (exec (dashboard clk r) w1)).
    pose proof (dashboard_saturated r w1 Hsat) as Hfix.
    rewrite IH; [exact Hfix|]. now rewrite Hfix.
Qed.

End SameDay.

(** ** At most one notification per item and type *)

Definition at_most_one (s : Store) : Prop :=
  forall fid ty, (count_sent fid ty (notifications s) <= 1)%nat.

(** No row that is still unflagged already has an "expired" notification
    recorded against its id. *)
Definition no_stale_expired (s : Store) : Prop :=
  forall row, In row (food_items s) -> FoodItem.is_expired row = false ->
              count_sent (FoodItem.id row) "expired" (notifications s) = 0%nat.

Definition store_ok (s : Store) : Prop :=
  item_ids_unique s /\ at_most_one s /\ no_stale_expired s.

Lemma expired_never_due d : type_in "expired" (due_types d) = false.
Proof.
  unfold due_types. destruct (d <=? 30), (d <=? 7), (d <=? 1); reflexivity.
Qed.

Lemma item_step_count_expired_type item d s s' fid :
  item_step item d s s' ->
  count_sent fid "expired" (notifications s')
  = (count_sent fid "expired" (notifications s)
     + if (fid =? FoodItem.id item)%Z && (d <? 0)%Z then 1 else 0)%nat.
Proof.
  intros Hst. destruct (Z.eqb_spec fid (FoodItem.id item)) as [->|Hne].
  - destruct (Z.ltb_spec d 0) as [Hd|Hd]; simpl.
    + now rewrite (item_step_count_expired _ _ _ _ _ Hst Hd).
    + rewrite (item_step_count_due _ _ _ _ _ Hst Hd), expired_never_due. simpl. lia.
  - simpl. rewrite (item_step_count_other _ _ _ _ _ _ Hst Hne). lia.
Qed.

Inductive pass :=
| SweepPass
| DashboardPass (request : Request).

Section Uniqueness.

Variable clk : Clock.

Definition run_pass (p : pass) (w : World) : World :=
  match p with
  | SweepPass => exec (check_and_send_notifications clk) w
  | DashboardPass request => exec (dashboard clk request) w
  end.

Definition run_passes (ps : list pass) (w : World) : World :=
  fold_left (fun w0 p => run_pass p w0) ps w.

Lemma sweep_store_ok w :
  store_ok (db w) -> store_ok (db (exec (check_and_send_notifications clk) w)).
Proof.
  intros [Huniq [Hone Hstale]].
  destruct (sweep_inv clk (fun rest s =>
      NoDup (map FoodItem.id rest)
      /\ store_ok s
      /\ forall j, In j rest ->
                   count_sent (FoodItem.id j) "expired" (notifications s) = 0%nat))
    with (w := w) as [w' [Hrun [_ [HP _]]]].
  - intros item rest s0 s1 t [Hnd [[Hu [H1 Hs]] Hrest]] Hst.
    inversion Hnd as [|x l Hnotin Hnd']; subst.
    split; [exact Hnd'|]. split; [split; [|split]|].
    + unfold item_ids_unique in *.
      now rewrite (flags_raised_ids _ _ (item_step_flags _ _ _ _ Hst)).
    + intros fid ty. destruct (String.eqb_spec ty "expired") as [->|Hty].
      * rewrite (item_step_count_expired_type _ _ _ _ fid Hst).
        destruct (Z.eqb_spec fid (FoodItem.id item)) as [->|_]; simpl.
        -- rewrite (Hrest item (or_introl eq_refl)). destruct (_ <? 0); lia.
        -- specialize (H1 fid "expired"). lia.
      * eapply item_step_dedup; eauto.
    + intros row Hrow Hflag.
      destruct (item_step_unflagged_row _ _ _ _ _ Hst Hrow Hflag) as [Hrow0 Hother].
      rewrite (item_step_count_expired_type _ _ _ _ _ Hst), (Hs row Hrow0 Hflag).
      destruct (Z.eqb_spec (FoodItem.id row) (FoodItem.id item)) as [Heq|_];
        [|reflexivity].
      destruct (Z.ltb_spec (days_left_at clk t item) 0) as [Hd|_]; [|reflexivity].
      now destruct (Hother Hd).
    + intros j Hj.
      rewrite (item_step_count_expired_type _ _ _ _ _ Hst), (Hrest j (or_intror Hj)).
      destruct (Z.eqb_spec (FoodItem.id j) (FoodItem.id item)) as [Heq|_];
        [|reflexivity].
      exfalso. apply Hnotin. rewrite <- Heq. now apply in_map.
  - split; [now apply unflagged_ids_unique|]. split; [now repeat split|].
    intros j Hj. apply in_unflagged in Hj. now apply Hstale.
  - unfold exec. now rewrite Hrun.
Qed.

Lemma store_ok_flags s s' :
  users s' = users s -> notifications s' = notifications s ->
  flags_raised (food_items s) (food_items s') ->
  store_ok s -> store_ok s'.
Proof.
  intros _ Hn Hfl [Hu [H1 Hs]]. split; [|split].
  - unfold item_ids_unique in *. now rewrite (flags_raised_ids _ _ Hfl).
  - intros fid ty. rewrite Hn. apply H1.
  - intros row Hrow Hflag. rewrite Hn.
    destruct (flags_raised_In_r _ _ row Hfl Hrow) as [a [Ha Hr]].
    pose proof (raised_unflagged _ _ Hr Hflag) as Heq. subst row. now apply Hs.
Qed.

Lemma dashboard_store_ok request w :
  store_ok (db w) -> store_ok (db (exec (dashboard clk request) w)).
Proof.
  intros Hok. destruct (dashboard_frame clk request w) as [[e [_ ->]]|[Hu [Hn Hfl]]].
  - exact Hok.
  - eapply store_ok_flags; [exact Hu | exact Hn | exact Hfl |]. now apply sweep_store_ok.
Qed.

Lemma dashboard_dedup request w fid ty :
  ty <> "expired" ->
  (count_sent fid ty (notifications (db w)) <= 1)%nat ->
  (count_sent fid ty (notifications (db (exec (dashboard clk request) w))) <= 1)%nat.
Proof.
  intros Hty Hle. destruct (dashboard_frame clk request w) as [[e [_ ->]]|[_ [-> _]]].
  - exact Hle.
  - now apply sweep_dedup.
Qed.

(** C1, as the code has it: in a store whose item ids are unique and where no
    item still unflagged already has an "expired" notification against its
    id, "at most one notification per (food_item_id, notification_type)"
    holds after every sequence of sweeps and dashboard views if it held
    before, for all four types, and both side conditions hold again.  For
    "month", "week" and "day" no side condition is needed: the pre-check scan
    alone keeps each pair at one notification at most. *)
Theorem notifications_stay_unique (passes : list pass) (w : World) :
  store_ok (db w) ->
  store_ok (db (run_passes passes w))
  /\ (forall fid ty ps w0,
         ty <> "expired" ->
         (count_sent fid ty (notifications (db w0)) <= 1)%nat ->
         (count_sent fid ty (notifications (db (run_passes ps w0))) <= 1)%nat).
Proof.
  intros Hok. split.
  - revert w Hok. induction passes as [|p ps IH]; intros w Hok; [exact Hok|].
    simpl. apply IH. destruct p; simpl.
    + now apply sweep_store_ok.
    + now apply dashboard_store_ok.
  - intros fid ty ps. induction ps as [|p ps IH]; intros w0 Hty Hle; [exact Hle|].
    simpl. apply IH; [exact Hty|]. destruct p; simpl.
    + now apply sweep_dedup.
    + now apply dashboard_dedup.
Qed.

End Uniqueness.

(** ** Recipe suggestions *)

Section Recipes.

Variable clk : Clock.

(** The rows [get_recipe_suggestions] selects for [user_id] at time [now]. *)
Definition expiring_soon_items (now : datetime) (user_id : Z) (s : Store)
  : list FoodItem.t :=
  filter (fun i => (FoodItem.user_id i =? user_id)
                   && (FoodItem.expiry_date i <=? now + timedelta_of_days 30)
                   && negb (FoodItem.is_expired i)) (food_items s).

Lemma expiring_soon_items_In now user_id s i :
  In i (expiring_soon_items now user_id s) <->
  In i (food_items s)
  /\ FoodItem.user_id i = user_id
  /\ FoodItem.expiry_date i <= now + 30 * us_per_day
  /\ FoodItem.is_expired i = false.
Proof.
  unfold expiring_soon_items, timedelta_of_days. rewrite filter_In.
  rewrite !andb_true_iff, negb_true_iff, Z.eqb_eq, Z.leb_le. tauto.
Qed.

(** Modelled from the spec: the items of the user "expiring within 30 days
    [from now] and not expired", that is, unflagged, with an expiry date that
    is today or later and no later than 30 days from now. *)
Definition expiring_within_30_days (now : datetime) (user_id : Z) (s : Store)
  : list FoodItem.t :=
  filter (fun i => (FoodItem.user_id i =? user_id)
                   && (date_of now <=? date_of (FoodItem.expiry_date i))
                   && (FoodItem.expiry_date i <=? now + timedelta_of_days 30)
                   && negb (FoodItem.is_expired i)) (food_items s).

Lemma expiring_within_30_days_In now user_id s i :
  In i (expiring_within_30_days now user_id s) <->
  In i (expiring_soon_items now user_id s)
  /\ date_of now <= date_of (FoodItem.expiry_date i).
Proof.
  unfold expiring_within_30_days, expiring_soon_items. rewrite !filter_In.
  rewrite !andb_true_iff, Z.leb_le. tauto.
Qed.

(** C9: the helper selects the user's rows that expire no later than 30 days
    from now and are not flagged expired, with no lower bound on the date: a
    row past its date is selected as long as its flag is not raised.  Every
    item expiring within 30 days from now is selected, any other selected row
    has its date before today, and when no unflagged row of the user is past
    its date the selection is the items expiring within 30 days from now.
    With no selected row the helper returns the fallback string, otherwise
    the template naming the first three selected names at most.  It never
    raises and leaves the store as it is. *)
Theorem recipe_suggestions_text (user_id : Z) (w : World) :
  let now := clock_now clk (tick w) in
  let selected := expiring_soon_items now user_id (db w) in
  let named := firstn 3 selected in
  (forall i, In i selected <->
             In i (food_items (db w))
             /\ FoodItem.user_id i = user_id
             /\ FoodItem.expiry_date i <= now + 30 * us_per_day
             /\ FoodItem.is_expired i = false)
  /\ (forall i, In i (expiring_within_30_days now user_id (db w)) -> In i selected)
  /\ (forall i, In i selected ->
                ~ In i (expiring_within_30_days now user_id (db w)) ->
                date_of (FoodItem.expiry_date i) < date_of now)
  /\ ((forall i, In i (food_items (db w)) -> FoodItem.user_id i = user_id ->
                 FoodItem.is_expired i = false ->
                 date_of now <= date_of (FoodItem.expiry_date i)) ->
      selected = expiring_within_30_days now user_id (db w))
  /\ (List.length named <= 3)%nat
  /\ (forall i, In i named -> In i selected)
  /\ exists text,
       get_recipe_suggestions clk user_id w
       = (Ok text, mkWorld (db w) (S (tick w)) (stdout w))
       /\ (selected = [] -> text = "No recipes available")
       /\ (selected <> [] ->
           text = ("You have: " ++ String.concat ", " (map FoodItem.name named)
                   ++ ". Try making a stir-fry, soup, or salad!")%string).
Proof.
  intros now selected named. split; [|split; [|split; [|split; [|split; [|split]]]]].
  - intros i. apply expiring_soon_items_In.
  - intros i Hi. apply expiring_within_30_days_In in Hi. tauto.
  - intros i Hi Hout. rewrite expiring_within_30_days_In in Hout.
    destruct (Z.lt_ge_cases (date_of (FoodItem.expiry_date i)) (date_of now)) as [Hlt|Hge];
      [exact Hlt|]. exfalso. apply Hout. split; [exact Hi | lia].
  - intros Hfresh. unfold selected, expiring_soon_items, expiring_within_30_days.
    apply filter_ext_in. intros i Hi.
    destruct (Z.eqb_spec (FoodItem.user_id i) user_id) as [Hown|_]; [|reflexivity].
    destruct (FoodItem.is_expired i) eqn:Hflag; [now rewrite !andb_false_r|].
    pose proof (Hfresh i Hi Hown Hflag) as Hdate. apply Z.leb_le in Hdate.
    now rewrite Hdate.
  - unfold named. rewrite length_firstn. lia.
  - intros i Hi. rewrite <- (firstn_skipn 3 selected). apply in_or_app. now left.
  - unfold get_recipe_suggestions, datetime_now, query_food_items, get_store, bind, ret.
    cbn [db tick stdout fst snd].
    fold now. fold (expiring_soon_items now user_id (db w)). fold selected.
    unfold named. rewrite <- firstn_map.
    destruct selected as [|i rest].
    + eexists. split; [reflexivity|]. split; [reflexivity|]. intros H. now destruct H.
    + eexists. split; [reflexivity|]. split; [discriminate | reflexivity].
Qed.

End Recipes.

(** ** Accounts *)

Lemma next_id_above ids x : In x ids -> x < next_id ids.
Proof.
  unfold next_id. induction ids as [|y ids IH]; simpl; [contradiction|].
  intros [->|H]; [lia|]. specialize (IH H). lia.
Qed.

Lemma NoDup_map_eq {A B} (f : A -> B) (l : list A) (x y : A) :
  NoDup (map f l) -> In x l -> In y l -> f x = f y -> x = y.
Proof.
  induction l as [|a l IH]; simpl; [contradiction|].
  intros Hnd Hx Hy Heq. inversion Hnd as [|b l' Hnotin Hnd']; subst.
  destruct Hx as [->|Hx], Hy as [->|Hy]; auto.
  - exfalso. apply Hnotin. rewrite Heq. now apply in_map.
  - exfalso. apply Hnotin. rewrite <- Heq. now apply in_map.
Qed.

(** Some user already has the username or the email. *)
Definition taken (username email : string) (s : Store) : Prop :=
  exists u, In u (users s) /\ (User.username u = username \/ User.email u = email).

Definition same_name (username email : string) (u : User.t) : bool :=
  (User.username u =? username)%string || (User.email u =? email)%string.

Lemma same_name_spec username email u :
  same_name username email u = true <->
  User.username u = username \/ User.email u = email.
Proof.
  unfold same_name. now rewrite orb_true_iff, !String.eqb_eq.
Qed.

Lemma find_same_name username email s :
  (exists u, find (same_name username email) (users s) = Some u /\ taken username email s)
  \/ (find (same_name username email) (users s) = None /\ ~ taken username email s).
Proof.
  destruct (find (same_name username email) (users s)) as [u|] eqn:Hfind.
  - left. exists u. split; [reflexivity|]. apply find_some in Hfind.
    exists u. split; [tauto|]. apply same_name_spec. tauto.
  - right. split; [reflexivity|]. intros [u [Hin Hname]].
    apply same_name_spec in Hname.
    pose proof (find_none _ _ Hfind u Hin) as Hf. congruence.
Qed.

Section Accounts.

Variable clk : Clock.
Variable sha256_hexdigest : string -> string.

(** The row a successful signup inserts. *)
Definition new_user (username email password phone : string) (w : World) : User.t :=
  User.mk (next_id (map User.id (users (db w)))) username email
    (sha256_hexdigest password) (nonempty phone)
    (len (users (db w)) =? 0) (len (users (db w)) =? 0)
    (clock_utcnow clk (tick w)).

Definition signup_error : Response :=
  TemplateResponse "signup.html" (ErrorContext "Username or email already exists").

Lemma signup_taken request username email password phone w :
  taken username email (db w) ->
  signup clk sha256_hexdigest request username email password phone w
  = (Ok signup_error, w).
Proof.
  intros Htaken. unfold signup, get_store, bind at 1. cbn [fst snd].
  fold (same_name username email).
  destruct (find_same_name username email (db w)) as [[u [-> _]]|[_ Hno]].
  - reflexivity.
  - contradiction.
Qed.

Lemma signup_fresh request username email password phone w :
  ~ taken username email (db w) ->
  signup clk sha256_hexdigest request username email password phone w
  = (Ok (RedirectResponse "/login" 302),
     mkWorld (mkStore (users (db w) ++ [new_user username email password phone w])
                (food_items (db w)) (notifications (db w)))
       (S (tick w)) (stdout w)).
Proof.
  intros Hfresh. unfold signup, get_store, bind at 1. cbn [fst snd].
  fold (same_name username email).
  destruct (find_same_name username email (db w)) as [[u [_ Hyes]]|[-> _]].
  - contradiction.
  - reflexivity.
Qed.

(** C7: signup answers with the error page exactly when some user already has
    the requested username or email; it then leaves the world as it was, and
    otherwise it redirects to the login page. *)
Theorem signup_fails_iff_taken (request : Request)
  (username email password phone : string) (w : World) :
  let run := signup clk sha256_hexdigest request username email password phone w in
  (fst run = Ok signup_error <-> taken username email (db w))
  /\ (taken username email (db w) -> snd run = w)
  /\ (~ taken username email (db w) ->
      fst run = Ok (RedirectResponse "/login" 302)
      /\ users (db (snd run))
         = users (db w) ++ [new_user username email password phone w]).
Proof.
  intros run. unfold run.
  destruct (find_same_name username email (db w)) as [[u [_ Hyes]]|[_ Hno]].
  - rewrite (signup_taken _ _ _ _ _ _ Hyes). simpl.
    split; [tauto|]. split; [reflexivity|]. intros H. contradiction.
  - rewrite (signup_fresh _ _ _ _ _ _ Hno). simpl.
    split; [|split; [intros H; contradiction | auto]].
    split; [discriminate | intros H; contradiction].
Qed.

End Accounts.

(** ** Administration *)

Section Administration.

Variable clk : Clock.
Variable sha256_hexdigest : string -> string.

Lemma get_user_run user_id w :
  get_user user_id w = (Ok (find (fun u => User.id u =? user_id) (users (db w))), w).
Proof. reflexivity. Qed.

Lemma require_admin_run request w :
  (exists e, require_admin request w = (Raise e, w))
  \/ (exists a, require_admin request w = (Ok a, w)
                /\ In a (users (db w)) /\ User.is_admin a = true).
Proof.
  unfold require_admin, require_login, bind, raise, ret.
  destruct (session_user_id request) as [uid|]; [|left; eexists; reflexivity].
  destruct (uid =? 0); [left; eexists; reflexivity|].
  rewrite get_user_run.
  destruct (find _ (users (db w))) as [a|] eqn:Hfind; [|left; eexists; reflexivity].
  destruct (User.is_admin a) eqn:Hadmin; [|left; eexists; reflexivity].
  right. exists a. apply find_some in Hfind. tauto.
Qed.

(** The users after an approval that goes through. *)
Definition approve_row (user_id : Z) (us : list User.t) : list User.t :=
  map (fun v => if User.id v =? user_id then User.with_is_approved true v else v) us.

Lemma approve_user_users user_id request w :
  let us' := users (db (exec (approve_user user_id request) w)) in
  us' = users (db w)
  \/ ((exists a, require_admin request w = (Ok a, w))
      /\ us' = approve_row user_id (users (db w))).
Proof.
  cbv zeta. unfold exec.
  remember (approve_user user_id request w) as run eqn:Hrun.
  unfold approve_user, bind at 1 in Hrun.
  destruct (require_admin_run request w) as [[e He]|[a [Ha _]]].
  - rewrite He in Hrun. subst run. now left.
  - rewrite Ha in Hrun. unfold bind at 1 in Hrun. rewrite get_user_run in Hrun.
    destruct (find _ (users (db w))) as [t|] eqn:Hfind;
      [|destruct (int64 user_id); subst run; now left].
    right. split; [eauto|]. apply find_some in Hfind. destruct Hfind as [_ Hid].
    apply Z.eqb_eq in Hid. subst run. simpl. now rewrite Hid.
Qed.

Lemma delete_user_users user_id request w :
  let us' := users (db (exec (delete_user user_id request) w)) in
  us' = users (db w)
  \/ us' = filter (fun v => negb (User.id v =? user_id)) (users (db w)).
Proof.
  cbv zeta. unfold exec.
  remember (delete_user user_id request w) as run eqn:Hrun.
  unfold delete_user, bind at 1 in Hrun.
  destruct (require_admin_run request w) as [[e He]|[a [Ha _]]].
  - rewrite He in Hrun. subst run. now left.
  - rewrite Ha in Hrun. destruct (user_id =? User.id a); [subst run; now left|].
    unfold bind at 1 in Hrun. rewrite get_user_run in Hrun.
    destruct (find _ (users (db w))) as [t|] eqn:Hfind;
      [|destruct (int64 user_id); subst run; now left].
    right. apply find_some in Hfind. destruct Hfind as [_ Hid].
    apply Z.eqb_eq in Hid. subst run. simpl. now rewrite Hid.
Qed.

Lemma add_item_users request name barcode category expiry quantity price image w :
  users (db (exec (add_item clk request name barcode category expiry quantity price image) w))
  = users (db w).
Proof.
  unfold exec, add_item, bind at 1.
  destruct (get_current_user_run request w) as [[e ->]|[u ->]]; [reflexivity|].
  destruct expiry; [|reflexivity].
  unfold datetime_utcnow, bind at 1. cbn [fst snd].
  destruct (int64 quantity); reflexivity.
Qed.

Lemma delete_item_users item_id request w :
  users (db (exec (delete_item item_id request) w)) = users (db w).
Proof.
  unfold exec, delete_item, bind at 1.
  destruct (get_current_user_run request w) as [[e ->]|[u ->]]; [reflexivity|].
  unfold get_store, bind at 1. cbn [fst snd].
  destruct (find _ (food_items (db w))); [reflexivity|].
  destruct (int64 item_id); reflexivity.
Qed.

Lemma mark_item_used_users item_id request w :
  users (db (exec (mark_item_used item_id request) w)) = users (db w).
Proof.
  unfold exec, mark_item_used, bind at 1.
  destruct (get_current_user_run request w) as [[e ->]|[u ->]]; [reflexivity|].
  unfold get_store, bind at 1. cbn [fst snd].
  destruct (find _ (food_items (db w))); [reflexivity|].
  destruct (int64 item_id); reflexivity.
Qed.

Lemma dashboard_users request w :
  users (db (exec (dashboard clk request) w)) = users (db w).
Proof.
  destruct (sweep_frame clk w) as [Hu _].
  destruct (dashboard_frame clk request w) as [[e [_ ->]]|[-> _]]; [reflexivity | exact Hu].
Qed.

Lemma check_notifications_users w :
  users (db (exec (check_notifications_endpoint clk) w)) = users (db w).
Proof.
  destruct (sweep_frame clk w) as [Hu _]. unfold exec in *.
  unfold check_notifications_endpoint, bind.
  destruct (sweep_total clk w) as [w' Hrun]. rewrite Hrun in *. exact Hu.
Qed.

Lemma signup_users request username email password phone w :
  let us' := users (db (exec (signup clk sha256_hexdigest request username email
                                password phone) w)) in
  us' = users (db w)
  \/ us' = users (db w) ++ [new_user clk sha256_hexdigest username email password phone w].
Proof.
  cbv zeta. unfold exec.
  destruct (find_same_name username email (db w)) as [[u [_ Hyes]]|[_ Hno]].
  - left. now rewrite (signup_taken _ _ _ _ _ _ _ _ Hyes).
  - right. now rewrite (signup_fresh _ _ _ _ _ _ _ _ Hno).
Qed.

(** One request leaves a user's [is_admin] flag alone, and its [is_approved]
    flag too unless the request is an approval of that user by an admin. *)
Lemma flags_unless_approved route request w u v :
  NoDup (map User.id (users (db w))) ->
  In u (users (db w)) ->
  In v (users (db (exec (handle clk sha256_hexdigest route request) w))) ->
  User.id v = User.id u ->
  User.is_admin v = User.is_admin u
  /\ (User.is_approved v = User.is_approved u
      \/ (route = PostAdminApprove (User.id u)
          /\ (exists a, require_admin request w = (Ok a, w))
          /\ User.is_approved v = true)).
Proof.
  intros Hnd Hu Hv Hid.
  assert (Hsame : In v (users (db w)) ->
                  User.is_admin v = User.is_admin u
                  /\ (User.is_approved v = User.is_approved u
                      \/ (route = PostAdminApprove (User.id u)
                          /\ (exists a, require_admin request w = (Ok a, w))
                          /\ User.is_approved v = true))).
  { intros Hv0. rewrite (NoDup_map_eq User.id _ v u Hnd Hv0 Hu Hid). auto. }
  destruct route; simpl in Hv.
  - destruct (signup_users request username email password phone w) as [Heq|Heq];
      rewrite Heq in Hv; [auto|].
    apply in_app_or in Hv. destruct Hv as [Hv|[<-|[]]]; [auto|].
    exfalso. simpl in Hid.
    pose proof (next_id_above (map User.id (users (db w))) (User.id u)
                  (in_map User.id _ _ Hu)). lia.
  - rewrite dashboard_users in Hv. auto.
  - rewrite add_item_users in Hv. auto.
  - rewrite delete_item_users in Hv. auto.
  - rewrite mark_item_used_users in Hv. auto.
  - destruct (approve_user_users user_id request w) as [Heq|[Hadmin Heq]];
      rewrite Heq in Hv; [auto|].
    unfold approve_row in Hv. apply in_map_iff in Hv. destruct Hv as [a [Ha Hin]].
    destruct (Z.eqb_spec (User.id a) user_id) as [Hhit|Hmiss]; subst v.
    + simpl in Hid. rewrite (NoDup_map_eq User.id _ a u Hnd Hin Hu Hid) in *.
      simpl. split; [reflexivity|]. right. subst user_id. auto.
    + apply Hsame. exact Hin.
  - destruct (delete_user_users user_id request w) as [Heq|Heq];
      rewrite Heq in Hv; [auto|].
    apply filter_In in Hv. tauto.
  - rewrite check_notifications_users in Hv. auto.
Qed.

Lemma approve_user_approves user_id request w a v :
  require_admin request w = (Ok a, w) ->
  In v (users (db w)) -> User.id v = user_id ->
  In (User.with_is_approved true v)
     (users (db (exec (approve_user user_id request) w))).
Proof.
  intros Ha Hv Hid. unfold exec, approve_user, bind at 1. rewrite Ha.
  unfold bind at 1. rewrite get_user_run.
  destruct (find _ (users (db w))) as [t|] eqn:Hfind.
  - apply find_some in Hfind. destruct Hfind as [_ Ht]. apply Z.eqb_eq in Ht.
    simpl. apply in_map_iff. exists v. split; [|exact Hv].
    rewrite Ht, Hid, Z.eqb_refl. reflexivity.
  - exfalso. pose proof (find_none _ _ Hfind v Hv) as Hf. simpl in Hf.
    rewrite Hid, Z.eqb_refl in Hf. discriminate.
Qed.

Lemma approve_user_sets_flag user_id request w a v v' :
  require_admin request w = (Ok a, w) ->
  In v (users (db w)) -> User.id v = user_id ->
  In v' (users (db (exec (approve_user user_id request) w))) ->
  User.id v' = user_id ->
  User.is_approved v' = true.
Proof.
  intros Ha Hv Hid. unfold exec, approve_user, bind at 1. rewrite Ha.
  unfold bind at 1. rewrite get_user_run.
  destruct (find _ (users (db w))) as [t|] eqn:Hfind.
  - apply find_some in Hfind. destruct Hfind as [_ Ht]. apply Z.eqb_eq in Ht.
    simpl. intros Hv' Hid'. apply in_map_iff in Hv'. destruct Hv' as [x [<- Hx]].
    rewrite Ht in *.
    destruct (Z.eqb_spec (User.id x) user_id) as [_|Hne]; [reflexivity|].
    now destruct Hne.
  - exfalso. pose proof (find_none _ _ Hfind v Hv) as Hf. simpl in Hf.
    rewrite Hid, Z.eqb_refl in Hf. discriminate.
Qed.

(** C6: a signup with a fresh username and email creates a user who is admin
    and approved when the user table is empty, and neither when it is not.
    No request changes a user's [is_admin] flag, and none changes a user's
    [is_approved] flag except an approval of that user by an admin.  After
    such an approval the user is in the table with the same id, name and
    [is_admin] flag and with [is_approved = true], and every row with the
    user's id has [is_approved = true]. *)
Theorem first_user_is_admin (request : Request)
  (username email password phone : string) (w : World) :
  ~ taken username email (db w) ->
  let w1 := exec (signup clk sha256_hexdigest request username email password phone) w in
  let u := new_user clk sha256_hexdigest username email password phone w in
  users (db w1) = users (db w) ++ [u]
  /\ User.username u = username /\ User.email u = email
  /\ (users (db w) = [] -> User.is_admin u = true /\ User.is_approved u = true)
  /\ (users (db w) <> [] -> User.is_admin u = false /\ User.is_approved u = false)
  /\ (forall route request' w0 v v',
        NoDup (map User.id (users (db w0))) ->
        In v (users (db w0)) ->
        In v' (users (db (exec (handle clk sha256_hexdigest route request') w0))) ->
        User.id v' = User.id v ->
        User.is_admin v' = User.is_admin v
        /\ (User.is_approved v' = User.is_approved v
            \/ (route = PostAdminApprove (User.id v)
                /\ (exists a, require_admin request' w0 = (Ok a, w0))
                /\ User.is_approved v' = true)))
  /\ (forall request' w0 a v,
        require_admin request' w0 = (Ok a, w0) ->
        In v (users (db w0)) ->
        In (User.with_is_approved true v)
           (users (db (exec (handle clk sha256_hexdigest (PostAdminApprove (User.id v))
                               request') w0))))
  /\ (forall request' w0 a v,
        require_admin request' w0 = (Ok a, w0) ->
        In v (users (db w0)) ->
        let w0' := exec (handle clk sha256_hexdigest (PostAdminApprove (User.id v))
                           request') w0 in
        (exists v', In v' (users (db w0'))
                    /\ User.id v' = User.id v
                    /\ User.username v' = User.username v
                    /\ User.email v' = User.email v
                    /\ User.is_admin v' = User.is_admin v
                    /\ User.is_approved v' = true)
        /\ (forall v', In v' (users (db w0')) -> User.id v' = User.id v ->
                       User.is_approved v' = true)).
Proof.
  intros Hfresh w1 u. unfold w1, exec. rewrite (signup_fresh _ _ _ _ _ _ _ _ Hfresh).
  split; [reflexivity|]. split; [reflexivity|]. split; [reflexivity|].
  split; [|split; [|split; [|split]]].
  - intros Hempty. unfold u, new_user. rewrite Hempty. simpl. auto.
  - intros Hsome. unfold u, new_user. simpl.
    destruct (users (db w)) as [|x l]; [contradiction|].
    unfold len. simpl List.length. rewrite Nat2Z.inj_succ.
    destruct (Z.eqb_spec (Z.succ (Z.of_nat (List.length l))) 0); [lia | auto].
  - intros route request' w0 v v'. apply flags_unless_approved.
  - intros request' w0 a v Ha Hv. simpl.
    eapply approve_user_approves; eauto.
  - intros request' w0 a v Ha Hv. cbn [handle].
    assert (Hflag : forall v', In v' (users (db (exec (approve_user (User.id v) request') w0))) ->
                               User.id v' = User.id v -> User.is_approved v' = true).
    { intros v' Hv' Hid'.
      exact (approve_user_sets_flag _ _ _ _ v v' Ha Hv eq_refl Hv' Hid'). }
    split; [|exact Hflag].
    pose proof (approve_user_approves _ _ _ _ v Ha Hv eq_refl) as Hrow.
    exists (User.with_is_approved true v). split; [exact Hrow|].
    split; [reflexivity|]. split; [reflexivity|]. split; [reflexivity|].
    split; [reflexivity|]. now apply Hflag.
Qed.

Lemma filter_other_owner (items : list FoodItem.t) (target other : Z) :
  other <> target ->
  filter (fun i => FoodItem.user_id i =? other)
    (filter (fun i => negb (FoodItem.user_id i =? target)) items)
  = filter (fun i => FoodItem.user_id i =? other) items.
Proof.
  intros Hother. induction items as [|i items IH]; [reflexivity|].
  cbn [filter]. destruct (Z.eqb_spec (FoodItem.user_id i) target) as [Hown|Hno];
    cbn [negb filter].
  - destruct (Z.eqb_spec (FoodItem.user_id i) other) as [Hi|_]; [congruence | exact IH].
  - destruct (FoodItem.user_id i =? other); [now rewrite IH | exact IH].
Qed.

Lemma cascade_by_owner s target i :
  item_ids_unique s -> In i (food_items s) ->
  existsb (Z.eqb (FoodItem.id i))
    (map FoodItem.id (filter (fun j => FoodItem.user_id j =? target) (food_items s)))
  = (FoodItem.user_id i =? target).
Proof.
  intros Huniq Hi. destruct (Z.eqb_spec (FoodItem.user_id i) target) as [Hown|Hother].
  - apply existsb_exists. exists (FoodItem.id i). split; [|apply Z.eqb_refl].
    apply in_map. apply filter_In. split; [exact Hi|]. now apply Z.eqb_eq.
  - apply not_true_is_false. intros H. apply existsb_exists in H.
    destruct H as [x [Hx Heq]]. apply Z.eqb_eq in Heq. subst x.
    apply in_map_iff in Hx. destruct Hx as [j [Hid Hj]].
    apply filter_In in Hj. destruct Hj as [Hj Hown]. apply Z.eqb_eq in Hown.
    rewrite (NoDup_map_eq FoodItem.id _ j i Huniq Hj Hi Hid) in Hown. contradiction.
Qed.

(** C8: when an admin deletes another user, the user's row is gone, every
    food item the user owned is gone, and the food items of every other user
    are the same rows as before; notifications are left alone. *)
Theorem delete_user_cascades (request : Request) (admin target : User.t) (w : World) :
  require_admin request w = (Ok admin, w) ->
  In target (users (db w)) ->
  User.id target <> User.id admin ->
  item_ids_unique (db w) ->
  let run := delete_user (User.id target) request w in
  fst run = Ok (RedirectResponse "/admin/dashboard" 302)
  /\ users (db (snd run))
     = filter (fun v => negb (User.id v =? User.id target)) (users (db w))
  /\ ~ In target (users (db (snd run)))
  /\ food_items (db (snd run))
     = filter (fun i => negb (FoodItem.user_id i =? User.id target)) (food_items (db w))
  /\ (forall i, In i (food_items (db (snd run))) -> FoodItem.user_id i <> User.id target)
  /\ (forall other, other <> User.id target ->
        filter (fun i => FoodItem.user_id i =? other) (food_items (db (snd run)))
        = filter (fun i => FoodItem.user_id i =? other) (food_items (db w)))
  /\ notifications (db (snd run)) = notifications (db w).
Proof.
  intros Ha Htarget Hne Huniq run.
  assert (Hitems : filter (fun i => negb (existsb (Z.eqb (FoodItem.id i))
                      (map FoodItem.id (filter (fun j => FoodItem.user_id j =? User.id target)
                                          (food_items (db w))))))
                     (food_items (db w))
                   = filter (fun i => negb (FoodItem.user_id i =? User.id target))
                       (food_items (db w))).
  { apply filter_ext_in. intros i Hi. now rewrite cascade_by_owner. }
  assert (Hrun : run = (Ok (RedirectResponse "/admin/dashboard" 302),
                        mkWorld (mkStore
                          (filter (fun v => negb (User.id v =? User.id target)) (users (db w)))
                          (filter (fun i => negb (FoodItem.user_id i =? User.id target))
                             (food_items (db w)))
                          (notifications (db w))) (tick w) (stdout w))).
  { unfold run, delete_user, bind at 1. rewrite Ha.
    apply Z.eqb_neq in Hne. rewrite Hne.
    unfold bind at 1. rewrite get_user_run.
    destruct (find _ (users (db w))) as [t|] eqn:Hfind.
    - apply find_some in Hfind. destruct Hfind as [_ Ht]. apply Z.eqb_eq in Ht.
      unfold get_store, set_store, bind, ret, delete_user_row. cbn [fst snd db tick stdout].
      rewrite Ht, Hitems. reflexivity.
    - exfalso. pose proof (find_none _ _ Hfind target Htarget) as Hf. simpl in Hf.
      rewrite Z.eqb_refl in Hf. discriminate. }
  rewrite Hrun. cbn [fst snd db users food_items notifications].
  split; [reflexivity|]. split; [reflexivity|]. split; [|split; [reflexivity|split; [|split]]].
  - intros Hin. apply filter_In in Hin. destruct Hin as [_ Hin].
    rewrite Z.eqb_refl in Hin. discriminate.
  - intros i Hi. apply filter_In in Hi. destruct Hi as [_ Hi].
    apply negb_true_iff in Hi. now apply Z.eqb_neq.
  - intros other Hother. now apply filter_other_owner.
  - reflexivity.
Qed.

(** C10: an admin who asks to delete their own account is redirected to the
    admin dashboard and nothing changes: the world after the request is the
    world before it, with the admin's row still in the store. *)
Theorem admin_cannot_delete_self (request : Request) (admin : User.t) (w : World) :
  require_admin request w = (Ok admin, w) ->
  delete_user (User.id admin) request w
  = (Ok (RedirectResponse "/admin/dashboard" 302), w)
  /\ In admin (users (db (exec (delete_user (User.id admin) request) w))).
Proof.
  intros Ha.
  assert (Hrun : delete_user (User.id admin) request w
                 = (Ok (RedirectResponse "/admin/dashboard" 302), w)).
  { unfold delete_user, bind at 1. rewrite Ha. now rewrite Z.eqb_refl. }
  split; [exact Hrun|]. unfold exec. rewrite Hrun. simpl.
  destruct (require_admin_run request w) as [[e He]|[a [Ha' [Hin _]]]]; congruence.
Qed.

End Administration.

(** ** Statistics *)

(** The fallback as the specification words it: 5.0 stands in for a price
    that is absent, and only for that. *)
Definition price_or_fallback_when_absent (i : FoodItem.t) : number :=
  PyFloat (match FoodItem.price i with Some p => p | None => 5 end).

(** The statistics as the specification words them. *)
Definition stats_as_specified (user_id : Z) (s : Store) : Stats :=
  let all_items := filter (fun i => FoodItem.user_id i =? user_id) (food_items s) in
  let total := len all_items in
  let n_expired := len (filter FoodItem.is_expired all_items) in
  let n_used := len (filter FoodItem.is_used all_items) in
  let n_active :=
    len (filter (fun i => negb (FoodItem.is_expired i) && negb (FoodItem.is_used i))
           all_items) in
  let saved :=
    py_sum (map price_or_fallback_when_absent (filter FoodItem.is_used all_items)) in
  let wasted :=
    py_sum (map price_or_fallback_when_absent (filter FoodItem.is_expired all_items)) in
  let percentage :=
    match total with
    | Zpos n => py_mul (PyFloat (int_truediv n_expired n)) (PyInt 100)
    | _ => PyInt 0
    end in
  mkStats total n_expired n_used n_active
    (py_round saved 2) (py_round wasted 2) (py_round percentage 1).

(** A price the code takes for a price: absent, or not equal to zero. *)
Definition price_counts (i : FoodItem.t) : Prop :=
  match FoodItem.price i with
  | Some p => float_truthy p = true
  | None => True
  end.

Lemma price_or_fallback_agree i :
  price_counts i -> price_or_fallback i = price_or_fallback_when_absent i.
Proof.
  unfold price_counts, price_or_fallback, price_or_fallback_when_absent, float_or.
  destruct (FoodItem.price i) as [p|]; [|reflexivity]. now intros ->.
Qed.

(** The calculator never raises and does not touch the world; on a user none
    of whose items has a zero price it returns the specified statistics. *)
Lemma calculate_user_stats_as_specified user_id w :
  (forall i, In i (food_items (db w)) -> FoodItem.user_id i = user_id -> price_counts i) ->
  calculate_user_stats user_id w = (Ok (stats_as_specified user_id (db w)), w).
Proof.
  intros Hprices.
  unfold calculate_user_stats, stats_as_specified, query_food_items, get_store, bind, ret.
  cbn [fst snd].
  set (all_items := filter (fun i => FoodItem.user_id i =? user_id) (food_items (db w))).
  assert (Hall : forall i, In i all_items -> price_counts i).
  { intros i Hi. apply filter_In in Hi. destruct Hi as [Hi Hown].
    apply Z.eqb_eq in Hown. auto. }
  assert (Hmap : forall p, map price_or_fallback (filter p all_items)
                           = map price_or_fallback_when_absent (filter p all_items)).
  { intros p. apply map_ext_in. intros i Hi. apply price_or_fallback_agree.
    apply Hall. apply filter_In in Hi. tauto. }
  now rewrite !Hmap.
Qed.

(** With no items the percentage is the integer 0 and both sums are 0. *)
Lemma calculate_user_stats_empty user_id w :
  (forall i, In i (food_items (db w)) -> FoodItem.user_id i <> user_id) ->
  calculate_user_stats user_id w
  = (Ok (mkStats 0 0 0 0 (PyInt 0) (PyInt 0) (PyInt 0)), w).
Proof.
  intros Hnone.
  unfold calculate_user_stats, query_food_items, get_store, bind, ret. cbn [fst snd].
  assert (Hall : filter (fun i => FoodItem.user_id i =? user_id) (food_items (db w)) = []).
  { induction (food_items (db w)) as [|i items IH]; [reflexivity|].
    cbn [filter]. destruct (Z.eqb_spec (FoodItem.user_id i) user_id) as [Hown|_].
    - destruct (Hnone i (or_introl eq_refl) Hown).
    - apply IH. intros j Hj. apply Hnone. now right. }
  rewrite Hall. reflexivity.
Qed.

(** * Worked instances *)

Module Instances.

(** The start of day [n]. *)
Definition day (n : Z) : datetime := n * us_per_day.

(** A clock that stands still at noon of day 12. *)
Definition noon12 : Clock :=
  mkClock (fun _ => day 12 + 43200000000) (fun _ => day 12 + 43200000000).

(** A stand-in for the digest. *)
Definition digest (s : string) : string := ("sha256:" ++ s)%string.

Definition ann : User.t :=
  User.mk 1 "ann" "ann@example.org" (digest "pw") (Some "555-0100") true true (day 1).

Definition bob : User.t :=
  User.mk 2 "bob" "bob@example.org" (digest "pw") None false false (day 2).

Definition item (id owner : Z) (name : string) (expiry : datetime)
  (price : option float) (is_expired is_used : bool) : FoodItem.t :=
  FoodItem.mk id owner name None None (day 1) expiry 1 price None is_expired is_used.

Definition milk : FoodItem.t := item 1 1 "milk" (day 10) (Some 3%float) false false.
Definition rice : FoodItem.t := item 2 2 "rice" (day 42) None false false.
Definition eggs : FoodItem.t := item 3 2 "eggs" (day 19) (Some 5%float) false true.

Definition pantry : World :=
  mkWorld (mkStore [ann; bob] [milk; rice; eggs] []) 0 [].

Definition as_ann : Request := mkRequest (Some 1).
Definition as_bob : Request := mkRequest (Some 2).
Definition anonymous : Request := mkRequest None.

Lemma pantry_ids_unique : item_ids_unique (db pantry).
Proof.
  unfold item_ids_unique. simpl.
  repeat constructor; simpl; intuition discriminate.
Qed.

Lemma pantry_ok : store_ok (db pantry).
Proof.
  split; [exact pantry_ids_unique|]. split.
  - intros fid ty. simpl. apply Nat.le_0_l.
  - intros row _ _. reflexivity.
Qed.

Lemma noon12_same_day : forall t, date_of (clock_now noon12 t) = 12.
Proof. intros t. reflexivity. Qed.

(** *** A rowid that is used twice

    On a fresh install Ann signs up and adds milk that is past its date; a
    sweep flags it and records its "expired" notification; Ann deletes the
    milk and adds eggs, which receive the rowid the milk had. *)

Definition fresh_install : World := mkWorld (mkStore [] [] []) 0 [].

Definition with_ann : World :=
  exec (handle noon12 digest (PostSignup "ann" "ann@example.org" "pw" "") anonymous)
       fresh_install.

Definition with_milk : World :=
  exec (handle noon12 digest
          (PostAddItem "milk" "" "" (Some (day 10)) 1 None None) as_ann) with_ann.

Definition milk_swept : World :=
  exec (handle noon12 digest GetCheckNotifications anonymous) with_milk.

Definition milk_deleted : World :=
  exec (handle noon12 digest (PostItemDelete 1) as_ann) milk_swept.

Definition with_eggs : World :=
  exec (handle noon12 digest
          (PostAddItem "eggs" "" "" (Some (day 10)) 1 None None) as_ann) milk_deleted.

Lemma with_eggs_notifications :
  notifications (db with_eggs)
  = [Notification.mk 1 1 1 "expired" (day 12 + 43200000000) "milk has expired!"].
Proof. vm_compute. reflexivity. Qed.

(** C1, counterexample: the store reached above has one notification per
    pair, and one more sweep leaves two "expired" notifications for item 1. *)
Lemma expired_notification_duplicated :
  at_most_one (db with_eggs)
  /\ item_ids_unique (db with_eggs)
  /\ count_sent 1 "expired"
       (notifications (db (run_passes noon12 [SweepPass] with_eggs))) = 2%nat
  /\ ~ at_most_one (db (run_passes noon12 [SweepPass] with_eggs)).
Proof.
  assert (Htwo : count_sent 1 "expired"
                   (notifications (db (run_passes noon12 [SweepPass] with_eggs))) = 2%nat)
    by (vm_compute; reflexivity).
  split; [|split; [|split; [exact Htwo|]]].
  - intros fid ty. rewrite with_eggs_notifications. unfold count_sent. cbn [filter].
    destruct (has_key fid ty _); simpl; lia.
  - unfold item_ids_unique. vm_compute. repeat constructor. intros [].
  - intros H. specialize (H 1 "expired"). rewrite Htwo in H. lia.
Qed.

(** *** A suggestion past its date

    Ann signs up on a fresh install and adds rice that has 30 days to go and
    ham that is nine days past its date.  No sweep has reached the ham yet,
    so its flag is not raised. *)

Definition with_rice : World :=
  exec (handle noon12 digest
          (PostAddItem "rice" "" "" (Some (day 42)) 1 None None) as_ann) with_ann.

Definition with_ham : World :=
  exec (handle noon12 digest
          (PostAddItem "ham" "" "" (Some (day 3)) 1 None None) as_ann) with_rice.

(** C9, counterexample: the helper names the ham, which is not among the
    items expiring within 30 days from now; the sweep, which reaches the rice
    first, records the suggestion in the rice's "month" notification. *)
Lemma overdue_item_is_suggested :
  fst (get_recipe_suggestions noon12 1 with_ham)
  = Ok "You have: rice, ham. Try making a stir-fry, soup, or salad!"%string
  /\ map FoodItem.name
       (expiring_within_30_days (clock_now noon12 (tick with_ham)) 1 (db with_ham))
     = ["rice"%string]
  /\ (exists ham,
        In ham (food_items (db with_ham))
        /\ FoodItem.name ham = "ham"%string
        /\ FoodItem.user_id ham = 1
        /\ FoodItem.is_expired ham = false
        /\ date_of (FoodItem.expiry_date ham)
           - date_of (clock_now noon12 (tick with_ham)) = -9)
  /\ map Notification.message
       (notifications (db (exec (check_and_send_notifications noon12) with_ham)))
     = [("rice expires in a month! Recipe ideas: "
         ++ "You have: rice, ham. Try making a stir-fry, soup, or salad!")%string;
        "ham has expired!"%string].
Proof.
  split; [vm_compute; reflexivity|]. split; [vm_compute; reflexivity|]. split.
  - exists (FoodItem.mk 2 1 "ham" None None (day 12 + 43200000000) (day 3) 1 None None
              false false).
    split; [vm_compute; auto|]. repeat split.
  - vm_compute. reflexivity.
Qed.

(** *** The theorems at work on the pantry *)

Lemma notifications_stay_unique_witness :
  store_ok (db pantry)
  /\ store_ok (db (run_passes noon12 [SweepPass; DashboardPass as_bob; SweepPass] pantry)).
Proof.
  split; [exact pantry_ok|].
  exact (proj1 (notifications_stay_unique noon12
                  [SweepPass; DashboardPass as_bob; SweepPass] pantry pantry_ok)).
Defined.

Lemma milk_in_pantry : In milk (food_items (db pantry)).
Proof. simpl. auto. Qed.

Lemma rice_in_pantry : In rice (food_items (db pantry)).
Proof. simpl. auto. Qed.

Lemma sweep_expires_overdue_item_witness :
  let s' := db (exec (check_and_send_notifications noon12) pantry) in
  In (FoodItem.with_is_expired true milk) (food_items s')
  /\ count_sent 1 "expired" (notifications s') = 1%nat
  /\ count_sent 1 "month" (notifications s') = 0%nat.
Proof.
  destruct (sweep_expires_overdue_item noon12 pantry milk pantry_ids_unique
              milk_in_pantry eq_refl (fun t => eq_refl))
    as [Hrow [_ [Hexpired [Hother _]]]].
  split; [exact Hrow|]. split; [exact Hexpired|].
  apply (Hother "month"). discriminate.
Defined.

Lemma threshold_notification_once_witness :
  let w1 := exec (check_and_send_notifications noon12) pantry in
  let w2 := exec (check_and_send_notifications noon12) w1 in
  count_sent 2 "month" (notifications (db pantry)) = 0%nat
  /\ count_sent 2 "month" (notifications (db w1)) = 1%nat
  /\ count_sent 2 "month" (notifications (db w2)) = 1%nat.
Proof.
  exact (threshold_notification_once noon12 pantry rice 30 "month"
           rice_in_pantry eq_refl (Forall_nil _) (fun t => eq_refl)
           (or_introl (conj eq_refl eq_refl))).
Defined.

Lemma dashboard_view_idempotent_witness :
  let w1 := exec (dashboard noon12 as_bob) pantry in
  In (FoodItem.with_is_expired true milk) (food_items (db w1))
  /\ db (run_views noon12 [as_ann; anonymous; as_bob] w1) = db w1.
Proof.
  apply (dashboard_view_idempotent noon12 12 noon12_same_day as_bob bob pantry milk
           [as_ann; anonymous; as_bob] eq_refl milk_in_pantry).
  reflexivity.
Defined.

Lemma fresh_install_free : ~ taken "ann" "ann@example.org" (db fresh_install).
Proof. intros [u [[] _]]. Qed.

Lemma first_user_is_admin_witness :
  let u := new_user noon12 digest "ann" "ann@example.org" "pw" "" fresh_install in
  users (db with_ann) = [u] /\ User.is_admin u = true /\ User.is_approved u = true.
Proof.
  destruct (first_user_is_admin noon12 digest anonymous "ann" "ann@example.org" "pw" ""
              fresh_install fresh_install_free)
    as [Husers [_ [_ [Hfirst _]]]].
  split; [exact Husers | exact (Hfirst eq_refl)].
Defined.

Lemma bob_in_pantry : In bob (users (db pantry)).
Proof. simpl. auto. Qed.

Lemma delete_user_cascades_witness :
  let run := delete_user 2 as_ann pantry in
  users (db (snd run)) = [ann]
  /\ food_items (db (snd run)) = [milk].
Proof.
  destruct (delete_user_cascades as_ann ann bob pantry eq_refl bob_in_pantry
              (fun H : User.id bob = User.id ann => Z.neq_succ_diag_l 1 H)
              pantry_ids_unique)
    as [_ [Husers [_ [Hitems _]]]].
  split; [exact Husers | exact Hitems].
Defined.

Lemma admin_cannot_delete_self_witness :
  delete_user 1 as_ann pantry = (Ok (RedirectResponse "/admin/dashboard" 302), pantry).
Proof.
  exact (proj1 (admin_cannot_delete_self as_ann ann pantry eq_refl)).
Defined.

(** *** Statistics on a zero price *)

(** Bob has used one item that cost nothing. *)
Definition free_sample : World :=
  mkWorld (mkStore [ann; bob] [item 1 2 "sample" (day 42) (Some 0%float) false true] [])
          0 [].

(** C5, at the failing input: for a user whose only item is used and has
    price 0.0, the code reports 5.0 saved (the fallback stands in for the
    zero price), where the sum of prices with the fallback for absent prices
    is 0.0. *)
Theorem zero_price_counted_as_fallback :
  exists stats,
    calculate_user_stats 2 free_sample = (Ok stats, free_sample)
    /\ money_saved stats = PyFloat 5
    /\ money_saved (stats_as_specified 2 (db free_sample)) = PyFloat 0.
Proof.
  eexists. split; [reflexivity|]. split; vm_compute; reflexivity.
Qed.

(** The three items of the specification's example: 5.0 used, 3.0 expired,
    no price and used. *)
Definition three_items : World :=
  mkWorld (mkStore [ann; bob]
             [item 1 2 "bread" (day 42) (Some 5%float) false true;
              item 2 2 "milk" (day 10) (Some 3%float) true false;
              item 3 2 "rice" (day 42) None false true] [])
          0 [].

(** On them the code returns 10.0 saved, 3.0 wasted and 33.3 percent (the
    double nearest to 333/10). *)
Lemma stats_of_three_items :
  calculate_user_stats 2 three_items
  = (Ok (mkStats 3 1 2 0 (PyFloat 10) (PyFloat 3) (PyFloat (ratio_to_float false 333 10))),
     three_items).
Proof. vm_compute. reflexivity. Qed.

End Instances.

(** * The routes as a whole *)

(** ** Rows the sweep appends *)

(** [ns'] is [ns] followed by rows that each took the next rowid when they
    were inserted and satisfy [R]. *)
Inductive appended (R : Notification.t -> Prop)
  : list Notification.t -> list Notification.t -> Prop :=
| appended_none ns : appended R ns ns
| appended_one ns ns1 n :
    appended R ns ns1 ->
    Notification.id n = next_id (map Notification.id ns1) ->
    R n ->
    appended R ns (ns1 ++ [n]).

Lemma appended_trans R ns1 ns2 ns3 :
  appended R ns1 ns2 -> appended R ns2 ns3 -> appended R ns1 ns3.
Proof.
  intros H12 H23. induction H23 as [|ns2 ns n H IH Hid HR]; [exact H12|].
  apply appended_one; auto.
Qed.

Lemma appended_impl (R R' : Notification.t -> Prop) ns ns' :
  (forall n, R n -> R' n) -> appended R ns ns' -> appended R' ns ns'.
Proof.
  intros Himp H. induction H; [apply appended_none | apply appended_one; auto].
Qed.

Lemma appended_suffix R ns ns' :
  appended R ns ns' -> exists new, ns' = ns ++ new /\ Forall R new.
Proof.
  induction 1 as [ns|ns ns1 n H [new [-> Hall]] Hid HR].
  - exists []. split; [now rewrite app_nil_r | constructor].
  - exists (new ++ [n]). split; [now rewrite app_assoc|].
    apply Forall_app. split; [exact Hall | repeat constructor; exact HR].
Qed.

Lemma next_id_fresh ids : ~ In (next_id ids) ids.
Proof. intros H. apply next_id_above in H. lia. Qed.

Lemma NoDup_snoc {A} (l : list A) (x : A) : NoDup l -> ~ In x l -> NoDup (l ++ [x]).
Proof.
  intros Hnd Hx. induction Hnd as [|a l Ha Hnd IH]; simpl.
  - repeat constructor. intros [].
  - constructor.
    + intros Hin. apply in_app_or in Hin. destruct Hin as [Hin|[->|[]]].
      * contradiction.
      * apply Hx. now left.
    + apply IH. intros Hin. apply Hx. now right.
Qed.

Lemma appended_ids_unique R ns ns' :
  appended R ns ns' ->
  NoDup (map Notification.id ns) -> NoDup (map Notification.id ns').
Proof.
  induction 1 as [ns|ns ns1 n H IH Hid HR]; intros Hnd; [exact Hnd|].
  rewrite map_app. simpl. apply NoDup_snoc; [now apply IH|].
  rewrite Hid. apply next_id_fresh.
Qed.

(** The four notification types. *)
Definition known_type (ty : string) : Prop :=
  ty = "month" \/ ty = "week" \/ ty = "day" \/ ty = "expired".

(** A notification that was sent for [item]. *)
Definition sent_for (item : FoodItem.t) (n : Notification.t) : Prop :=
  Notification.food_item_id n = FoodItem.id item
  /\ Notification.user_id n = FoodItem.user_id item
  /\ known_type (Notification.notification_type n).

Section Appending.

Variable clk : Clock.

Ltac send_step' H :=
  match goal with
  | |- context [send_notification clk ?i ?ty ?msg ?w] =>
      destruct (send_notification_run clk i ty msg w) as [? H]; rewrite H; clear H; simpl
  end.

Lemma check_item_appends item w :
  appended (sent_for item) (notifications (db w))
    (notifications (db (exec (check_item clk item) w))).
Proof.
  unfold exec, check_item, calculate_days_until_expiry, datetime_now, bind at 1 2,
    ret at 1; simpl.
  destruct (timedelta_days _ <? 0).
  - unfold update_is_expired, get_store, set_store, bind; simpl.
    send_step' H.
    apply appended_one; [apply appended_none | reflexivity |].
    unfold sent_for, known_type; simpl; repeat split; auto 8.
  - unfold query_notifications, get_store, bind at 1 2, ret at 1; simpl.
    set (sent := map Notification.notification_type _).
    destruct (timedelta_days _ <=? 30);
      destruct (timedelta_days _ <=? 7);
      destruct (timedelta_days _ <=? 1);
      cbn [andb];
      destruct (type_in "month" sent); destruct (type_in "week" sent);
      destruct (type_in "day" sent);
      unfold bind, ret; simpl;
      try (destruct (get_recipe_suggestions_run clk (FoodItem.user_id item)
             (mkWorld (db w) (S (tick w)) (stdout w))) as [r Hr];
           simpl in Hr; rewrite Hr; clear Hr; simpl);
      repeat send_step' H;
      repeat (apply appended_one;
              [ | reflexivity | unfold sent_for, known_type; simpl; repeat split; auto 8 ]);
      apply appended_none.
Qed.

Lemma for_each_check_item_appends items w :
  appended (fun n => exists item, In item items /\ sent_for item n)
    (notifications (db w))
    (notifications (db (exec (for_each items (check_item clk)) w))).
Proof.
  revert w. induction items as [|item rest IH]; intros w; [apply appended_none|].
  unfold exec. simpl. unfold bind.
  destruct (check_item_run clk item w) as [w1 [Hrun _]].
  pose proof (check_item_appends item w) as H1. unfold exec in H1.
  rewrite Hrun in *. simpl in H1.
  eapply appended_trans.
  - eapply appended_impl; [|exact H1]. intros n Hn. exists item. simpl. auto.
  - eapply appended_impl; [|apply IH]. intros n [it [Hit Hn]]. exists it. simpl. auto.
Qed.

(** Every row a sweep appends was sent for an item that was unflagged when
    the sweep began, with the next rowid. *)
Lemma sweep_appends w :
  appended (fun n => exists item, In item (unflagged (db w)) /\ sent_for item n)
    (notifications (db w))
    (notifications (db (exec (check_and_send_notifications clk) w))).
Proof.
  unfold exec. rewrite sweep_unfold. apply for_each_check_item_appends.
Qed.

Lemma dashboard_appends request w :
  appended (fun n => exists item, In item (unflagged (db w)) /\ sent_for item n)
    (notifications (db w))
    (notifications (db (exec (dashboard clk request) w))).
Proof.
  destruct (dashboard_frame clk request w) as [[e [_ ->]]|[_ [-> _]]].
  - apply appended_none.
  - apply sweep_appends.
Qed.

End Appending.

(** ** What one request can do to the store *)

Inductive store_step (s : Store) : Store -> Prop :=
| step_none : store_step s s
| step_signup u :
    ~ taken (User.username u) (User.email u) s ->
    User.id u = next_id (map User.id (users s)) ->
    User.is_admin u = (len (users s) =? 0) ->
    User.is_approved u = (len (users s) =? 0) ->
    store_step s (mkStore (users s ++ [u]) (food_items s) (notifications s))
| step_sweep s' :
    users s' = users s ->
    flags_raised (food_items s) (food_items s') ->
    appended (fun n => exists item, In item (unflagged s) /\ sent_for item n)
      (notifications s) (notifications s') ->
    store_step s s'
| step_add_item u i :
    In u (users s) ->
    FoodItem.user_id i = User.id u ->
    FoodItem.id i = next_id (map FoodItem.id (food_items s)) ->
    FoodItem.is_expired i = false ->
    FoodItem.is_used i = false ->
    store_step s (mkStore (users s) (food_items s ++ [i]) (notifications s))
| step_delete_item u i :
    In u (users s) ->
    In i (food_items s) ->
    FoodItem.user_id i = User.id u ->
    store_step s
      (mkStore (users s)
         (filter (fun j => negb (FoodItem.id j =? FoodItem.id i)) (food_items s))
         (notifications s))
| step_mark_used u i :
    In u (users s) ->
    In i (food_items s) ->
    FoodItem.user_id i = User.id u ->
    store_step s
      (mkStore (users s)
         (map (fun j => if FoodItem.id j =? FoodItem.id i
                        then FoodItem.with_is_used true j else j) (food_items s))
         (notifications s))
| step_approve admin u :
    In admin (users s) -> User.is_admin admin = true ->
    In u (users s) ->
    store_step s (mkStore (approve_row (User.id u) (users s)) (food_items s)
                    (notifications s))
| step_delete_user admin u :
    In admin (users s) -> User.is_admin admin = true ->
    In u (users s) -> User.id u <> User.id admin ->
    store_step s (delete_user_row u s).

Lemma get_current_user_ok request w u :
  get_current_user request w = (Ok u, w) ->
  In u (users (db w)) /\ session_user_id request = Some (User.id u) /\ User.id u <> 0.
Proof.
  unfold get_current_user, require_login, get_user, get_store, bind, ret, raise.
  destruct (session_user_id request) as [uid|]; [|discriminate].
  destruct (Z.eqb_spec uid 0) as [|Hnz]; [discriminate|].
  destruct (find _ (users (db w))) as [v|] eqn:Hfind; [|discriminate].
  intros H. injection H as <-. apply find_some in Hfind. destruct Hfind as [Hin Hid].
  apply Z.eqb_eq in Hid. subst uid. auto.
Qed.

Lemma find_item_owned items item_id owner i :
  find (fun j => (FoodItem.id j =? item_id) && (FoodItem.user_id j =? owner)) items = Some i ->
  In i items /\ FoodItem.id i = item_id /\ FoodItem.user_id i = owner.
Proof.
  intros H. apply find_some in H. destruct H as [Hin H].
  apply andb_true_iff in H. rewrite !Z.eqb_eq in H. tauto.
Qed.

Section Steps.

Variable clk : Clock.
Variable sha256_hexdigest : string -> string.

Lemma dashboard_flags request w :
  flags_raised (food_items (db w)) (food_items (db (exec (dashboard clk request) w))).
Proof.
  destruct (sweep_frame clk w) as [_ [Hsweep _]].
  destruct (dashboard_frame clk request w) as [[e [_ ->]]|[_ [_ Hloop]]].
  - apply flags_raised_refl.
  - eapply flags_raised_trans; eassumption.
Qed.

Lemma sweep_step w :
  store_step (db w) (db (exec (check_and_send_notifications clk) w)).
Proof.
  destruct (sweep_frame clk w) as [Hu [Hfl _]].
  apply step_sweep; [exact Hu | exact Hfl | apply sweep_appends].
Qed.

Lemma signup_step request username email password phone w :
  store_step (db w)
    (db (exec (signup clk sha256_hexdigest request username email password phone) w)).
Proof.
  unfold exec.
  destruct (find_same_name username email (db w)) as [[u [_ Hyes]]|[_ Hno]].
  - rewrite (signup_taken _ _ _ _ _ _ _ _ Hyes). apply step_none.
  - rewrite (signup_fresh _ _ _ _ _ _ _ _ Hno). simpl.
    apply step_signup; try reflexivity. exact Hno.
Qed.

Lemma add_item_step request name barcode category expiry quantity price image w :
  store_step (db w)
    (db (exec (add_item clk request name barcode category expiry quantity price image) w)).
Proof.
  unfold exec. remember (add_item clk request name barcode category expiry quantity
                           price image w) as run eqn:Hrun.
  unfold add_item, bind at 1 in Hrun.
  destruct (get_current_user_run request w) as [[e He]|[u Hu]].
  - rewrite He in Hrun. subst run. apply step_none.
  - rewrite Hu in Hrun. destruct expiry as [expiry|]; [|subst run; apply step_none].
    unfold datetime_utcnow, bind at 1 in Hrun. cbn [fst snd] in Hrun.
    destruct (int64 quantity); subst run; [|apply step_none].
    destruct (get_current_user_ok _ _ _ Hu) as [Hin _]. simpl.
    eapply step_add_item; try reflexivity. exact Hin.
Qed.

Lemma delete_item_step item_id request w :
  store_step (db w) (db (exec (delete_item item_id request) w)).
Proof.
  unfold exec. remember (delete_item item_id request w) as run eqn:Hrun.
  unfold delete_item, bind at 1 in Hrun.
  destruct (get_current_user_run request w) as [[e He]|[u Hu]].
  - rewrite He in Hrun. subst run. apply step_none.
  - rewrite Hu in Hrun. unfold get_store, bind at 1 in Hrun. cbn [fst snd] in Hrun.
    destruct (get_current_user_ok _ _ _ Hu) as [Hin _].
    destruct (find _ (food_items (db w))) as [i|] eqn:Hfind;
      [|destruct (int64 item_id); subst run; apply step_none].
    subst run. apply find_item_owned in Hfind. destruct Hfind as [Hi [_ Hown]].
    simpl. eapply step_delete_item; eauto.
Qed.

Lemma mark_item_used_step item_id request w :
  store_step (db w) (db (exec (mark_item_used item_id request) w)).
Proof.
  unfold exec. remember (mark_item_used item_id request w) as run eqn:Hrun.
  unfold mark_item_used, bind at 1 in Hrun.
  destruct (get_current_user_run request w) as [[e He]|[u Hu]].
  - rewrite He in Hrun. subst run. apply step_none.
  - rewrite Hu in Hrun. unfold get_store, bind at 1 in Hrun. cbn [fst snd] in Hrun.
    destruct (get_current_user_ok _ _ _ Hu) as [Hin _].
    destruct (find _ (food_items (db w))) as [i|] eqn:Hfind;
      [|destruct (int64 item_id); subst run; apply step_none].
    subst run. apply find_item_owned in Hfind. destruct Hfind as [Hi [_ Hown]].
    simpl. eapply step_mark_used; eauto.
Qed.

Lemma approve_user_step user_id request w :
  store_step (db w) (db (exec (approve_user user_id request) w)).
Proof.
  unfold exec. remember (approve_user user_id request w) as run eqn:Hrun.
  unfold approve_user, bind at 1 in Hrun.
  destruct (require_admin_run request w) as [[e He]|[a [Ha [Hin Hadmin]]]].
  - rewrite He in Hrun. subst run. apply step_none.
  - rewrite Ha in Hrun. unfold bind at 1 in Hrun. rewrite get_user_run in Hrun.
    destruct (find _ (users (db w))) as [t|] eqn:Hfind;
      [|destruct (int64 user_id); subst run; apply step_none].
    subst run.
    apply find_some in Hfind. destruct Hfind as [Ht _]. simpl.
    eapply (step_approve _ a t); eauto.
Qed.

Lemma delete_user_step user_id request w :
  store_step (db w) (db (exec (delete_user user_id request) w)).
Proof.
  unfold exec. remember (delete_user user_id request w) as run eqn:Hrun.
  unfold delete_user, bind at 1 in Hrun.
  destruct (require_admin_run request w) as [[e He]|[a [Ha [Hin Hadmin]]]].
  - rewrite He in Hrun. subst run. apply step_none.
  - rewrite Ha in Hrun.
    destruct (Z.eqb_spec user_id (User.id a)) as [|Hne]; [subst run; apply step_none|].
    unfold bind at 1 in Hrun. rewrite get_user_run in Hrun.
    destruct (find _ (users (db w))) as [t|] eqn:Hfind;
      [|destruct (int64 user_id); subst run; apply step_none].
    subst run.
    apply find_some in Hfind. destruct Hfind as [Ht Hid]. apply Z.eqb_eq in Hid.
    simpl. eapply (step_delete_user _ a t); eauto. congruence.
Qed.

(** Every route changes the store by one of the steps. *)
Lemma handle_step route request w :
  store_step (db w) (db (exec (handle clk sha256_hexdigest route request) w)).
Proof.
  destruct route; simpl.
  - apply signup_step.
  - apply step_sweep; [apply dashboard_users | apply dashboard_flags
                       | apply dashboard_appends].
  - apply add_item_step.
  - apply delete_item_step.
  - apply mark_item_used_step.
  - apply approve_user_step.
  - apply delete_user_step.
  - pose proof (sweep_step w) as H. unfold exec in *.
    unfold check_notifications_endpoint, bind.
    destruct (sweep_total clk w) as [w' Hrun]. rewrite Hrun in *. exact H.
Qed.

(** A session of requests, one after the other. *)
Definition run_requests (requests : list (Route * Request)) (w : World) : World :=
  fold_left (fun w0 r => exec (handle clk sha256_hexdigest (fst r) (snd r)) w0) requests w.

Lemma run_requests_inv (P : Store -> Prop) :
  (forall s s', store_step s s' -> P s -> P s') ->
  forall requests w, P (db w) -> P (db (run_requests requests w)).
Proof.
  intros Hstep. induction requests as [|[route request] rest IH]; intros w HP; [exact HP|].
  simpl. apply IH. eapply Hstep; [apply handle_step | exact HP].
Qed.

End Steps.

(** ** Invariants of the store *)

(** The keys the schema declares: primary keys of the three tables, and the
    unique username and email columns. *)
Definition keys_unique (s : Store) : Prop :=
  NoDup (map User.id (users s))
  /\ NoDup (map User.username (users s))
  /\ NoDup (map User.email (users s))
  /\ NoDup (map FoodItem.id (food_items s))
  /\ NoDup (map Notification.id (notifications s)).

(** Deleting rows keeps a column free of duplicates. *)
Lemma NoDup_map_filter {Row Key} (column : Row -> Key) (keep : Row -> bool) rows :
  NoDup (map column rows) -> NoDup (map column (filter keep rows)).
Proof.
  intros Hnd. induction rows as [|row rows IH]; simpl; [constructor|].
  simpl in Hnd. apply NoDup_cons_iff in Hnd. destruct Hnd as [Hnotin Hnd].
  destruct (keep row); simpl; [|now apply IH].
  constructor; [|now apply IH].
  intros Hin. apply Hnotin. apply in_map_iff in Hin. destruct Hin as [b [Hb Hin]].
  apply filter_In in Hin. rewrite <- Hb. apply in_map. tauto.
Qed.

Lemma approve_row_ids user_id us : map User.id (approve_row user_id us) = map User.id us.
Proof.
  unfold approve_row. rewrite map_map. apply map_ext. intros u.
  now destruct (User.id u =? user_id).
Qed.

Lemma approve_row_usernames user_id us :
  map User.username (approve_row user_id us) = map User.username us.
Proof.
  unfold approve_row. rewrite map_map. apply map_ext. intros u.
  now destruct (User.id u =? user_id).
Qed.

Lemma approve_row_emails user_id us :
  map User.email (approve_row user_id us) = map User.email us.
Proof.
  unfold approve_row. rewrite map_map. apply map_ext. intros u.
  now destruct (User.id u =? user_id).
Qed.

Lemma mark_used_ids item_id items :
  map FoodItem.id
    (map (fun j => if FoodItem.id j =? item_id then FoodItem.with_is_used true j else j) items)
  = map FoodItem.id items.
Proof.
  rewrite map_map. apply map_ext. intros j. now destruct (FoodItem.id j =? item_id).
Qed.

Lemma not_taken_fresh username email s :
  ~ taken username email s ->
  ~ In username (map User.username (users s)) /\ ~ In email (map User.email (users s)).
Proof.
  intros Hfree. split; intros Hin; apply in_map_iff in Hin; destruct Hin as [u [Hu Hin]];
    apply Hfree; exists u; auto.
Qed.

Lemma store_step_keys s s' : store_step s s' -> keys_unique s -> keys_unique s'.
Proof.
  intros Hstep [Hu [Hn [He [Hi Hnt]]]].
  destruct Hstep as [|u Hfree Hid _ _|s' Hus Hfl Happ|u i _ _ Hid _ _|u i _ _ _
                     |u i _ _ _|admin u _ _ _|admin u _ _ _ _];
    unfold keys_unique; simpl.
  - auto.
  - destruct (not_taken_fresh _ _ _ Hfree) as [Hname Hmail].
    rewrite !map_app. simpl. repeat split; try assumption; apply NoDup_snoc; try assumption.
    rewrite Hid. apply next_id_fresh.
  - rewrite Hus, (flags_raised_ids _ _ Hfl). repeat split; try assumption.
    eapply appended_ids_unique; eassumption.
  - rewrite map_app. simpl. repeat split; try assumption.
    apply NoDup_snoc; [assumption|]. rewrite Hid. apply next_id_fresh.
  - repeat split; try assumption. now apply NoDup_map_filter.
  - rewrite mark_used_ids. auto.
  - rewrite approve_row_ids, approve_row_usernames, approve_row_emails. auto.
  - repeat split; try assumption; now apply NoDup_map_filter.
Qed.

(** Every food item belongs to a user who is in the store. *)
Definition owners_exist (s : Store) : Prop :=
  forall i, In i (food_items s) ->
            exists u, In u (users s) /\ User.id u = FoodItem.user_id i.

Lemma raised_owner a b : raised a b -> FoodItem.user_id b = FoodItem.user_id a.
Proof. intros [->| ->]; reflexivity. Qed.

Lemma store_step_owners s s' : store_step s s' -> owners_exist s -> owners_exist s'.
Proof.
  intros Hstep Hown.
  destruct Hstep as [|u _ _ _ _|s' Hus Hfl _|u i Hu Hi _ _ _|u i _ _ _
                     |u i _ _ _|admin u _ _ _|admin u _ _ _ _];
    intros j Hj; simpl in *.
  - auto.
  - destruct (Hown j Hj) as [v [Hv Hid]]. exists v. split; [|exact Hid].
    apply in_or_app. now left.
  - destruct (flags_raised_In_r _ _ j Hfl Hj) as [a [Ha Hr]].
    rewrite Hus, (raised_owner _ _ Hr). auto.
  - apply in_app_or in Hj. destruct Hj as [Hj|[<-|[]]]; [auto|].
    exists u. auto.
  - apply filter_In in Hj. apply Hown. tauto.
  - apply in_map_iff in Hj. destruct Hj as [a [<- Ha]].
    destruct (Hown a Ha) as [v [Hv Hid]]. exists v. split; [exact Hv|].
    now destruct (FoodItem.id a =? FoodItem.id i).
  - destruct (Hown j Hj) as [v [Hv Hid]].
    exists (if User.id v =? User.id u then User.with_is_approved true v else v).
    split; [|now destruct (User.id v =? User.id u)].
    unfold approve_row. apply in_map_iff. exists v. auto.
  - apply filter_In in Hj. destruct Hj as [Hj Hkeep]. apply negb_true_iff in Hkeep.
    destruct (Hown j Hj) as [v [Hv Hid]]. exists v. split; [|exact Hid].
    apply filter_In. split; [exact Hv|]. apply negb_true_iff. apply Z.eqb_neq.
    intros Heq. rewrite <- not_true_iff_false in Hkeep. apply Hkeep.
    apply existsb_exists. exists (FoodItem.id j). split; [|apply Z.eqb_refl].
    apply in_map. apply filter_In. split; [exact Hj|]. apply Z.eqb_eq. congruence.
Qed.

(** The only admin there is: some row with id [a] is an admin, and no row
    with another id is. *)
Definition sole_admin (a : Z) (s : Store) : Prop :=
  (exists u, In u (users s) /\ User.id u = a /\ User.is_admin u = true)
  /\ forall u, In u (users s) -> User.is_admin u = true -> User.id u = a.

Lemma store_step_sole_admin a s s' : store_step s s' -> sole_admin a s -> sole_admin a s'.
Proof.
  intros Hstep [[adm [Hadm [Hida Hflag]]] Honly].
  destruct Hstep as [|u _ _ Hadmin _|s' Hus _ _|u i _ _ _ _ _|u i _ _ _
                     |u i _ _ _|admin u _ _ _|admin u Hin Hisadmin _ Hne];
    unfold sole_admin; simpl.
  - split; eauto.
  - split.
    + exists adm. split; [apply in_or_app; now left | auto].
    + intros v Hv Hva. apply in_app_or in Hv. destruct Hv as [Hv|[<-|[]]]; [auto|].
      exfalso. rewrite Hadmin in Hva. destruct (users s) as [|x l]; [contradiction|].
      unfold len in Hva. simpl List.length in Hva. rewrite Nat2Z.inj_succ in Hva.
      apply Z.eqb_eq in Hva. lia.
  - rewrite Hus. split; eauto.
  - split; eauto.
  - split; eauto.
  - split; eauto.
  - split.
    + exists (if User.id adm =? User.id u then User.with_is_approved true adm else adm).
      split; [unfold approve_row; apply in_map_iff; eauto|].
      destruct (User.id adm =? User.id u); auto.
    + intros v Hv Hva. unfold approve_row in Hv. apply in_map_iff in Hv.
      destruct Hv as [x [<- Hx]]. destruct (User.id x =? User.id u); simpl in *; auto.
  - split.
    + exists adm. split; [|auto]. apply filter_In. split; [exact Hadm|].
      apply negb_true_iff. apply Z.eqb_neq.
      rewrite Hida, <- (Honly admin Hin Hisadmin). auto.
    + intros v Hv Hva. apply filter_In in Hv. apply Honly; tauto.
Qed.

Section Invariants.

Variable clk : Clock.
Variable sha256_hexdigest : string -> string.

(** X1: the primary keys of the three tables and the unique username and
    email columns stay free of duplicates through every sequence of requests
    to the routes that write. *)
Theorem keys_stay_unique (requests : list (Route * Request)) (w : World) :
  keys_unique (db w) ->
  keys_unique (db (run_requests clk sha256_hexdigest requests w)).
Proof. apply run_requests_inv. exact store_step_keys. Qed.

(** X2: no request removes or rewrites a notification: after any sequence of
    requests the table is the old table followed by new rows, and every new
    row has one of the four types. *)
Theorem notifications_append_only (requests : list (Route * Request)) (w : World) :
  exists new,
    notifications (db (run_requests clk sha256_hexdigest requests w))
    = notifications (db w) ++ new
    /\ Forall (fun n => known_type (Notification.notification_type n)) new.
Proof.
  apply (run_requests_inv clk sha256_hexdigest (fun s => exists new,
           notifications s = notifications (db w) ++ new
           /\ Forall (fun n => known_type (Notification.notification_type n)) new)).
  - intros s s' Hstep [new [Hn Hall]].
    destruct Hstep as [|u _ _ _ _|s' _ _ Happ|u i _ _ _ _ _|u i _ _ _
                       |u i _ _ _|admin u _ _ _|admin u _ _ _ _]; simpl; eauto.
    destruct (appended_suffix _ _ _ Happ) as [more [-> Hmore]].
    exists (new ++ more). split; [rewrite Hn; now rewrite app_assoc|].
    apply Forall_app. split; [exact Hall|].
    eapply Forall_impl; [|exact Hmore]. intros n [item [_ [_ [_ Hty]]]]. exact Hty.
  - exists []. split; [now rewrite app_nil_r | constructor].
Qed.

(** X3: every food item keeps an owner who is in the store, through every
    sequence of requests: items are created for the logged-in user and go
    when their owner is deleted. *)
Theorem items_keep_their_owner (requests : list (Route * Request)) (w : World) :
  owners_exist (db w) ->
  owners_exist (db (run_requests clk sha256_hexdigest requests w)).
Proof. apply run_requests_inv. exact store_step_owners. Qed.

(** X4: when the store has exactly one admin, no sequence of requests removes
    that admin or makes anyone else an admin. *)
Theorem sole_admin_stays (a : Z) (requests : list (Route * Request)) (w : World) :
  sole_admin a (db w) ->
  sole_admin a (db (run_requests clk sha256_hexdigest requests w)).
Proof. apply run_requests_inv. apply store_step_sole_admin. Qed.

End Invariants.

(** ** Logging in *)

Definition invalid_login : Response :=
  TemplateResponse "login.html" (ErrorContext "Invalid username or password").

Definition pending_login : Response :=
  TemplateResponse "login.html" (ErrorContext "Your account is pending admin approval").

Lemma find_app {A} (p : A -> bool) (l l' : list A) :
  find p (l ++ l') = match find p l with Some x => Some x | None => find p l' end.
Proof.
  induction l as [|a l IH]; simpl; [reflexivity|]. now destruct (p a).
Qed.

Lemma find_none_iff {A} (p : A -> bool) (l : list A) :
  (forall x, In x l -> p x = false) -> find p l = None.
Proof.
  induction l as [|a l IH]; simpl; intros H; [reflexivity|].
  rewrite (H a (or_introl eq_refl)). apply IH. intros x Hx. apply H. now right.
Qed.

(** With unique usernames, looking a user up by name finds that user. *)
Lemma find_by_username us u :
  NoDup (map User.username us) -> In u us ->
  find (fun v => (User.username v =? User.username u)%string) us = Some u.
Proof.
  induction us as [|a us IH]; simpl; intros Hnd Hin; [contradiction|].
  inversion Hnd as [|x l Hnotin Hnd']; subst.
  destruct Hin as [->|Hin]; [now rewrite String.eqb_refl|].
  destruct (String.eqb_spec (User.username a) (User.username u)) as [Heq|_].
  - exfalso. apply Hnotin. rewrite Heq. now apply in_map.
  - now apply IH.
Qed.

Lemma find_approve_row (p : User.t -> bool) user_id us :
  (forall v, p (User.with_is_approved true v) = p v) ->
  find p (approve_row user_id us)
  = option_map (fun v => if User.id v =? user_id then User.with_is_approved true v else v)
      (find p us).
Proof.
  intros Hp. unfold approve_row. induction us as [|a us IH]; [reflexivity|].
  cbn [map find]. destruct (p a) eqn:Hpa; cbn [option_map].
  - destruct (User.id a =? user_id); [rewrite Hp|]; now rewrite Hpa.
  - destruct (User.id a =? user_id); [rewrite Hp|]; rewrite Hpa; exact IH.
Qed.

Section Logins.

Variable clk : Clock.
Variable sha256_hexdigest : string -> string.

(** X5: right after a signup with a free username and email, logging in with
    the same username and password opens a session for the new user and
    redirects to the admin dashboard if the user table was empty, and is
    answered with the pending-approval page, the session untouched, if it
    was not; a password with another digest is answered with the
    invalid-credentials page.  Logging in never changes the world. *)
Theorem signup_then_login (request request' : Request)
  (username email password phone wrong : string) (w : World) :
  ~ taken username email (db w) ->
  sha256_hexdigest wrong <> sha256_hexdigest password ->
  let w1 := exec (signup clk sha256_hexdigest request username email password phone) w in
  let u := new_user clk sha256_hexdigest username email password phone w in
  login sha256_hexdigest request' username password w1
  = (Ok (if len (users (db w)) =? 0
         then (RedirectResponse "/admin/dashboard" 302, mkRequest (Some (User.id u)))
         else (pending_login, request')), w1)
  /\ login sha256_hexdigest request' username wrong w1
     = (Ok (invalid_login, request'), w1).
Proof.
  intros Hfree Hwrong w1 u.
  assert (Hfind : find (fun v => (User.username v =? username)%string) (users (db w1))
                  = Some u).
  { unfold w1, exec. rewrite (signup_fresh _ _ _ _ _ _ _ _ Hfree). simpl.
    rewrite find_app, find_none_iff.
    - simpl. now rewrite String.eqb_refl.
    - intros x Hx. apply String.eqb_neq. intros Heq. apply Hfree. exists x. auto. }
  split.
  - unfold login, get_store, bind. cbn [fst snd]. rewrite Hfind.
    unfold verify_password, u, new_user. cbn [User.password User.is_approved
      User.is_admin User.id]. rewrite String.eqb_refl. cbn [negb].
    destruct (len (users (db w)) =? 0); reflexivity.
  - unfold login, get_store, bind. cbn [fst snd]. rewrite Hfind.
    unfold verify_password, u, new_user. cbn [User.password].
    apply String.eqb_neq in Hwrong. rewrite Hwrong. reflexivity.
Qed.

(** X6: a name no user has and a password whose digest differs from the
    stored one get the same answer, the invalid-credentials page; the session
    and the world stay as they were. *)
Theorem login_rejects_bad_credentials (request : Request) (username password : string)
  (w : World) :
  (forall u, In u (users (db w)) -> User.username u = username ->
             sha256_hexdigest password <> User.password u) ->
  login sha256_hexdigest request username password w
  = (Ok (invalid_login, request), w).
Proof.
  intros Hbad. unfold login, get_store, bind. cbn [fst snd].
  destruct (find _ (users (db w))) as [u|] eqn:Hfind; [|reflexivity].
  apply find_some in Hfind. destruct Hfind as [Hin Hname].
  apply String.eqb_eq in Hname. unfold verify_password.
  pose proof (Hbad u Hin Hname) as Hne. apply String.eqb_neq in Hne. now rewrite Hne.
Qed.

Lemma approve_user_run user_id request w a u :
  require_admin request w = (Ok a, w) ->
  In u (users (db w)) -> User.id u = user_id ->
  approve_user user_id request w
  = (Ok (RedirectResponse "/admin/dashboard" 302),
     mkWorld (mkStore (approve_row user_id (users (db w))) (food_items (db w))
                (notifications (db w))) (tick w) (stdout w)).
Proof.
  intros Ha Hu Hid. unfold approve_user, bind at 1. rewrite Ha.
  unfold bind at 1. rewrite get_user_run.
  destruct (find _ (users (db w))) as [t|] eqn:Hfind.
  - apply find_some in Hfind. destruct Hfind as [_ Ht]. apply Z.eqb_eq in Ht.
    unfold get_store, set_store, bind, ret. cbn [fst snd]. now rewrite Ht.
  - exfalso. pose proof (find_none _ _ Hfind u Hu) as Hf. simpl in Hf.
    rewrite Hid, Z.eqb_refl in Hf. discriminate.
Qed.

(** X7: a user who is not approved and gives the right password is answered
    with the pending-approval page and gets no session; once an admin has
    approved the user, the same login opens a session for the user and
    redirects to the dashboard (the admin dashboard for an admin). *)
Theorem approval_opens_login (admin_request request : Request) (a u : User.t)
  (password : string) (w : World) :
  NoDup (map User.username (users (db w))) ->
  In u (users (db w)) ->
  User.is_approved u = false ->
  sha256_hexdigest password = User.password u ->
  require_admin admin_request w = (Ok a, w) ->
  let w1 := exec (approve_user (User.id u) admin_request) w in
  login sha256_hexdigest request (User.username u) password w
  = (Ok (pending_login, request), w)
  /\ login sha256_hexdigest request (User.username u) password w1
     = (Ok (RedirectResponse (if User.is_admin u then "/admin/dashboard" else "/dashboard")
              302, mkRequest (Some (User.id u))), w1).
Proof.
  intros Hnd Hu Hpending Hpw Ha w1. split.
  - unfold login, get_store, bind. cbn [fst snd].
    rewrite (find_by_username _ _ Hnd Hu). unfold verify_password.
    rewrite Hpw, String.eqb_refl, Hpending. reflexivity.
  - unfold w1, exec. rewrite (approve_user_run _ _ _ a u Ha Hu eq_refl). cbn [snd].
    unfold login, get_store, bind. cbn [fst snd db users].
    rewrite find_approve_row by reflexivity.
    rewrite (find_by_username _ _ Hnd Hu). cbn [option_map].
    rewrite Z.eqb_refl. unfold verify_password.
    cbn [User.with_is_approved User.password User.is_approved User.is_admin User.id].
    rewrite Hpw, String.eqb_refl. cbn [negb].
    destruct (User.is_admin u); reflexivity.
Qed.

End Logins.

(** ** Who may do what *)

Definition not_authenticated : HTTPException := mkHTTPException 401 "Not authenticated".
Definition admin_required : HTTPException := mkHTTPException 403 "Admin access required".
Definition user_not_found : HTTPException := mkHTTPException 404 "User not found".

Lemma require_login_anonymous request w :
  session_user_id request = None \/ session_user_id request = Some 0 ->
  require_login request w = (Raise not_authenticated, w).
Proof. unfold require_login. intros [-> | ->]; reflexivity. Qed.

Lemma get_current_user_anonymous request w :
  session_user_id request = None \/ session_user_id request = Some 0 ->
  get_current_user request w = (Raise not_authenticated, w).
Proof.
  intros H. unfold get_current_user, bind. now rewrite require_login_anonymous.
Qed.

Lemma require_admin_anonymous request w :
  session_user_id request = None \/ session_user_id request = Some 0 ->
  require_admin request w = (Raise not_authenticated, w).
Proof.
  intros H. unfold require_admin, bind. now rewrite require_login_anonymous.
Qed.

Lemma get_current_user_stale request w uid :
  session_user_id request = Some uid -> uid <> 0 ->
  (forall v, In v (users (db w)) -> User.id v <> uid) ->
  get_current_user request w = (Raise user_not_found, w).
Proof.
  intros Hs Hnz Hnone. unfold get_current_user, require_login, bind. rewrite Hs.
  apply Z.eqb_neq in Hnz. rewrite Hnz. unfold ret. rewrite get_user_run.
  rewrite find_none_iff; [reflexivity|].
  intros v Hv. apply Z.eqb_neq. now apply Hnone.
Qed.

Lemma require_admin_plain request w uid :
  session_user_id request = Some uid -> uid <> 0 ->
  (forall v, In v (users (db w)) -> User.id v = uid -> User.is_admin v = false) ->
  require_admin request w = (Raise admin_required, w).
Proof.
  intros Hs Hnz Hplain. unfold require_admin, require_login, bind. rewrite Hs.
  apply Z.eqb_neq in Hnz. rewrite Hnz. unfold ret. rewrite get_user_run.
  destruct (find _ (users (db w))) as [v|] eqn:Hfind; [|reflexivity].
  apply find_some in Hfind. destruct Hfind as [Hin Hid]. apply Z.eqb_eq in Hid.
  now rewrite (Hplain v Hin Hid).
Qed.

Section Access.

Variable clk : Clock.

(** X8: a request without a session, or whose session holds user id 0, is
    refused with 401 by the dashboard, the item routes, the admin routes and
    every page behind the login, and changes nothing. *)
Theorem anonymous_is_refused (request : Request) (w : World) :
  session_user_id request = None \/ session_user_id request = Some 0 ->
  dashboard clk request w = (Raise not_authenticated, w)
  /\ (forall name barcode category expiry quantity price image,
        add_item clk request name barcode category expiry quantity price image w
        = (Raise not_authenticated, w))
  /\ (forall item_id, delete_item item_id request w = (Raise not_authenticated, w))
  /\ (forall item_id, mark_item_used item_id request w = (Raise not_authenticated, w))
  /\ (forall user_id, approve_user user_id request w = (Raise not_authenticated, w))
  /\ (forall user_id, delete_user user_id request w = (Raise not_authenticated, w))
  /\ statistics_page request w = (Raise not_authenticated, w)
  /\ notifications_page request w = (Raise not_authenticated, w)
  /\ recipes_page clk request w = (Raise not_authenticated, w)
  /\ admin_dashboard request w = (Raise not_authenticated, w).
Proof.
  intros H.
  pose proof (get_current_user_anonymous request w H) as Hu.
  pose proof (require_admin_anonymous request w H) as Ha.
  repeat split; intros;
    unfold dashboard, add_item, delete_item, mark_item_used, approve_user, delete_user,
      statistics_page, notifications_page, recipes_page, admin_dashboard, bind at 1;
    rewrite ?Hu, ?Ha; reflexivity.
Qed.

(** X9: a logged-in session whose user is not an admin (or is no longer in
    the store) is refused with 403 by the approval and deletion routes and
    by the admin dashboard, and changes nothing. *)
Theorem non_admin_is_refused (request : Request) (uid : Z) (w : World) :
  session_user_id request = Some uid -> uid <> 0 ->
  (forall v, In v (users (db w)) -> User.id v = uid -> User.is_admin v = false) ->
  (forall user_id, approve_user user_id request w = (Raise admin_required, w))
  /\ (forall user_id, delete_user user_id request w = (Raise admin_required, w))
  /\ admin_dashboard request w = (Raise admin_required, w).
Proof.
  intros Hs Hnz Hplain.
  pose proof (require_admin_plain request w uid Hs Hnz Hplain) as Ha.
  repeat split; intros; unfold approve_user, delete_user, admin_dashboard, bind at 1;
    rewrite Ha; reflexivity.
Qed.

Lemma delete_user_run user_id request w a u :
  require_admin request w = (Ok a, w) ->
  In u (users (db w)) -> User.id u = user_id -> user_id <> User.id a ->
  exists t, In t (users (db w)) /\ User.id t = user_id
            /\ delete_user user_id request w
               = (Ok (RedirectResponse "/admin/dashboard" 302),
                  mkWorld (delete_user_row t (db w)) (tick w) (stdout w)).
Proof.
  intros Ha Hu Hid Hne. unfold delete_user, bind at 1. rewrite Ha.
  apply Z.eqb_neq in Hne. rewrite Hne. unfold bind at 1. rewrite get_user_run.
  destruct (find _ (users (db w))) as [t|] eqn:Hfind.
  - apply find_some in Hfind. destruct Hfind as [Ht Htid]. apply Z.eqb_eq in Htid.
    exists t. repeat split; auto.
  - exfalso. pose proof (find_none _ _ Hfind u Hu) as Hf. simpl in Hf.
    rewrite Hid, Z.eqb_refl in Hf. discriminate.
Qed.

(** X10: once an admin has deleted a user, a request that still carries the
    deleted user's session is answered with 404 by the dashboard, the item
    routes and the pages behind the login, and changes nothing. *)
Theorem deleted_user_is_locked_out (admin_request request : Request) (a target : User.t)
  (w : World) :
  require_admin admin_request w = (Ok a, w) ->
  In target (users (db w)) ->
  User.id target <> User.id a ->
  User.id target <> 0 ->
  session_user_id request = Some (User.id target) ->
  let w1 := exec (delete_user (User.id target) admin_request) w in
  dashboard clk request w1 = (Raise user_not_found, w1)
  /\ (forall name barcode category expiry quantity price image,
        add_item clk request name barcode category expiry quantity price image w1
        = (Raise user_not_found, w1))
  /\ (forall item_id, delete_item item_id request w1 = (Raise user_not_found, w1))
  /\ (forall item_id, mark_item_used item_id request w1 = (Raise user_not_found, w1))
  /\ statistics_page request w1 = (Raise user_not_found, w1)
  /\ notifications_page request w1 = (Raise user_not_found, w1)
  /\ recipes_page clk request w1 = (Raise user_not_found, w1).
Proof.
  intros Ha Htarget Hne Hnz Hs w1.
  assert (Hgone : forall v, In v (users (db w1)) -> User.id v <> User.id target).
  { destruct (delete_user_run _ _ _ a target Ha Htarget eq_refl Hne) as [t [_ [Ht Hrun]]].
    unfold w1, exec. rewrite Hrun. simpl. intros v Hv.
    apply filter_In in Hv. destruct Hv as [_ Hv]. apply negb_true_iff in Hv.
    apply Z.eqb_neq in Hv. congruence. }
  pose proof (get_current_user_stale request w1 _ Hs Hnz Hgone) as Hu.
  repeat split; intros;
    unfold dashboard, add_item, delete_item, mark_item_used,
      statistics_page, notifications_page, recipes_page, bind at 1;
    rewrite Hu; reflexivity.
Qed.

End Access.

(** ** Items *)

Lemma get_current_user_users request w w' u :
  users (db w') = users (db w) ->
  get_current_user request w = (Ok u, w) ->
  get_current_user request w' = (Ok u, w').
Proof.
  intros Hus. unfold get_current_user, require_login, bind, ret, raise.
  destruct (session_user_id request) as [uid|]; [|discriminate].
  destruct (uid =? 0); [discriminate|].
  rewrite !get_user_run, Hus.
  destruct (find _ (users (db w))); [|discriminate]. congruence.
Qed.

Lemma filter_all {A} (p : A -> bool) (l : list A) :
  (forall x, In x l -> p x = true) -> filter p l = l.
Proof.
  induction l as [|a l IH]; simpl; intros H; [reflexivity|].
  rewrite (H a (or_introl eq_refl)). f_equal. apply IH. intros x Hx. apply H. now right.
Qed.

(** Rowids as SQLite hands them out: positive, and below the largest 64-bit
    integer, so that the next one is the largest in use plus one. *)
Definition rowids_in_use (ids : list Z) : Prop :=
  Forall (fun k => 0 < k < 2 ^ 63 - 1) ids.

Lemma next_id_in_range ids : rowids_in_use ids -> 0 < next_id ids < 2 ^ 63.
Proof.
  unfold next_id. intros H.
  assert (Hmax : 0 <= fold_right Z.max 0 ids < 2 ^ 63 - 1).
  { induction H as [|k ids Hk _ IH]; simpl; lia. }
  lia.
Qed.

Section Items.

Variable clk : Clock.

(** The row [add_item] inserts for user [u]. *)
Definition new_item (u : User.t) (name barcode category : string) (expiry : datetime)
  (quantity : Z) (price : option float) (image : option string) (w : World) : FoodItem.t :=
  FoodItem.mk (next_id (map FoodItem.id (food_items (db w)))) (User.id u) name
    (nonempty barcode) (nonempty category) (clock_utcnow clk (tick w)) expiry
    quantity (stored_price price) image false false.

Lemma add_item_run request u name barcode category expiry quantity price image w :
  get_current_user request w = (Ok u, w) ->
  int64 quantity = true ->
  add_item clk request name barcode category (Some expiry) quantity price image w
  = (Ok (RedirectResponse "/dashboard" 302),
     mkWorld (mkStore (users (db w))
                (food_items (db w)
                 ++ [new_item u name barcode category expiry quantity price image w])
                (notifications (db w)))
       (S (tick w)) (stdout w)).
Proof.
  intros Hu Hq. unfold add_item, bind at 1. rewrite Hu.
  unfold datetime_utcnow, bind at 1. cbn [fst snd]. rewrite Hq. reflexivity.
Qed.

(** X11: deleting or marking as used an item that is not the caller's own
    (another user's, or no item at all) writes nothing.  With an id that fits
    in 64 bits the caller is redirected to the dashboard; with an id that
    does not, the query cannot bind it and the route answers 500.  The world
    is unchanged either way. *)
Theorem foreign_item_is_untouched (request : Request) (u : User.t) (item_id : Z)
  (w : World) :
  get_current_user request w = (Ok u, w) ->
  (forall i, In i (food_items (db w)) -> FoodItem.id i = item_id ->
             FoodItem.user_id i <> User.id u) ->
  let answer := if int64 item_id then Ok (RedirectResponse "/dashboard" 302)
                else Raise internal_server_error in
  delete_item item_id request w = (answer, w)
  /\ mark_item_used item_id request w = (answer, w).
Proof.
  intros Hu Hforeign answer.
  assert (Hfind : find (fun i => (FoodItem.id i =? item_id)
                                 && (FoodItem.user_id i =? User.id u))
                    (food_items (db w)) = None).
  { apply find_none_iff. intros i Hi.
    destruct (Z.eqb_spec (FoodItem.id i) item_id) as [Hid|_]; [|reflexivity].
    apply Z.eqb_neq. now apply Hforeign. }
  split.
  - unfold delete_item, bind at 1. rewrite Hu. unfold get_store, bind at 1.
    cbn [fst snd]. rewrite Hfind. unfold answer. now destruct (int64 item_id).
  - unfold mark_item_used, bind at 1. rewrite Hu. unfold get_store, bind at 1.
    cbn [fst snd]. rewrite Hfind. unfold answer. now destruct (int64 item_id).
Qed.

(** X12: an item a user adds with a quantity that fits in 64 bits, to a table
    whose rowids are positive and below the largest 64-bit integer, is
    appended as one row: it belongs to the user, carries the quantity given
    and the price as the column stores it (NaN as NULL, a zero of either sign
    as 0.0), and takes a rowid that fits in 64 bits and that no other row
    has.  Deleting it right away with that rowid leaves the store exactly as
    it was before the add. *)
Theorem add_then_delete_restores (request : Request) (u : User.t)
  (name barcode category : string) (expiry : datetime) (quantity : Z)
  (price : option float) (image : option string) (w : World) :
  get_current_user request w = (Ok u, w) ->
  int64 quantity = true ->
  rowids_in_use (map FoodItem.id (food_items (db w))) ->
  let w1 := exec (add_item clk request name barcode category (Some expiry) quantity
                    price image) w in
  let added := new_item u name barcode category expiry quantity price image w in
  food_items (db w1) = food_items (db w) ++ [added]
  /\ FoodItem.user_id added = User.id u
  /\ FoodItem.quantity added = quantity
  /\ FoodItem.price added = stored_price price
  /\ int64 (FoodItem.id added) = true
  /\ ~ In (FoodItem.id added) (map FoodItem.id (food_items (db w)))
  /\ db (exec (delete_item (FoodItem.id added) request) w1) = db w.
Proof.
  intros Hu Hq Hids w1 added.
  assert (Hw1 : w1 = mkWorld (mkStore (users (db w)) (food_items (db w) ++ [added])
                                (notifications (db w))) (S (tick w)) (stdout w)).
  { unfold w1, exec. now rewrite (add_item_run _ u _ _ _ _ _ _ _ _ Hu Hq). }
  assert (Hfresh : ~ In (FoodItem.id added) (map FoodItem.id (food_items (db w))))
    by apply next_id_fresh.
  split; [now rewrite Hw1|]. split; [reflexivity|]. split; [reflexivity|].
  split; [reflexivity|]. split.
  { pose proof (next_id_in_range _ Hids) as Hrange.
    unfold added, new_item, int64. cbn [FoodItem.id].
    apply andb_true_iff. rewrite Z.leb_le, Z.ltb_lt. lia. }
  split; [exact Hfresh|].
  assert (Hu1 : get_current_user request w1 = (Ok u, w1)).
  { apply (get_current_user_users request w); [now rewrite Hw1 | exact Hu]. }
  unfold exec, delete_item, bind at 1. rewrite Hu1.
  unfold get_store, bind at 1. cbn [fst snd].
  assert (Hold : forall i, In i (food_items (db w)) ->
                           (FoodItem.id i =? FoodItem.id added) = false).
  { intros i Hi. apply Z.eqb_neq. intros Heq. apply Hfresh. rewrite <- Heq.
    now apply in_map. }
  assert (Hfind : find (fun i => (FoodItem.id i =? FoodItem.id added)
                                 && (FoodItem.user_id i =? User.id u))
                    (food_items (db w1)) = Some added).
  { rewrite Hw1. cbn [db food_items]. rewrite find_app, find_none_iff.
    - cbn [find]. unfold added at 1 3, new_item. cbn [FoodItem.id FoodItem.user_id].
      now rewrite !Z.eqb_refl.
    - intros i Hi. now rewrite (Hold i Hi). }
  rewrite Hfind. rewrite Hw1. cbn [fst snd db users food_items notifications].
  unfold set_store, bind, ret. cbn [fst snd db].
  rewrite filter_app. cbn [filter]. rewrite Z.eqb_refl. cbn [negb].
  rewrite app_nil_r, filter_all.
  - now destruct (db w).
  - intros i Hi. now rewrite (Hold i Hi).
Qed.

Lemma approve_row_twice user_id us :
  approve_row user_id (approve_row user_id us) = approve_row user_id us.
Proof.
  unfold approve_row. rewrite map_map. apply map_ext. intros v.
  destruct (User.id v =? user_id) eqn:E; simpl; rewrite E; reflexivity.
Qed.

Lemma require_admin_after_approval user_id request w w' a :
  users (db w') = approve_row user_id (users (db w)) ->
  require_admin request w = (Ok a, w) ->
  exists a', require_admin request w' = (Ok a', w').
Proof.
  intros Hus. unfold require_admin, require_login, bind, ret, raise.
  destruct (session_user_id request) as [sid|]; [|discriminate].
  destruct (sid =? 0); [discriminate|].
  rewrite !get_user_run, Hus, find_approve_row by reflexivity.
  destruct (find _ (users (db w))) as [v|]; [|discriminate]. cbn [option_map].
  destruct (User.is_admin v) eqn:Hv; [|discriminate]. intros _.
  destruct (User.id v =? user_id);
    cbn [User.with_is_approved User.is_admin]; rewrite ?Hv; eauto.
Qed.

(** X13: approving a user twice is the same as approving once: the second
    request, by the same session, leaves the store as the first left it. *)
Theorem approve_user_twice (user_id : Z) (request : Request) (w : World) :
  let w1 := exec (approve_user user_id request) w in
  db (exec (approve_user user_id request) w1) = db w1.
Proof.
  intros w1. unfold w1, exec.
  destruct (require_admin_run request w) as [[e He]|[a [Ha [Hin Hadmin]]]].
  - assert (Hrun : approve_user user_id request w = (Raise e, w))
      by (unfold approve_user, bind at 1; now rewrite He).
    rewrite Hrun. cbn [snd]. now rewrite Hrun.
  - destruct (find (fun u => User.id u =? user_id) (users (db w))) as [t|] eqn:Hfind.
    + pose proof Hfind as Ht. apply find_some in Ht. destruct Ht as [Ht Hid].
      apply Z.eqb_eq in Hid.
      rewrite (approve_user_run _ _ _ a t Ha Ht Hid). cbn [snd].
      set (w' := mkWorld _ (tick w) (stdout w)).
      destruct (require_admin_after_approval user_id request w w' a eq_refl Ha)
        as [a' Ha'].
      assert (Ht' : In (User.with_is_approved true t) (users (db w'))).
      { unfold w'. cbn [db users]. unfold approve_row. apply in_map_iff.
        exists t. rewrite Hid, Z.eqb_refl. auto. }
      rewrite (approve_user_run _ _ _ a' _ Ha' Ht' Hid). cbn [snd db].
      unfold w'. cbn [db users food_items notifications].
      now rewrite approve_row_twice.
    + assert (Hrun : exists answer, approve_user user_id request w = (answer, w)).
      { unfold approve_user, bind at 1. rewrite Ha. unfold bind at 1.
        rewrite get_user_run, Hfind. destruct (int64 user_id); eexists; reflexivity. }
      destruct Hrun as [answer Hrun]. rewrite Hrun. cbn [snd]. now rewrite Hrun.
Qed.

End Items.

(** ** Statistics: the counts *)

Lemma len_filter_split {A} (p q : A -> bool) (l : list A) :
  len l = len (filter (fun x => negb (p x) && negb (q x)) l)
          + len (filter p l) + len (filter q l)
          - len (filter (fun x => p x && q x) l).
Proof.
  unfold len. induction l as [|a l IH]; [reflexivity|].
  cbn [filter]. destruct (p a), (q a); cbn [negb andb List.length];
    rewrite ?Nat2Z.inj_succ; simpl List.length in IH; lia.
Qed.

Lemma len_filter_bounds {A} (p : A -> bool) (l : list A) :
  0 <= len (filter p l) <= len l.
Proof.
  unfold len. pose proof (filter_length_le p l). lia.
Qed.

(** X14: the calculator never raises and leaves the world alone; its counts
    satisfy total = active + expired + used - (items both expired and used),
    so an item that is both is counted as expired and as used, and each
    count lies between 0 and the total. *)
Theorem stats_counts_add_up (user_id : Z) (w : World) :
  exists stats,
    calculate_user_stats user_id w = (Ok stats, w)
    /\ total_items stats
       = active_items stats + expired_items stats + used_items stats
         - len (filter (fun i => (FoodItem.user_id i =? user_id)
                                 && FoodItem.is_expired i && FoodItem.is_used i)
                  (food_items (db w)))
    /\ 0 <= expired_items stats <= total_items stats
    /\ 0 <= used_items stats <= total_items stats
    /\ 0 <= active_items stats <= total_items stats.
Proof.
  eexists. split; [reflexivity|]. cbn [total_items active_items expired_items used_items].
  set (mine := filter (fun i => FoodItem.user_id i =? user_id) (food_items (db w))).
  split; [|repeat split; apply len_filter_bounds].
  rewrite (len_filter_split FoodItem.is_expired FoodItem.is_used mine).
  f_equal. f_equal. unfold mine.
  induction (food_items (db w)) as [|i items IH]; [reflexivity|].
  cbn [filter]. destruct (FoodItem.user_id i =? user_id); cbn [andb filter]; [|exact IH].
  destruct (FoodItem.is_expired i && FoodItem.is_used i); [|exact IH].
  now rewrite IH.
Qed.

(** ** What a sweep sends, and to whom *)

Lemma in_mark_expired_other fid items item :
  In item items -> FoodItem.id item <> fid -> In item (mark_expired fid items).
Proof.
  intros Hin Hne. unfold mark_expired. apply in_map_iff. exists item.
  apply Z.eqb_neq in Hne. now rewrite Hne.
Qed.

Lemma item_step_keeps_row it d s s' item :
  item_step it d s s' -> In item (food_items s) ->
  (d < 0 -> FoodItem.id item <> FoodItem.id it) ->
  In item (food_items s').
Proof.
  intros [_ H] Hin Hother. destruct (Z.ltb_spec d 0) as [Hd|Hd].
  - destruct H as [-> _]. apply in_mark_expired_other; auto.
  - destruct H as [-> _]. exact Hin.
Qed.

Section SweepMore.

Variable clk : Clock.

(** X15: one sweep gives an item that it visits for the first time exactly
    the notifications that are due: with [d >= 0] days left and nothing sent
    before, it ends with one notification of each type whose threshold
    (30, 7, 1) is at least [d] and none of any other type, so an item first
    seen close to its date gets its earlier reminders at once and an item
    more than 30 days away gets nothing; its row is left as it is. *)
Theorem sweep_sends_what_is_due (w : World) (item : FoodItem.t) (d : Z) :
  item_ids_unique (db w) ->
  In item (food_items (db w)) ->
  FoodItem.is_expired item = false ->
  Forall (fun n => Notification.food_item_id n <> FoodItem.id item) (notifications (db w)) ->
  (forall t, days_left_at clk t item = d) ->
  0 <= d ->
  let s' := db (exec (check_and_send_notifications clk) w) in
  (forall ty, count_sent (FoodItem.id item) ty (notifications s')
              = if type_in ty (due_types d) then 1%nat else 0%nat)
  /\ In item (food_items s').
Proof.
  intros Huniq Hin Hflag Hnone Hdays Hd s'.
  destruct (sweep_inv clk (fun rest s =>
      Forall (fun it => In it (food_items (db w))) rest
      /\ (forall ty, type_in ty (due_types d) = false ->
                     count_sent (FoodItem.id item) ty (notifications s) = 0%nat)
      /\ In item (food_items s))) with (w := w) as [w' [Hrun [_ [Hzero Hrow]]]].
  - intros it rest s0 s1 t [Hall [Hzero Hrow]] Hst.
    inversion Hall as [|x l Hit Hrest]; subst.
    assert (Hsame : FoodItem.id it = FoodItem.id item -> it = item)
      by (intros Heq; exact (NoDup_map_eq FoodItem.id _ it item Huniq Hit Hin Heq)).
    split; [exact Hrest|]. split.
    + intros ty Hty. destruct (Z.eq_dec (FoodItem.id item) (FoodItem.id it)) as [Heq|Hne].
      * rewrite (Hsame (eq_sym Heq)) in Hst. rewrite Hdays in Hst.
        rewrite (item_step_count_due _ _ _ _ ty Hst Hd), Hty. simpl. now apply Hzero.
      * rewrite (item_step_count_other _ _ _ _ _ ty Hst Hne). now apply Hzero.
    + eapply item_step_keeps_row; [exact Hst | exact Hrow|].
      intros Hneg Heq. rewrite (Hsame (eq_sym Heq)), Hdays in Hneg. lia.
  - split; [|split; [|exact Hin]].
    + apply Forall_forall. intros it Hit. apply in_unflagged in Hit. tauto.
    + intros ty _. now apply count_sent_other.
  - assert (Hs' : s' = db w') by (unfold s', exec; now rewrite Hrun).
    split; [|now rewrite Hs'].
    intros ty. destruct (type_in ty (due_types d)) eqn:Hty.
    + assert (Hne : ty <> "expired")
        by (intros ->; rewrite expired_never_due in Hty; discriminate).
      pose proof (sweep_due clk w item ty Hin Hflag
                    (fun t => conj (eq_ind_r (fun x => 0 <= x) Hd (Hdays t))
                                   (eq_ind_r (fun x => type_in ty (due_types x) = true)
                                      Hty (Hdays t)))) as Hge.
      pose proof (sweep_dedup clk w (FoodItem.id item) ty Hne) as Hle.
      rewrite (count_sent_other _ ty _ Hnone) in Hle. specialize (Hle (Nat.le_0_l 1)).
      fold s' in Hge, Hle. lia.
    + rewrite Hs'. now apply Hzero.
Qed.

(** X16: an item that is flagged expired is out of the sweep's reach: a
    sweep or a dashboard view leaves its row and the number of notifications
    of every type recorded against it as they were. *)
Theorem flagged_item_gets_nothing (p : pass) (w : World) (item : FoodItem.t) :
  item_ids_unique (db w) ->
  In item (food_items (db w)) ->
  FoodItem.is_expired item = true ->
  let s' := db (run_pass clk p w) in
  (forall ty, count_sent (FoodItem.id item) ty (notifications s')
              = count_sent (FoodItem.id item) ty (notifications (db w)))
  /\ In item (food_items s').
Proof.
  intros Huniq Hin Hflag s'.
  assert (Hsweep : forall ty,
             count_sent (FoodItem.id item) ty
               (notifications (db (exec (check_and_send_notifications clk) w)))
             = count_sent (FoodItem.id item) ty (notifications (db w))).
  { destruct (sweep_inv clk (fun rest s =>
        Forall (fun it => FoodItem.id it <> FoodItem.id item) rest
        /\ forall ty, count_sent (FoodItem.id item) ty (notifications s)
                      = count_sent (FoodItem.id item) ty (notifications (db w))))
      with (w := w) as [w' [Hrun [_ Hsame]]].
    - intros it rest s0 s1 t [Hall Hsame] Hst.
      inversion Hall as [|x l Hit Hrest]; subst. split; [exact Hrest|].
      intros ty. rewrite (item_step_count_other _ _ _ _ _ ty Hst); auto.
    - split; [|reflexivity]. apply Forall_forall. intros it Hit Heq.
      apply in_unflagged in Hit. destruct Hit as [Hit Hunflagged].
      rewrite (NoDup_map_eq FoodItem.id _ it item Huniq Hit Hin Heq) in Hunflagged.
      congruence.
    - unfold exec. rewrite Hrun. exact Hsame. }
  destruct (sweep_frame clk w) as [_ [Hfl _]].
  assert (Hkept : In item (food_items (db (exec (check_and_send_notifications clk) w))))
    by (eapply flags_raised_keeps_flagged; eassumption).
  destruct p as [|request]; unfold s', run_pass.
  - split; assumption.
  - destruct (dashboard_frame clk request w) as [[e [_ ->]]|[_ [-> Hloop]]].
    + split; [reflexivity | exact Hin].
    + split; [exact Hsweep|]. eapply flags_raised_keeps_flagged; eassumption.
Qed.

End SweepMore.

(** ** Flags are raised on overdue rows only *)

Lemma raised_expiry a b : raised a b -> FoodItem.expiry_date b = FoodItem.expiry_date a.
Proof. intros [->| ->]; reflexivity. Qed.

Lemma raised_refl a : raised a a.
Proof. now left. Qed.

Lemma Forall2_In_r {A B} (R : A -> B -> Prop) l l' b :
  Forall2 R l l' -> In b l' -> exists a, In a l /\ R a b.
Proof.
  induction 1 as [|a0 b0 l l' Hab _ IH]; simpl; [contradiction|].
  intros [->|Hin]; [eauto|]. destruct (IH Hin) as [a [Ha Hr]]. eauto.
Qed.

Section FlagsSound.

Variable clk : Clock.
Variable today : Z.
Hypothesis same_day : forall t, date_of (clock_now clk t) = today.

(** [b] is [a] with its flag raised at most, and raised only if [a] was
    flagged already or is past its date. *)
Definition raised_if_overdue (a b : FoodItem.t) : Prop :=
  raised a b
  /\ (FoodItem.is_expired b = true ->
      FoodItem.is_expired a = true \/ date_of (FoodItem.expiry_date a) < today).

Lemma raised_if_overdue_refl items : Forall2 raised_if_overdue items items.
Proof.
  induction items; constructor; [|assumption]. split; [apply raised_refl | auto].
Qed.

Lemma mark_expired_overdue fid items0 items :
  Forall2 raised_if_overdue items0 items ->
  (forall a, In a items0 -> FoodItem.id a = fid -> date_of (FoodItem.expiry_date a) < today) ->
  Forall2 raised_if_overdue items0 (mark_expired fid items).
Proof.
  unfold mark_expired. induction 1 as [|a b l0 l [Hr Hflag] _ IH]; intros Hover; simpl.
  - constructor.
  - constructor; [|apply IH; intros x Hx; apply Hover; now right].
    destruct (Z.eqb_spec (FoodItem.id b) fid) as [Hid|_]; [|now split].
    split.
    + eapply raised_trans; [exact Hr | now right].
    + intros _. right. apply Hover; [now left|]. now rewrite <- (raised_id _ _ Hr).
Qed.

Lemma sweep_raises_overdue_only w :
  item_ids_unique (db w) ->
  Forall2 raised_if_overdue (food_items (db w))
    (food_items (db (exec (check_and_send_notifications clk) w))).
Proof.
  intros Huniq.
  destruct (sweep_inv clk (fun rest s =>
      Forall (fun it => In it (food_items (db w))) rest
      /\ Forall2 raised_if_overdue (food_items (db w)) (food_items s)))
    with (w := w) as [w' [Hrun [_ HP]]].
  - intros it rest s0 s1 t [Hall HR] Hst.
    inversion Hall as [|x l Hit Hrest]; subst. split; [exact Hrest|].
    pose proof Hst as [_ H]. rewrite (days_left_today clk today same_day) in H.
    destruct (Z.ltb_spec (date_of (FoodItem.expiry_date it) - today) 0) as [Hd|Hd].
    + destruct H as [-> _]. apply mark_expired_overdue; [exact HR|].
      intros a Ha Hid.
      rewrite (NoDup_map_eq FoodItem.id _ a it Huniq Ha Hit Hid). lia.
    + destruct H as [-> _]. exact HR.
  - split; [|apply raised_if_overdue_refl].
    apply Forall_forall. intros it Hit. apply in_unflagged in Hit. tauto.
  - unfold exec. rewrite Hrun. exact HP.
Qed.

(** X17: under a clock that stays on one date, a sweep or a dashboard view
    raises the expired flag only on rows whose expiry date is before today:
    a row that is flagged afterwards was flagged before or is overdue, and it
    is otherwise the row it was. *)
Theorem flags_only_on_overdue (p : pass) (w : World) (row' : FoodItem.t) :
  item_ids_unique (db w) ->
  In row' (food_items (db (run_pass clk p w))) ->
  FoodItem.is_expired row' = true ->
  exists row,
    In row (food_items (db w))
    /\ (row' = row \/ row' = FoodItem.with_is_expired true row)
    /\ (FoodItem.is_expired row = true \/ date_of (FoodItem.expiry_date row) < today).
Proof.
  intros Huniq Hin Hflag.
  assert (HR : Forall2 raised_if_overdue (food_items (db w))
                 (food_items (db (run_pass clk p w)))).
  { pose proof (sweep_raises_overdue_only w Huniq) as Hsweep.
    destruct p as [|request]; [exact Hsweep|]. unfold run_pass.
    destruct (dashboard_inv clk (fun rest s =>
        Forall (fun it => exists a, In a (food_items (db w)) /\ raised a it) rest
        /\ Forall2 raised_if_overdue (food_items (db w)) (food_items s)) request w)
      as [[e [_ He]]|[u [r [w' [_ [Hrun [_ HP]]]]]]].
    - intros it rest s t [Hall HR].
      inversion Hall as [|x l [a [Ha Hr]] Hrest]; subst. split; [exact Hrest|].
      unfold dashboard_step. rewrite (days_left_today clk today same_day).
      destruct (Z.ltb_spec (date_of (FoodItem.expiry_date it) - today) 0) as [Hd|Hd];
        [|exact HR].
      destruct (FoodItem.is_expired it); [exact HR|]. cbn [negb andb food_items].
      apply mark_expired_overdue; [exact HR|].
      intros a' Ha' Hid. rewrite (raised_id _ _ Hr) in Hid.
      rewrite (NoDup_map_eq FoodItem.id _ a' a Huniq Ha' Ha Hid).
      rewrite <- (raised_expiry _ _ Hr). lia.
    - intros u. split; [|exact Hsweep].
      apply Forall_forall. intros it Hit. apply dashboard_items_In in Hit.
      destruct (Forall2_In_r _ _ _ it Hsweep Hit) as [a [Ha [Hr _]]]. eauto.
    - unfold exec. rewrite He. apply raised_if_overdue_refl.
    - unfold exec. rewrite Hrun. exact HP. }
  destruct (Forall2_In_r _ _ _ row' HR Hin) as [row [Hrow [Hr Hwhy]]].
  exists row. split; [exact Hrow|]. split; [exact Hr | exact (Hwhy Hflag)].
Qed.

End FlagsSound.

(** ** What the dashboard shows *)

Lemma insert_by_expiry_perm x l : Permutation (insert_by_expiry x l) (x :: l).
Proof.
  induction l as [|y l IH]; simpl; [reflexivity|].
  destruct (FoodItem.expiry_date x <=? FoodItem.expiry_date y); [reflexivity|].
  rewrite IH. apply perm_swap.
Qed.

Lemma order_by_expiry_date_perm l : Permutation (order_by_expiry_date l) l.
Proof.
  unfold order_by_expiry_date. induction l as [|x l IH]; simpl; [reflexivity|].
  rewrite insert_by_expiry_perm. now constructor.
Qed.

Definition expires_no_later (a b : FoodItem.t) : Prop :=
  FoodItem.expiry_date a <= FoodItem.expiry_date b.

Lemma insert_by_expiry_sorted x l :
  StronglySorted expires_no_later l -> StronglySorted expires_no_later (insert_by_expiry x l).
Proof.
  induction 1 as [|y l Hsorted IH Hall]; simpl.
  - repeat constructor.
  - destruct (Z.leb_spec (FoodItem.expiry_date x) (FoodItem.expiry_date y)) as [Hle|Hgt].
    + constructor; [now constructor|]. constructor; [exact Hle|].
      eapply Forall_impl; [|exact Hall]. unfold expires_no_later. intros z Hz. lia.
    + constructor; [exact IH|]. apply Forall_forall. intros z Hz.
      apply insert_by_expiry_In in Hz. destruct Hz as [->|Hz].
      * unfold expires_no_later. lia.
      * rewrite Forall_forall in Hall. now apply Hall.
Qed.

Lemma order_by_expiry_date_sorted l :
  StronglySorted expires_no_later (order_by_expiry_date l).
Proof.
  unfold order_by_expiry_date. induction l as [|x l IH]; simpl; [constructor|].
  now apply insert_by_expiry_sorted.
Qed.

(** Three shelves that exclude one another and leave no row out. *)
Lemma three_shelves_perm {A} (p q : A -> bool) (l : list A) :
  Permutation (filter p l
               ++ filter (fun x => negb (p x) && q x) l
               ++ filter (fun x => negb (p x) && negb (q x)) l) l.
Proof.
  induction l as [|x l IH]; simpl; [reflexivity|].
  destruct (p x), (q x); simpl.
  - now constructor.
  - now constructor.
  - rewrite <- Permutation_middle. now constructor.
  - rewrite app_assoc, <- Permutation_middle, <- app_assoc. now constructor.
Qed.

Section Shelves.

Variable clk : Clock.
Variable today : Z.
Hypothesis same_day : forall t, date_of (clock_now clk t) = today.

(** The days an item has left today, and the entry the dashboard shows for
    it. *)
Definition days_to_go (i : FoodItem.t) : Z := date_of (FoodItem.expiry_date i) - today.

Definition shown (i : FoodItem.t) : FoodItem.t * Z := (i, Z.max 0 (days_to_go i)).

Definition is_soon (i : FoodItem.t) : bool :=
  negb (FoodItem.is_expired i) && (days_to_go i <=? 7).

Definition is_fresh (i : FoodItem.t) : bool :=
  negb (FoodItem.is_expired i) && (7 <? days_to_go i).

Lemma dashboard_item_today item acc w :
  (FoodItem.is_expired item = false -> 0 <= days_to_go item) ->
  dashboard_item clk item acc w
  = (Ok (if FoodItem.is_expired item then
           mkBuckets (expired acc ++ [shown item]) (expiring_soon acc) (fresh acc)
         else if days_to_go item <=? 7 then
           mkBuckets (expired acc) (expiring_soon acc ++ [shown item]) (fresh acc)
         else
           mkBuckets (expired acc) (expiring_soon acc) (fresh acc ++ [shown item])),
     mkWorld (db w) (S (tick w)) (stdout w)).
Proof.
  intros Hdue.
  unfold dashboard_item, calculate_days_until_expiry, datetime_now, bind at 1 2 3,
    ret at 1; simpl.
  rewrite days_between_midnights. rewrite same_day. fold (days_to_go item).
  unfold shown.
  destruct (FoodItem.is_expired item) eqn:Hflag.
  - rewrite andb_false_r. unfold bind, ret. cbn [fst snd]. rewrite Hflag. reflexivity.
  - specialize (Hdue eq_refl). apply Z.ltb_ge in Hdue. rewrite Hdue.
    unfold bind, ret. cbn [fst snd andb orb]. rewrite Hflag. cbn [orb].
    now destruct (days_to_go item <=? 7).
Qed.

Lemma for_fold_dashboard_today items acc w :
  Forall (fun i => FoodItem.is_expired i = false -> 0 <= days_to_go i) items ->
  exists acc' w',
    for_fold items acc (dashboard_item clk) w = (Ok acc', w')
    /\ db w' = db w
    /\ expired acc' = expired acc ++ map shown (filter FoodItem.is_expired items)
    /\ expiring_soon acc' = expiring_soon acc ++ map shown (filter is_soon items)
    /\ fresh acc' = fresh acc ++ map shown (filter is_fresh items).
Proof.
  revert acc w. induction items as [|item rest IH]; intros acc w Hall.
  - exists acc, w. simpl. rewrite !app_nil_r. auto.
  - inversion Hall as [|x l Hitem Hrest]; subst.
    pose proof (dashboard_item_today item acc w Hitem) as Hrun.
    set (acc1 := if FoodItem.is_expired item then _ else _) in Hrun.
    destruct (IH acc1 (mkWorld (db w) (S (tick w)) (stdout w)) Hrest)
      as [acc' [w' [Hfold [Hdb [He [Hs Hf]]]]]].
    exists acc', w'. simpl for_fold. unfold bind. rewrite Hrun.
    split; [exact Hfold|]. split; [exact Hdb|].
    rewrite He, Hs, Hf. unfold acc1, is_soon, is_fresh. cbn [filter].
    destruct (FoodItem.is_expired item); cbn [negb andb expired expiring_soon fresh map].
    + rewrite <- app_assoc. auto.
    + destruct (Z.leb_spec (days_to_go item) 7) as [H7|H7];
        [destruct (Z.ltb_spec 7 (days_to_go item)) as [|_]; [lia|]
        |destruct (Z.ltb_spec 7 (days_to_go item)) as [_|]; [|lia]];
        cbn [expired expiring_soon fresh map]; rewrite <- app_assoc; auto.
Qed.

(** X18: under a clock that stays on one date, a dashboard view by a
    logged-in user leaves the store as the sweep it runs leaves it and renders
    the dashboard template with the statistics of that store and three lists
    made of the user's unused rows of that store, put in order of expiry date
    (whatever the order among equal dates): [expired] is the flagged rows,
    [expiring_soon] the unflagged rows with at most 7 days to their date,
    [fresh] the unflagged rows with more than 7.  Each entry carries the row
    and [max(0, expiry date - today)] as days remaining; no unflagged row is
    past its date, so for these the days remaining are the days to the date;
    together the three lists hold each of the user's unused rows once and
    nothing else. *)
Theorem dashboard_shelves_items (request : Request) (u : User.t) (w : World) :
  get_current_user request w = (Ok u, w) ->
  exists buckets stats w',
    dashboard clk request w
    = (Ok (TemplateResponse "dashboard.html" (DashboardContext u buckets stats)), w')
    /\ db w' = db (exec (check_and_send_notifications clk) w)
    /\ calculate_user_stats (User.id u) w' = (Ok stats, w')
    /\ let mine := filter (fun i => (FoodItem.user_id i =? User.id u)
                                    && negb (FoodItem.is_used i))
                          (food_items (db w')) in
       (exists rows,
          Permutation rows mine
          /\ StronglySorted expires_no_later rows
          /\ expired buckets = map shown (filter FoodItem.is_expired rows)
          /\ expiring_soon buckets = map shown (filter is_soon rows)
          /\ fresh buckets = map shown (filter is_fresh rows)
          /\ forall i, In i rows -> FoodItem.is_expired i = false -> 0 <= days_to_go i)
       /\ Permutation
            (map fst (expired buckets ++ expiring_soon buckets ++ fresh buckets)) mine.
Proof.
  intros Hu. destruct (sweep_total clk w) as [w1 Hsweep].
  pose proof (sweep_saturates clk today same_day w) as Hsat.
  unfold exec. unfold exec in Hsat. rewrite Hsweep in *. cbn [snd] in *.
  assert (Hdue : forall i, In i (dashboard_items u (db w1)) ->
                           FoodItem.is_expired i = false -> 0 <= days_to_go i).
  { intros i Hi Hflag. apply dashboard_items_In in Hi.
    destruct (Hsat i Hi Hflag) as [Hd _]. exact Hd. }
  destruct (for_fold_dashboard_today (dashboard_items u (db w1)) (mkBuckets [] [] []) w1)
    as [acc' [w' [Hfold [Hdb [He [Hs Hf]]]]]].
  { apply Forall_forall. exact Hdue. }
  cbn [expired expiring_soon fresh app] in He, Hs, Hf.
  destruct (calculate_user_stats_run (User.id u) w') as [stats Hstats].
  exists acc', stats, w'. split; [|split; [exact Hdb|split; [exact Hstats|]]].
  - rewrite (dashboard_unfold clk _ _ _ _ Hu Hsweep).
    unfold bind at 1. rewrite Hfold. unfold bind at 1. rewrite Hstats. reflexivity.
  - cbv zeta. rewrite Hdb. split.
    { exists (dashboard_items u (db w1)).
      split; [apply order_by_expiry_date_perm|].
      split; [apply order_by_expiry_date_sorted|]. auto. }
    fold (dashboard_items u (db w1)).
    rewrite He, Hs, Hf, <- !map_app, map_map. cbn [shown fst]. rewrite map_id.
    transitivity (dashboard_items u (db w1)); [|apply order_by_expiry_date_perm].
    assert (Hfresh : filter is_fresh (dashboard_items u (db w1))
                     = filter (fun i => negb (FoodItem.is_expired i)
                                        && negb (days_to_go i <=? 7))
                              (dashboard_items u (db w1))).
    { apply filter_ext. intros i. unfold is_fresh. now rewrite Z.ltb_antisym. }
    rewrite Hfresh. unfold is_soon.
    apply (three_shelves_perm FoodItem.is_expired (fun i => days_to_go i <=? 7)).
Qed.

End Shelves.

(** ** The notifications page *)

(** Newest first. *)
Definition not_older (a b : Notification.t) : Prop :=
  Notification.sent_at b <= Notification.sent_at a.

Lemma insert_by_sent_at_In x y l : In y (insert_by_sent_at x l) <-> y = x \/ In y l.
Proof.
  induction l as [|z l IH]; simpl.
  - intuition.
  - destruct (Notification.sent_at z <=? Notification.sent_at x); simpl.
    + intuition.
    + rewrite IH. intuition.
Qed.

Lemma order_by_sent_at_desc_In y l : In y (order_by_sent_at_desc l) <-> In y l.
Proof.
  unfold order_by_sent_at_desc. induction l as [|x l IH]; simpl; [tauto|].
  rewrite insert_by_sent_at_In, IH. intuition.
Qed.

Lemma insert_by_sent_at_length x l :
  List.length (insert_by_sent_at x l) = S (List.length l).
Proof.
  induction l as [|y l IH]; simpl; [reflexivity|].
  destruct (Notification.sent_at y <=? Notification.sent_at x); simpl; congruence.
Qed.

Lemma order_by_sent_at_desc_length l :
  List.length (order_by_sent_at_desc l) = List.length l.
Proof.
  unfold order_by_sent_at_desc. induction l as [|x l IH]; simpl; [reflexivity|].
  now rewrite insert_by_sent_at_length, IH.
Qed.

Lemma insert_by_sent_at_sorted x l :
  StronglySorted not_older l -> StronglySorted not_older (insert_by_sent_at x l).
Proof.
  induction 1 as [|y l Hsorted IH Hall]; simpl.
  - repeat constructor.
  - destruct (Z.leb_spec (Notification.sent_at y) (Notification.sent_at x)) as [Hle|Hgt].
    + constructor; [now constructor|]. constructor; [exact Hle|].
      eapply Forall_impl; [|exact Hall]. unfold not_older. intros z Hz. lia.
    + constructor; [exact IH|]. apply Forall_forall. intros z Hz.
      apply insert_by_sent_at_In in Hz. destruct Hz as [->|Hz].
      * unfold not_older. lia.
      * rewrite Forall_forall in Hall. now apply Hall.
Qed.

Lemma order_by_sent_at_desc_sorted l : StronglySorted not_older (order_by_sent_at_desc l).
Proof.
  unfold order_by_sent_at_desc. induction l as [|x l IH]; simpl; [constructor|].
  now apply insert_by_sent_at_sorted.
Qed.

Lemma sorted_app_split {A} (R : A -> A -> Prop) (l1 l2 : list A) :
  StronglySorted R (l1 ++ l2) ->
  StronglySorted R l1 /\ forall a b, In a l1 -> In b l2 -> R a b.
Proof.
  induction l1 as [|x l1 IH]; simpl; intros H.
  - split; [constructor | intros a b []].
  - inversion H as [|y l Hsorted Hall]; subst. destruct (IH Hsorted) as [H1 H2].
    split.
    + constructor; [exact H1|]. apply Forall_forall. intros z Hz.
      rewrite Forall_forall in Hall. apply Hall. apply in_or_app. now left.
    + intros a b [<-|Ha] Hb; [|now apply H2].
      rewrite Forall_forall in Hall. apply Hall. apply in_or_app. now right.
Qed.

(** X19: the notifications page of a logged-in user shows at most 50
    notifications, all of them the user's, newest first; any of the user's
    notifications it leaves out is no newer than each one it shows, and with
    50 or fewer it shows them all.  Notifications of deleted items are shown
    like any other.  The page changes nothing. *)
Theorem notifications_page_newest_first (request : Request) (u : User.t) (w : World) :
  get_current_user request w = (Ok u, w) ->
  exists shown,
    notifications_page request w
    = (Ok (TemplatePage "notifications.html" (NotificationsPage u shown)), w)
    /\ (List.length shown <= 50)%nat
    /\ (forall n, In n shown ->
                  In n (notifications (db w)) /\ Notification.user_id n = User.id u)
    /\ StronglySorted not_older shown
    /\ (forall n m, In n (notifications (db w)) -> Notification.user_id n = User.id u ->
                    ~ In n shown -> In m shown -> not_older m n)
    /\ ((List.length (filter (fun n => (Notification.user_id n =? User.id u)%Z)
                        (notifications (db w))) <= 50)%nat ->
        forall n, In n (notifications (db w)) -> Notification.user_id n = User.id u ->
                  In n shown).
Proof.
  intros Hu.
  set (mine := filter (fun n => Notification.user_id n =? User.id u) (notifications (db w))).
  set (sorted := order_by_sent_at_desc mine).
  exists (firstn 50 sorted). split; [|split; [|split; [|split; [|split]]]].
  - unfold notifications_page, bind at 1. rewrite Hu. reflexivity.
  - apply firstn_le_length.
  - intros n Hn. assert (Hin : In n sorted)
      by (rewrite <- (firstn_skipn 50 sorted); apply in_or_app; now left).
    unfold sorted, mine in Hin. rewrite order_by_sent_at_desc_In, filter_In in Hin.
    now rewrite Z.eqb_eq in Hin.
  - pose proof (order_by_sent_at_desc_sorted mine) as Hs. fold sorted in Hs.
    rewrite <- (firstn_skipn 50 sorted) in Hs. now apply sorted_app_split in Hs.
  - intros n m Hn Hmine Hout Hm.
    pose proof (order_by_sent_at_desc_sorted mine) as Hs. fold sorted in Hs.
    rewrite <- (firstn_skipn 50 sorted) in Hs. apply sorted_app_split in Hs.
    destruct Hs as [_ Hs]. apply Hs; [exact Hm|].
    assert (Hin : In n sorted).
    { unfold sorted, mine. rewrite order_by_sent_at_desc_In, filter_In.
      now rewrite Z.eqb_eq. }
    rewrite <- (firstn_skipn 50 sorted) in Hin. apply in_app_or in Hin. tauto.
  - intros Hfew n Hn Hmine. rewrite firstn_all2.
    + unfold sorted, mine. rewrite order_by_sent_at_desc_In, filter_In.
      now rewrite Z.eqb_eq.
    + unfold sorted. now rewrite order_by_sent_at_desc_length.
Qed.

(** ** Used items, pending users *)

Definition mark_used_rows (item_id : Z) (items : list FoodItem.t) : list FoodItem.t :=
  map (fun j => if FoodItem.id j =? item_id then FoodItem.with_is_used true j else j) items.

Lemma mark_used_rows_twice item_id items :
  mark_used_rows item_id (mark_used_rows item_id items) = mark_used_rows item_id items.
Proof.
  unfold mark_used_rows. rewrite map_map. apply map_ext. intros j.
  destruct (FoodItem.id j =? item_id) eqn:E; simpl; rewrite E; reflexivity.
Qed.

Lemma mark_item_used_run request u i w :
  get_current_user request w = (Ok u, w) ->
  In i (food_items (db w)) -> FoodItem.user_id i = User.id u ->
  mark_item_used (FoodItem.id i) request w
  = (Ok (RedirectResponse "/dashboard" 302),
     mkWorld (mkStore (users (db w)) (mark_used_rows (FoodItem.id i) (food_items (db w)))
                (notifications (db w))) (tick w) (stdout w)).
Proof.
  intros Hu Hi Hown. unfold mark_item_used, bind at 1. rewrite Hu.
  unfold get_store, bind at 1. cbn [fst snd].
  destruct (find _ (food_items (db w))) as [j|] eqn:Hfind.
  - apply find_item_owned in Hfind. destruct Hfind as [_ [Hid _]].
    unfold set_store, bind, ret, mark_used_rows. cbn [fst snd]. now rewrite Hid.
  - exfalso. pose proof (find_none _ _ Hfind i Hi) as Hf. simpl in Hf.
    rewrite Hown, !Z.eqb_refl in Hf. discriminate.
Qed.

Section Used.

Variable clk : Clock.

(** X20: when a user marks an own item as used, the rows with that id become
    used and every other row is left as it is; the recipes page no longer
    lists the item; marking it again changes nothing. *)
Theorem mark_item_used_hides_item (request : Request) (u : User.t) (i : FoodItem.t)
  (w : World) :
  get_current_user request w = (Ok u, w) ->
  In i (food_items (db w)) ->
  FoodItem.user_id i = User.id u ->
  let w1 := exec (mark_item_used (FoodItem.id i) request) w in
  In (FoodItem.with_is_used true i) (food_items (db w1))
  /\ (forall j, In j (food_items (db w1)) -> FoodItem.id j = FoodItem.id i ->
                FoodItem.is_used j = true)
  /\ (forall j, FoodItem.id j <> FoodItem.id i ->
                (In j (food_items (db w1)) <-> In j (food_items (db w))))
  /\ (exists ingredients,
        recipes_page clk request w1
        = (Ok (TemplatePage "recipes.html" (RecipesPage u ingredients)),
           mkWorld (db w1) (S (tick w1)) (stdout w1))
        /\ forall j, In j ingredients ->
                     FoodItem.id j <> FoodItem.id i /\ In j (food_items (db w)))
  /\ db (exec (mark_item_used (FoodItem.id i) request) w1) = db w1.
Proof.
  intros Hu Hi Hown w1.
  assert (Hw1 : w1 = mkWorld (mkStore (users (db w))
                                (mark_used_rows (FoodItem.id i) (food_items (db w)))
                                (notifications (db w))) (tick w) (stdout w)).
  { unfold w1, exec. now rewrite (mark_item_used_run _ u _ _ Hu Hi Hown). }
  assert (Hu1 : get_current_user request w1 = (Ok u, w1)).
  { apply (get_current_user_users request w); [now rewrite Hw1 | exact Hu]. }
  assert (Hrows : forall j, In j (food_items (db w1)) ->
            exists a, In a (food_items (db w))
                      /\ j = (if FoodItem.id a =? FoodItem.id i
                              then FoodItem.with_is_used true a else a)).
  { rewrite Hw1. cbn [db food_items]. unfold mark_used_rows. intros j Hj.
    apply in_map_iff in Hj. destruct Hj as [a [<- Ha]]. eauto. }
  assert (Hused : forall j, In j (food_items (db w1)) -> FoodItem.id j = FoodItem.id i ->
                            FoodItem.is_used j = true).
  { intros j Hj Hid. destruct (Hrows j Hj) as [a [_ ->]].
    destruct (Z.eqb_spec (FoodItem.id a) (FoodItem.id i)) as [|Hne]; [reflexivity|].
    now destruct Hne. }
  assert (Hother : forall j, FoodItem.id j <> FoodItem.id i ->
                             (In j (food_items (db w1)) <-> In j (food_items (db w)))).
  { intros j Hne. split.
    - intros Hj. destruct (Hrows j Hj) as [a [Ha ->]].
      destruct (Z.eqb_spec (FoodItem.id a) (FoodItem.id i)) as [Heq|_]; [|exact Ha].
      now destruct Hne.
    - intros Hj. rewrite Hw1. cbn [db food_items]. unfold mark_used_rows.
      apply in_map_iff. exists j. apply Z.eqb_neq in Hne. now rewrite Hne. }
  split; [|split; [exact Hused|split; [exact Hother|split]]].
  - rewrite Hw1. cbn [db food_items]. unfold mark_used_rows. apply in_map_iff.
    exists i. now rewrite Z.eqb_refl.
  - eexists. split.
    + unfold recipes_page, bind at 1. rewrite Hu1. reflexivity.
    + intros j Hj. apply filter_In in Hj. destruct Hj as [Hj Hp].
      rewrite !andb_true_iff, negb_true_iff in Hp. destruct Hp as [_ Hunused].
      cbn [db] in Hj.
      assert (Hne : FoodItem.id j <> FoodItem.id i).
      { intros Heq. rewrite (Hused j Hj Heq) in Hunused. discriminate. }
      split; [exact Hne|]. now apply Hother.
  - assert (Hi1 : In (FoodItem.with_is_used true i) (food_items (db w1))).
    { rewrite Hw1. cbn [db food_items]. unfold mark_used_rows. apply in_map_iff.
      exists i. now rewrite Z.eqb_refl. }
    pose proof (mark_item_used_run request u (FoodItem.with_is_used true i) w1
                  Hu1 Hi1 Hown) as Hrun.
    simpl FoodItem.id in Hrun. unfold exec. rewrite Hrun.
    cbn [snd db]. rewrite Hw1.
    cbn [db users food_items notifications]. now rewrite mark_used_rows_twice.
Qed.

(** X21: after an admin has approved a user, the admin dashboard no longer
    lists that user as pending; it lists every other unapproved user and no
    one else, and the number of expired items it reports lies between 0 and
    the number of items. *)
Theorem approved_user_leaves_pending_list (request : Request) (a t : User.t) (w : World) :
  require_admin request w = (Ok a, w) ->
  In t (users (db w)) ->
  let w1 := exec (approve_user (User.id t) request) w in
  exists a' pending all n_items n_expired,
    admin_dashboard request w1
    = (Ok (TemplatePage "admin_dashboard.html"
             (AdminDashboardPage a' pending all n_items n_expired)), w1)
    /\ (forall v, In v pending <->
                  In v (users (db w)) /\ User.is_approved v = false
                  /\ User.id v <> User.id t)
    /\ 0 <= n_expired <= n_items.
Proof.
  intros Ha Ht w1.
  assert (Hw1 : w1 = mkWorld (mkStore (approve_row (User.id t) (users (db w)))
                                (food_items (db w)) (notifications (db w)))
                       (tick w) (stdout w)).
  { unfold w1, exec. now rewrite (approve_user_run _ _ _ a t Ha Ht eq_refl). }
  destruct (require_admin_after_approval (User.id t) request w w1 a) as [a' Ha'];
    [now rewrite Hw1 | exact Ha |].
  do 5 eexists. split; [|split].
  - unfold admin_dashboard, bind at 1. rewrite Ha'. reflexivity.
  - intros v. rewrite Hw1. cbn [db users]. rewrite filter_In, negb_true_iff.
    unfold approve_row. rewrite in_map_iff. split.
    + intros [[x [<- Hx]] Hpending].
      destruct (Z.eqb_spec (User.id x) (User.id t)) as [Heq|Hne].
      * simpl in Hpending. discriminate.
      * auto.
    + intros [Hv [Hpending Hne]]. split; [|exact Hpending].
      exists v. apply Z.eqb_neq in Hne. now rewrite Hne.
  - apply len_filter_bounds.
Qed.

End Used.

(** * The routes at work on the pantry *)

Module Walkthrough.

Import Instances.

Lemma pantry_keys : keys_unique (db pantry).
Proof.
  unfold keys_unique. simpl.
  repeat split; repeat constructor; simpl; intuition discriminate.
Qed.

Lemma pantry_owners : owners_exist (db pantry).
Proof.
  intros i [<-|[<-|[<-|[]]]]; [exists ann | exists bob | exists bob]; simpl; auto.
Qed.

Lemma pantry_sole_admin : sole_admin 1 (db pantry).
Proof.
  split.
  - exists ann. simpl. auto.
  - intros u [<-|[<-|[]]] H; [reflexivity | discriminate H].
Qed.

(** A day of requests: a third user signs up, Ann approves Bob, Bob adds tea,
    looks at his dashboard and uses up the rice, Ann throws away the milk,
    the sweep runs, and Ann deletes Bob. *)
Definition a_day : list (Route * Request) :=
  [(PostSignup "cy" "cy@example.org" "pw" "", anonymous);
   (PostAdminApprove 2, as_ann);
   (PostAddItem "tea" "" "" (Some (day 30)) 1 None None, as_bob);
   (GetDashboard, as_bob);
   (PostItemMarkUsed 2, as_bob);
   (PostItemDelete 1, as_ann);
   (GetCheckNotifications, anonymous);
   (PostAdminDeleteUser 2, as_ann)].

Lemma keys_stay_unique_witness :
  keys_unique (db (run_requests noon12 digest a_day pantry)).
Proof. exact (keys_stay_unique noon12 digest a_day pantry pantry_keys). Defined.

Lemma items_keep_their_owner_witness :
  owners_exist (db (run_requests noon12 digest a_day pantry)).
Proof. exact (items_keep_their_owner noon12 digest a_day pantry pantry_owners). Defined.

Lemma sole_admin_stays_witness :
  sole_admin 1 (db (run_requests noon12 digest a_day pantry)).
Proof. exact (sole_admin_stays noon12 digest 1 a_day pantry pantry_sole_admin). Defined.

Lemma other_digest : digest "pwd" <> digest "pw".
Proof. vm_compute. intros H. discriminate H. Qed.

Lemma signup_then_login_witness :
  let w1 := with_ann in
  login digest anonymous "ann" "pw" w1
  = (Ok (RedirectResponse "/admin/dashboard" 302, as_ann), w1)
  /\ login digest anonymous "ann" "pwd" w1 = (Ok (invalid_login, anonymous), w1).
Proof.
  exact (signup_then_login noon12 digest anonymous anonymous "ann" "ann@example.org"
           "pw" "" "pwd" fresh_install fresh_install_free other_digest).
Defined.

Lemma bob_other_password :
  forall u, In u (users (db pantry)) -> User.username u = "bob"%string ->
            digest "pwd" <> User.password u.
Proof. intros u [<-|[<-|[]]] _; exact other_digest. Qed.

Lemma login_rejects_bad_credentials_witness :
  login digest anonymous "bob" "pwd" pantry = (Ok (invalid_login, anonymous), pantry).
Proof.
  exact (login_rejects_bad_credentials digest anonymous "bob" "pwd" pantry
           bob_other_password).
Defined.

Lemma approval_opens_login_witness :
  let w1 := exec (approve_user 2 as_ann) pantry in
  login digest anonymous "bob" "pw" pantry = (Ok (pending_login, anonymous), pantry)
  /\ login digest anonymous "bob" "pw" w1
     = (Ok (RedirectResponse "/dashboard" 302, as_bob), w1).
Proof.
  exact (approval_opens_login digest as_ann anonymous ann bob "pw" pantry
           (proj1 (proj2 pantry_keys)) bob_in_pantry eq_refl eq_refl eq_refl).
Defined.

Lemma anonymous_is_refused_witness :
  dashboard noon12 anonymous pantry = (Raise not_authenticated, pantry)
  /\ delete_item 1 anonymous pantry = (Raise not_authenticated, pantry)
  /\ delete_user 2 anonymous pantry = (Raise not_authenticated, pantry).
Proof.
  destruct (anonymous_is_refused noon12 anonymous pantry (or_introl eq_refl))
    as [Hdash [_ [Hitem [_ [_ [Huser _]]]]]].
  split; [exact Hdash|]. split; [exact (Hitem 1) | exact (Huser 2)].
Defined.

Lemma bob_is_no_admin :
  forall v, In v (users (db pantry)) -> User.id v = 2 -> User.is_admin v = false.
Proof. intros v [<-|[<-|[]]] H; [discriminate H | reflexivity]. Qed.

Lemma non_admin_is_refused_witness :
  approve_user 2 as_bob pantry = (Raise admin_required, pantry)
  /\ delete_user 1 as_bob pantry = (Raise admin_required, pantry)
  /\ admin_dashboard as_bob pantry = (Raise admin_required, pantry).
Proof.
  assert (Hnz : 2 <> 0) by lia.
  destruct (non_admin_is_refused as_bob 2 pantry eq_refl Hnz bob_is_no_admin)
    as [Happrove [Hdelete Hboard]].
  split; [exact (Happrove 2)|]. split; [exact (Hdelete 1) | exact Hboard].
Defined.

Lemma deleted_user_is_locked_out_witness :
  let w1 := exec (delete_user 2 as_ann) pantry in
  dashboard noon12 as_bob w1 = (Raise user_not_found, w1)
  /\ mark_item_used 2 as_bob w1 = (Raise user_not_found, w1)
  /\ notifications_page as_bob w1 = (Raise user_not_found, w1).
Proof.
  assert (Hne : User.id bob <> User.id ann) by (simpl; lia).
  assert (Hnz : User.id bob <> 0) by (simpl; lia).
  destruct (deleted_user_is_locked_out noon12 as_ann as_bob ann bob pantry eq_refl
              bob_in_pantry Hne Hnz eq_refl)
    as [Hdash [_ [_ [Hused [_ [Hpage _]]]]]].
  split; [exact Hdash|]. split; [exact (Hused 2) | exact Hpage].
Defined.

Lemma milk_is_not_bobs :
  forall i, In i (food_items (db pantry)) -> FoodItem.id i = 1 ->
            FoodItem.user_id i <> User.id bob.
Proof. intros i [<-|[<-|[<-|[]]]] H; simpl in *; lia. Qed.

Lemma no_item_beyond_64_bits :
  forall i, In i (food_items (db pantry)) -> FoodItem.id i = 2 ^ 63 ->
            FoodItem.user_id i <> User.id bob.
Proof. intros i [<-|[<-|[<-|[]]]] H; discriminate H. Qed.

Lemma foreign_item_is_untouched_witness :
  delete_item 1 as_bob pantry = (Ok (RedirectResponse "/dashboard" 302), pantry)
  /\ mark_item_used 1 as_bob pantry = (Ok (RedirectResponse "/dashboard" 302), pantry)
  /\ delete_item (2 ^ 63) as_bob pantry = (Raise internal_server_error, pantry).
Proof.
  destruct (foreign_item_is_untouched as_bob bob 1 pantry eq_refl milk_is_not_bobs)
    as [Hdelete Hused].
  split; [exact Hdelete|]. split; [exact Hused|].
  exact (proj1 (foreign_item_is_untouched as_bob bob (2 ^ 63) pantry eq_refl
                  no_item_beyond_64_bits)).
Defined.

Lemma pantry_rowids : rowids_in_use (map FoodItem.id (food_items (db pantry))).
Proof. unfold rowids_in_use. simpl. repeat constructor; lia. Qed.

(** Bob adds tea he got for nothing, the price written as -0.0. *)
Lemma add_then_delete_restores_witness :
  let w1 := exec (add_item noon12 as_bob "tea" "" "" (Some (day 30)) 1
                    (Some neg_zero) None) pantry in
  let added := new_item noon12 bob "tea" "" "" (day 30) 1 (Some neg_zero) None pantry in
  food_items (db w1) = food_items (db pantry) ++ [added]
  /\ FoodItem.price added = Some 0%float
  /\ db (exec (delete_item 4 as_bob) w1) = db pantry.
Proof.
  destruct (add_then_delete_restores noon12 as_bob bob "tea" "" "" (day 30) 1
              (Some neg_zero) None pantry eq_refl eq_refl pantry_rowids)
    as [Hrows [_ [_ [Hprice [_ [_ Hback]]]]]].
  split; [exact Hrows|]. split; [exact Hprice | exact Hback].
Defined.

(** The pantry with yoghurt that has five days to go. *)
Definition yoghurt : FoodItem.t := item 4 1 "yoghurt" (day 17) None false false.

Definition larder : World :=
  mkWorld (mkStore [ann; bob] [milk; rice; eggs; yoghurt] []) 0 [].

Lemma larder_ids_unique : item_ids_unique (db larder).
Proof.
  unfold item_ids_unique. simpl.
  repeat constructor; simpl; intuition discriminate.
Qed.

Lemma yoghurt_in_larder : In yoghurt (food_items (db larder)).
Proof. simpl. auto. Qed.

Lemma sweep_sends_what_is_due_witness :
  let s' := db (exec (check_and_send_notifications noon12) larder) in
  count_sent 4 "month" (notifications s') = 1%nat
  /\ count_sent 4 "week" (notifications s') = 1%nat
  /\ count_sent 4 "day" (notifications s') = 0%nat
  /\ count_sent 4 "expired" (notifications s') = 0%nat.
Proof.
  assert (Hpos : 0 <= 5) by lia.
  destruct (sweep_sends_what_is_due noon12 larder yoghurt 5 larder_ids_unique
              yoghurt_in_larder eq_refl (Forall_nil _) (fun t => eq_refl) Hpos)
    as [Hcount _].
  split; [exact (Hcount "month"%string)|].
  split; [exact (Hcount "week"%string)|].
  split; [exact (Hcount "day"%string) | exact (Hcount "expired"%string)].
Defined.

Lemma three_items_ids_unique : item_ids_unique (db three_items).
Proof.
  unfold item_ids_unique. simpl.
  repeat constructor; simpl; intuition discriminate.
Qed.

Definition old_milk : FoodItem.t := item 2 2 "milk" (day 10) (Some 3%float) true false.

Lemma old_milk_in_three_items : In old_milk (food_items (db three_items)).
Proof. simpl. auto. Qed.

Lemma flagged_item_gets_nothing_witness :
  let s' := db (run_pass noon12 (DashboardPass as_bob) three_items) in
  count_sent 2 "expired" (notifications s') = 0%nat
  /\ In old_milk (food_items s').
Proof.
  destruct (flagged_item_gets_nothing noon12 (DashboardPass as_bob) three_items old_milk
              three_items_ids_unique old_milk_in_three_items eq_refl)
    as [Hcount Hrow].
  split; [exact (Hcount "expired"%string) | exact Hrow].
Defined.

Lemma milk_flagged_by_sweep :
  In (FoodItem.with_is_expired true milk)
     (food_items (db (run_pass noon12 SweepPass pantry))).
Proof. vm_compute. left. reflexivity. Qed.

Lemma flags_only_on_overdue_witness :
  exists row,
    In row (food_items (db pantry))
    /\ (FoodItem.with_is_expired true milk = row
        \/ FoodItem.with_is_expired true milk = FoodItem.with_is_expired true row)
    /\ (FoodItem.is_expired row = true \/ date_of (FoodItem.expiry_date row) < 12).
Proof.
  exact (flags_only_on_overdue noon12 12 noon12_same_day SweepPass pantry
           (FoodItem.with_is_expired true milk) pantry_ids_unique milk_flagged_by_sweep
           eq_refl).
Defined.

Lemma dashboard_shelves_items_witness :
  exists buckets stats w',
    dashboard noon12 as_bob pantry
    = (Ok (TemplateResponse "dashboard.html" (DashboardContext bob buckets stats)), w')
    /\ expired buckets = []
    /\ expiring_soon buckets = []
    /\ fresh buckets = [(rice, 30)].
Proof.
  destruct (dashboard_shelves_items noon12 12 noon12_same_day as_bob bob pantry eq_refl)
    as [buckets [stats [w' [Hrun [Hdb [_ Hshelves]]]]]].
  cbv zeta in Hshelves. rewrite Hdb in Hshelves.
  destruct Hshelves as [[rows [Hrows [_ [He [Hs [Hf _]]]]]] _].
  apply Permutation_sym, Permutation_length_1_inv in Hrows. subst rows.
  exists buckets, stats, w'. split; [exact Hrun|].
  split; [exact He|]. split; [exact Hs | exact Hf].
Defined.

(** The pantry after three notifications, two of them Bob's. *)
Definition notified : World :=
  mkWorld (mkStore [ann; bob] [milk; rice; eggs]
             [Notification.mk 1 2 2 "month" (day 12) "rice expires in 30 days!";
              Notification.mk 2 1 1 "expired" (day 12) "milk has expired!";
              Notification.mk 3 2 2 "week" (day 35) "rice expires in 7 days!"])
          0 [].

Lemma notifications_page_newest_first_witness :
  exists shown,
    notifications_page as_bob notified
    = (Ok (TemplatePage "notifications.html" (NotificationsPage bob shown)), notified)
    /\ (List.length shown <= 50)%nat
    /\ StronglySorted not_older shown.
Proof.
  destruct (notifications_page_newest_first as_bob bob notified eq_refl)
    as [shown [Hpage [Hlen [_ [Hsorted _]]]]].
  exists shown. split; [exact Hpage|]. split; [exact Hlen | exact Hsorted].
Defined.

Lemma mark_item_used_hides_item_witness :
  let w1 := exec (mark_item_used 2 as_bob) pantry in
  In (FoodItem.with_is_used true rice) (food_items (db w1))
  /\ db (exec (mark_item_used 2 as_bob) w1) = db w1.
Proof.
  destruct (mark_item_used_hides_item noon12 as_bob bob rice pantry eq_refl
              rice_in_pantry eq_refl)
    as [Hrow [_ [_ [_ Hagain]]]].
  split; [exact Hrow | exact Hagain].
Defined.

Lemma approved_user_leaves_pending_list_witness :
  let w1 := exec (approve_user 2 as_ann) pantry in
  exists a' pending all n_items n_expired,
    admin_dashboard as_ann w1
    = (Ok (TemplatePage "admin_dashboard.html"
             (AdminDashboardPage a' pending all n_items n_expired)), w1)
    /\ ~ In bob pending.
Proof.
  destruct (approved_user_leaves_pending_list as_ann ann bob pantry eq_refl bob_in_pantry)
    as [a' [pending [all [n_items [n_expired [Hpage [Hpending _]]]]]]].
  exists a', pending, all, n_items, n_expired. split; [exact Hpage|].
  intros Hin. apply Hpending in Hin. destruct Hin as [_ [_ Hne]]. now apply Hne.
Defined.

End Walkthrough.
